(** * solidus-telebot: compliance rules, usage limits and address validation

    A shallow embedding of the decision logic of the Elliptic Telegram bot
    ([config.py], [elliptic_client.py], [database.py], [validators.py] and the
    wallet handler of [bot.py]) together with the properties its
    specification states about it.

    Conventions of the embedding.
    - A Python [str] is the list of its Unicode code points, [list N];
      [lit "..."] is a literal.
    - A JSON number (Python [int] or finite [float]) is the rational it
      denotes, [Q]: for a [float] that is the binary fraction the parser
      stores, not the decimal of the payload.  Python compares numbers by
      value, so [>=] and [>] are [Qle_bool] and its strict variant.  Hop
      counts are integers, [Z].
    - A dictionary read with [d.get(key, default)] is a record whose field is
      an [option]: [None] is the absent key.  The evaluator is also given
      over payloads in which a field may be null ([Json]), where it can
      raise.
    - An f-string is the list of its pieces ([fstring]): literal text and the
      values substituted into the holes.
    - A loop with an early [return] is [for_each], whose body answers
      [Continue] with the updated accumulator or [Return] with the result. *)

From Stdlib Require Import ZArith QArith Qround Qabs String Ascii List Lia Lqa.
From stdpp Require Import gmap strings list.

Local Open Scope Z_scope.

(** ** Python strings and f-strings *)

Abbreviation pystr := (list N) (only parsing).

Definition lit (s : string) : pystr :=
  map N_of_ascii (list_ascii_of_string s).

Inductive piece : Type :=
  | Txt (s : string)      (* literal text of the f-string *)
  | Str (s : pystr)       (* {s} for a string value *)
  | IntV (z : Z)          (* {z} for an integer value *)
  | NumV (q : Q)          (* {q} for a number *)
  | Num2f (q : Q).        (* {q:.2f} *)

Abbreviation fstring := (list piece) (only parsing).

(** Python numbers compared by value. *)
Definition Qge_bool (x y : Q) : bool := Qle_bool y x.
Definition Qgt_bool (x y : Q) : bool := negb (Qle_bool x y).

(** Equality of f-strings, piece by piece. *)
#[global] Instance Q_eq_dec : EqDecision Q.
Proof. solve_decision. Defined.

#[global] Instance piece_eq_dec : EqDecision piece.
Proof. solve_decision. Defined.

(** [text.startswith(prefix)] for a text whose first piece is a literal that
    is at least as long as [prefix], as every decision of the evaluator is. *)
Definition startswith (prefix : string) (text : fstring) : bool :=
  match text with
  | Txt s :: _ => String.prefix prefix s
  | _ => false
  end.

(** [round(x, 2)]: the nearest multiple of 1/100, ties to the even one. *)
Definition round_half_even (x : Q) : Z :=
  let n := Qfloor x in
  match Qcompare (x - inject_Z n) (1 # 2) with
  | Lt => n
  | Gt => n + 1
  | Eq => if Z.even n then n else n + 1
  end.

Definition round2 (x : Q) : Q := Qmake (round_half_even (x * 100)) 100.

(** ** config.py *)

Module config.

Record thresholds : Type := {
  RISK_SCORE_THRESHOLD : Q;
  MAX_HOP_DISTANCE : Z;
  GAMBLING_HOP_LIMIT : Z;
  GAMBLING_CONTRIBUTION_THRESHOLD : Q;
}.

(** The values taken when the environment sets none of them. *)
Definition defaults : thresholds := {|
  RISK_SCORE_THRESHOLD := 5;
  MAX_HOP_DISTANCE := 3;
  GAMBLING_HOP_LIMIT := 2;
  GAMBLING_CONTRIBUTION_THRESHOLD := 3;
|}.

Definition HIGH_RISK_CATEGORIES : gset pystr :=
  list_to_set (map lit [
    "Dark Forum"; "Phishing"; "Dark Market - Centralised";
    "Dark Market - Decentralised"; "Dark Vendor Shop"; "Ponzi Scheme";
    "Ransomware"; "Dark Service"; "Activist Fundraising";
    "Child Sexual Abuse Material Vendor"; "Terrorist Organisation";
    "OFAC Sanctioned Entity"; "Criminal Organisation"; "Extortion";
    "Known Criminal"; "FinCEN Primary Money Laundering Concern";
    "Shielded"; "Mixer"; "High Transaction Fee"; "Research Chemicals";
    "Charity"; "Scam"; "Credit Card Data Vendor"; "Malware";
    "Political Campaign"; "Reported Loss"
  ]%string).

Definition HIGH_RISK_COUNTRIES : gset pystr :=
  list_to_set (map lit [
    "IR"; "CU"; "VE"; "KP"; "SY"; "MM"; "UA-43"; "UA-14"; "UA-09";
    "UA-23"; "UA-65"; "RU"
  ]%string).

Definition DEFAULT_DAILY_LIMIT : Z := 10.
Definition DEFAULT_MONTHLY_LIMIT : Z := 300.

End config.

(** ** The risk assessment returned by the API (a JSON object) *)

Inductive CountryField : Type :=
  | CountryList (codes : list pystr)
  | CountryNotList.                       (* any value that is not a list *)

Record RiskTriggers : Type := {
  country : option CountryField;
}.

Record Contribution : Type := {
  min_number_of_hops : option Z;
  indirect_percentage : option Q;
  risk_triggers : option RiskTriggers;
}.

Record MatchedElement : Type := {
  category_id : option pystr;
  contributions : option (list Contribution);
}.

Record Exposure : Type := {
  matched_elements : option (list MatchedElement);
}.

Record EvaluationDetail : Type := {
  source : option (list Exposure);
  destination : option (list Exposure);
}.

Record ResponseData : Type := {
  risk_score : option Q;                  (* absent or null *)
  evaluation_detail : option EvaluationDetail;
  inflow_usd : option Q;     (* blockchain_info.cluster.inflow_value.usd *)
  outflow_usd : option Q;    (* blockchain_info.cluster.outflow_value.usd *)
}.

(** The empty dictionaries used as [.get] defaults. *)
Definition no_evaluation_detail : EvaluationDetail :=
  {| source := None; destination := None |}.
Definition no_risk_triggers : RiskTriggers := {| country := None |}.

(** ** The verdict *)

Inductive RiskType : Type := Source | Destination.

Record RuleHit : Type := {
  hit_category : pystr;
  hit_hops : Z;
  hit_contribution : Q;
}.

Record TriggeredRules : Type := {
  tr_Source : list RuleHit;
  tr_Destination : list RuleHit;
}.

Record Details : Type := {
  reason : fstring;
  d_risk_score : option Q;
  d_category : option pystr;
  d_country : option pystr;
  d_hops : option Z;
  d_contribution : option Q;
  triggered_rules : TriggeredRules;
}.

(** [triggered_rules[risk_type].append(hit)] *)
Definition append_hit (risk_type : RiskType) (hit : RuleHit)
    (tr : TriggeredRules) : TriggeredRules :=
  match risk_type with
  | Source =>
      {| tr_Source := tr_Source tr ++ [hit];
         tr_Destination := tr_Destination tr |}
  | Destination =>
      {| tr_Source := tr_Source tr;
         tr_Destination := tr_Destination tr ++ [hit] |}
  end.

(** ** Loops with an early return *)

Inductive Flow (S R : Type) : Type :=
  | Continue (s : S)
  | Return (r : R).
Arguments Continue {S R} s.
Arguments Return {S R} r.

Fixpoint for_each {A S R : Type} (body : A -> S -> Flow S R)
    (l : list A) (s : S) : Flow S R :=
  match l with
  | [] => Continue s
  | x :: rest =>
      match body x s with
      | Continue s' => for_each body rest s'
      | Return r => Return r
      end
  end.

(** ** elliptic_client.py: the category registry and the compliance rules *)

Module EllipticClient.
Import config.

Section Rules.
Variable cfg : thresholds.
Variable category_mapping : gmap pystr pystr.

(** [self.category_mapping.get(category_id, "Unknown")] *)
Definition category_name (category_id : pystr) : pystr :=
  default (lit "Unknown") (category_mapping !! category_id).

(** The set comprehension over [self.category_mapping.items()]. *)
Definition high_risk_category_ids : gset pystr :=
  dom (filter (fun kv => kv.2 ∈ HIGH_RISK_CATEGORIES) category_mapping).

Definition Rejected (rejection_reason : fstring) : fstring :=
  Txt "Rejected - " :: rejection_reason.

Definition Approved : fstring := [Txt "Approved"].

(** The country codes the inner loop of rule 3 iterates over: none when
    the value is not a list. *)
Definition country_codes (contribution : Contribution) : list pystr :=
  match default (CountryList [])
          (country (default no_risk_triggers (risk_triggers contribution)))
  with
  | CountryList codes => codes
  | CountryNotList => []
  end.

(** The first code of the list for which rule 3 fires. *)
Definition high_risk_country (min_hops : Z) (codes : list pystr)
    : option pystr :=
  List.find
    (fun country_code =>
       bool_decide (country_code ∈ HIGH_RISK_COUNTRIES)
       && (min_hops <=? MAX_HOP_DISTANCE cfg))
    codes.

(** The body of the innermost loop, for one contribution. *)
Definition visit_contribution (risk_score : Q) (risk_type : RiskType)
    (category_id category : pystr) (contribution : Contribution)
    (triggered : TriggeredRules)
    : Flow TriggeredRules (fstring * Details) :=
  let min_hops := default 999 (min_number_of_hops contribution) in
  let indirect_pct := default 0%Q (indirect_percentage contribution) in
  let triggered :=
    append_hit risk_type
      {| hit_category := category;
         hit_hops := min_hops;
         hit_contribution := round2 indirect_pct |} triggered in
  if bool_decide (category_id ∈ high_risk_category_ids)
     && (min_hops <=? MAX_HOP_DISTANCE cfg)
  then
    let rejection_reason :=
      [Str category; Txt " detected within "; IntV min_hops; Txt " hops"] in
    Return (Rejected rejection_reason,
            {| reason := rejection_reason;
               d_risk_score := Some risk_score;
               d_category := Some category;
               d_country := None;
               d_hops := Some min_hops;
               d_contribution := None;
               triggered_rules := triggered |})
  else
    match high_risk_country min_hops (country_codes contribution) with
    | Some country_code =>
        let rejection_reason :=
          [Txt "High-risk country "; Str country_code;
           Txt " detected within "; IntV min_hops; Txt " hops"] in
        Return (Rejected rejection_reason,
                {| reason := rejection_reason;
                   d_risk_score := Some risk_score;
                   d_category := None;
                   d_country := Some country_code;
                   d_hops := Some min_hops;
                   d_contribution := None;
                   triggered_rules := triggered |})
    | None =>
        if bool_decide (category = lit "Gambling") then
          if min_hops <=? GAMBLING_HOP_LIMIT cfg then
            let rejection_reason :=
              [Txt "Gambling found at "; IntV min_hops; Txt " hops"] in
            Return (Rejected rejection_reason,
                    {| reason := rejection_reason;
                       d_risk_score := Some risk_score;
                       d_category := Some category;
                       d_country := None;
                       d_hops := Some min_hops;
                       d_contribution := None;
                       triggered_rules := triggered |})
          else if (min_hops =? 3)
                  && Qgt_bool indirect_pct
                       (GAMBLING_CONTRIBUTION_THRESHOLD cfg)
          then
            let rejection_reason :=
              [Txt "Gambling at 3 hops with "; Num2f indirect_pct;
               Txt "% contribution"] in
            Return (Rejected rejection_reason,
                    {| reason := rejection_reason;
                       d_risk_score := Some risk_score;
                       d_category := Some category;
                       d_country := None;
                       d_hops := Some min_hops;
                       d_contribution := Some indirect_pct;
                       triggered_rules := triggered |})
          else Continue triggered
        else Continue triggered
    end.

Definition visit_element (risk_score : Q) (risk_type : RiskType)
    (matched_element : MatchedElement) (triggered : TriggeredRules)
    : Flow TriggeredRules (fstring * Details) :=
  let category_id :=
    default (lit "Unknown") (category_id matched_element) in
  let category := category_name category_id in
  for_each (visit_contribution risk_score risk_type category_id category)
    (default [] (contributions matched_element)) triggered.

Definition visit_exposure (risk_score : Q) (risk_type : RiskType)
    (exposure : Exposure) (triggered : TriggeredRules)
    : Flow TriggeredRules (fstring * Details) :=
  for_each (visit_element risk_score risk_type)
    (default [] (matched_elements exposure)) triggered.

Definition visit_exposure_list (risk_score : Q)
    (side : list Exposure * RiskType) (triggered : TriggeredRules)
    : Flow TriggeredRules (fstring * Details) :=
  for_each (visit_exposure risk_score side.2) side.1 triggered.

Definition apply_compliance_rules (response_data : ResponseData)
    : fstring * Details :=
  let source_exposures :=
    default []
      (source (default no_evaluation_detail
                 (evaluation_detail response_data))) in
  let destination_exposures :=
    default []
      (destination (default no_evaluation_detail
                      (evaluation_detail response_data))) in
  let triggered := {| tr_Source := []; tr_Destination := [] |} in
  match risk_score response_data with
  | None =>
      (Approved,
       {| reason := [Txt "No risk score found"];
          d_risk_score := None;
          d_category := None;
          d_country := None;
          d_hops := None;
          d_contribution := None;
          triggered_rules := triggered |})
  | Some score =>
      if Qge_bool score (RISK_SCORE_THRESHOLD cfg) then
        let rejection_reason :=
          [Txt "High Risk Score ("; NumV score; Txt ")"] in
        (Rejected rejection_reason,
         {| reason := rejection_reason;
            d_risk_score := Some score;
            d_category := None;
            d_country := None;
            d_hops := None;
            d_contribution := None;
            triggered_rules := triggered |})
      else
        match
          for_each (visit_exposure_list score)
            [(source_exposures, Source);
             (destination_exposures, Destination)] triggered
        with
        | Return verdict => verdict
        | Continue triggered =>
            (Approved,
             {| reason := [Txt "All compliance checks passed"];
                d_risk_score := Some score;
                d_category := None;
                d_country := None;
                d_hops := None;
                d_contribution := None;
                triggered_rules := triggered |})
        end
  end.

End Rules.

End EllipticClient.

(** ** Python [str] functions used by the program *)

(** The code points [str.isspace] accepts, which are the ones [str.strip]
    removes. *)
Definition isspace (c : N) : bool :=
  (((9 <=? c) && (c <=? 13)) || ((28 <=? c) && (c <=? 32))
   || (c =? 133) || (c =? 160) || (c =? 5760)
   || ((8192 <=? c) && (c <=? 8202)) || (c =? 8232) || (c =? 8233)
   || (c =? 8239) || (c =? 8287) || (c =? 12288))%N.

Fixpoint lstrip (s : pystr) : pystr :=
  match s with
  | c :: rest => if isspace c then lstrip rest else s
  | [] => []
  end.

Definition rstrip (s : pystr) : pystr := rev (lstrip (rev s)).

Definition strip (s : pystr) : pystr := rstrip (lstrip s).

(** [s.lstrip(chars)]: the leading characters that occur in [chars] are
    removed. *)
Fixpoint lstrip_chars (chars s : pystr) : pystr :=
  match s with
  | c :: rest =>
      if bool_decide (c ∈ chars) then lstrip_chars chars rest else s
  | [] => []
  end.

(** ** The regular expressions of validators.py

    Every pattern of the file has the shape [^ item ... item $], where an
    item is a character class with a repetition count.  [re.match] succeeds
    when some split of the subject fits the items, which the matcher finds by
    trying the longest repetition first and backing off. *)

Module re.

(** A character class: the inclusive ranges between its brackets. *)
Abbreviation class := (list (ascii * ascii)) (only parsing).

Record item : Type := Item {
  cls : class;
  lo : nat;
  hi : nat;
}.

Definition in_class (ranges : class) (c : N) : bool :=
  existsb (fun r => (N_of_ascii r.1 <=? c) && (c <=? N_of_ascii r.2))%N ranges.

(** [$]: the end of the string, or just before a newline that ends it. *)
Definition at_end (s : pystr) : bool :=
  match s with
  | [] => true
  | [c] => (c =? 10)%N
  | _ => false
  end.

(** [class{lo,hi}] followed by the continuation [k]. *)
Fixpoint repeat (ranges : class) (lo hi : nat) (k : pystr -> bool)
    (s : pystr) : bool :=
  match hi with
  | O => Nat.eqb lo 0 && k s
  | S hi' =>
      match s with
      | c :: rest =>
          (in_class ranges c && repeat ranges (Nat.pred lo) hi' k rest)
          || (Nat.eqb lo 0 && k s)
      | [] => Nat.eqb lo 0 && k s
      end
  end.

Fixpoint items (p : list item) (s : pystr) : bool :=
  match p with
  | [] => at_end s
  | i :: rest => repeat (cls i) (lo i) (hi i) (items rest) s
  end.

(** [re.match(r'^...$', s)] is not [None]. *)
Definition matches (p : list item) (s : pystr) : bool := items p s.

(** Bounds on what a pattern can match: the least and the greatest number
    of characters, and the characters of any of its classes. *)
Definition min_length (p : list item) : nat :=
  fold_right (fun i n => (lo i + n)%nat) 0%nat p.
Definition max_length (p : list item) : nat :=
  fold_right (fun i n => (hi i + n)%nat) 0%nat p.
Definition any_class (p : list item) (c : N) : bool :=
  existsb (fun i => in_class (cls i) c) p.

(** Every range of [small] lies within one range of [big]. *)
Definition class_within (small big : class) : bool :=
  forallb (fun r =>
    existsb (fun r' =>
      (N_of_ascii r'.1 <=? N_of_ascii r.1)
      && (N_of_ascii r.2 <=? N_of_ascii r'.2))%N big) small.

(** [class{lo,}] followed by the continuation [k]; [class+] is
    [many class 1]. *)
Fixpoint many (ranges : class) (lo : nat) (k : pystr -> bool) (s : pystr)
    : bool :=
  match s with
  | c :: rest =>
      (in_class ranges c && many ranges (Nat.pred lo) k rest)
      || (Nat.eqb lo 0 && k s)
  | [] => Nat.eqb lo 0 && k s
  end.

(** Items as they are written: a literal character, a class, a counted
    class. *)
Definition chr (a : ascii) : item := Item [(a, a)] 1 1.
Definition one (ranges : class) : item := Item ranges 1 1.
Definition rep (ranges : class) (m n : nat) : item := Item ranges m n.

End re.

(** ** validators.py *)

Module validators.
Import re.
Local Open Scope char_scope.

Definition base58 : class :=
  [("a", "k"); ("m", "z"); ("A", "H"); ("J", "N"); ("P", "Z"); ("1", "9")].

(** [^[13][a-km-zA-HJ-NP-Z1-9]{25,34}$] *)
Definition btc_legacy : list item :=
  [one [("1", "1"); ("3", "3")]; rep base58 25 34].

(** [^bc1[a-z0-9]{39,59}$] *)
Definition btc_segwit : list item :=
  [chr "b"; chr "c"; chr "1"; rep [("a", "z"); ("0", "9")] 39 59].

(** [^0x[a-fA-F0-9]{40}$] *)
Definition eth_pattern : list item :=
  [chr "0"; chr "x"; rep [("a", "f"); ("A", "F"); ("0", "9")] 40 40].

(** [^[LM3][a-km-zA-HJ-NP-Z1-9]{26,33}$] *)
Definition ltc_pattern : list item :=
  [one [("L", "L"); ("M", "M"); ("3", "3")]; rep base58 26 33].

(** [^[a-zA-Z0-9]{26,90}$] *)
Definition alnum : class := [("a", "z"); ("A", "Z"); ("0", "9")].
Definition generic_pattern : list item := [rep alnum 26 90].

Definition validate_wallet_address (address : pystr) : bool * string :=
  if bool_decide (address = []) then
    (false, "Wallet address cannot be empty"%string)
  else
    let address := strip address in
    if (length address <? 26)%nat || (90 <? length address)%nat then
      (false, "Invalid wallet address length"%string)
    else
      if matches btc_legacy address || matches btc_segwit address
         || matches eth_pattern address || matches ltc_pattern address
         || matches generic_pattern address
      then (true, EmptyString)
      else (false,
            "Invalid wallet address format. Please provide a valid cryptocurrency address."%string).

(** [[a-zA-Z0-9_]] *)
Definition word : class := [("a", "z"); ("A", "Z"); ("0", "9"); ("_", "_")].

(** [re.match(r'^[a-zA-Z0-9_]+$', username)] is not [None]. *)
Definition username_pattern (username : pystr) : bool :=
  many word 1 at_end username.

Definition validate_telegram_username (username : pystr) : bool * string :=
  if bool_decide (username = []) then
    (false, "Username cannot be empty"%string)
  else
    let username := lstrip_chars (lit "@") username in
    if (length username <? 5)%nat || (32 <? length username)%nat then
      (false, "Username must be 5-32 characters long"%string)
    else if negb (username_pattern username) then
      (false,
       "Username can only contain letters, numbers, and underscores"%string)
    else (true, EmptyString).

(** [limit] is an [int] already, so [int(limit)] is [limit] and raises
    nothing. *)
Definition validate_limit (limit min_val max_val : Z) : bool * fstring :=
  if (limit <? min_val)%Z || (max_val <? limit)%Z then
    (false,
     [Txt "Limit must be between "; IntV min_val; Txt " and "; IntV max_val])
  else (true, []).

End validators.

(** ** EllipticClient.analyze_wallet: the outcome of the HTTP exchange

    The request itself (signature, retries, time-out) belongs to the
    environment; the method classifies what came back. *)

(** An exception, by the first [except] clause of [analyze_wallet] that
    catches it. *)
Inductive Exc : Type :=
  | Timeout
  | ConnectionError
  | RequestException (text : pystr)
  | JSONDecodeError
  | OtherException (text : pystr).

Inductive Body : Type :=
  | JsonDict (result : ResponseData)
  | JsonNotDict                            (* a list, a number, null, ... *)
  | JsonRaises (e : Exc).                  (* [response.json()] raises *)

Inductive PostOutcome : Type :=
  | PostRaises (e : Exc)
  | Response (status_code : Z) (http_error : pystr) (body : Body).

(** The triple [(success, response_data, error_message)], which is either
    [(True, result, None)] or [(False, None, error_msg)]. *)
Inductive ApiResult : Type :=
  | Success (response_data : ResponseData)
  | Failure (error_message : fstring).

Module API.

Definition handle (e : Exc) : ApiResult :=
  match e with
  | Timeout => Failure [Txt "API request timed out. Please try again."]
  | ConnectionError =>
      Failure [Txt "Failed to connect to Elliptic API. Please check your internet connection."]
  | RequestException text =>
      Failure [Txt "API request failed: "; Str text]
  | JSONDecodeError => Failure [Txt "Failed to parse API response"]
  | OtherException text =>
      Failure [Txt "Unexpected error during wallet analysis: "; Str text]
  end.

Definition analyze_wallet (outcome : PostOutcome) : ApiResult :=
  match outcome with
  | PostRaises e => handle e
  | Response status_code http_error body =>
      if status_code =? 401 then
        Failure [Txt "API authentication failed. Please check your credentials."]
      else if status_code =? 429 then
        Failure [Txt "API rate limit exceeded. Please try again later."]
      else if 500 <=? status_code then
        Failure [Txt "Elliptic API server error (HTTP "; IntV status_code;
                 Txt ")"]
      else if (400 <=? status_code) && (status_code <? 600) then
        (* response.raise_for_status() *)
        handle (RequestException http_error)
      else
        match body with
        | JsonRaises e => handle e
        | JsonNotDict => Failure [Txt "Invalid API response format"]
        | JsonDict result => Success result
        end
  end.

End API.

(** ** database.py

    The three tables are lists of rows in insertion order; a time stamp is
    a number of seconds.  The clock readings ([CURRENT_TIMESTAMP],
    [datetime.now()]) are arguments.  The store carries out the statements
    it is given; where it may raise instead, that is an argument too
    ([Store]). *)

Module Database.

Record User : Type := {
  id : Z;
  telegram_id : pystr;
  telegram_username : option pystr;
  is_admin : bool;
  is_active : bool;
  daily_limit : Z;
  monthly_limit : Z;
  created_at : Z;
  updated_at : Z;
}.

(** What is stored in the [risk_score] column: [details.get('risk_score',
    'N/A')] is a number or the text ['N/A']. *)
Inductive ScoreCell : Type :=
  | ScoreNumber (q : Q)
  | ScoreText (s : string).

Record UsageLog : Type := {
  ul_user_id : Z;
  ul_wallet_address : pystr;
  ul_risk_score : ScoreCell;
  ul_decision : fstring;
  ul_timestamp : Z;
}.

Record ErrorLog : Type := {
  el_user_id : option Z;
  el_error_type : string;
  el_error_message : fstring;
  el_wallet_address : pystr;
  el_timestamp : Z;
}.

Record t : Type := {
  users : list User;
  usage_logs : list UsageLog;
  error_logs : list ErrorLog;
}.

(** [SELECT * FROM users WHERE telegram_id = ?], first row. *)
Definition get_user (db : t) (tid : pystr) : option User :=
  List.find (fun u => bool_decide (telegram_id u = tid)) (users db).

Definition is_user_authorized (db : t) (tid : pystr) : bool :=
  match get_user db tid with
  | Some user => is_active user
  | None => false
  end.

Definition log_usage (db : t) (now : Z) (tid wallet_address : pystr)
    (score : ScoreCell) (decision : fstring) : t * bool :=
  match get_user db tid with
  | None => (db, false)
  | Some user =>
      ({| users := users db;
          usage_logs := usage_logs db ++
            [{| ul_user_id := id user;
                ul_wallet_address := wallet_address;
                ul_risk_score := score;
                ul_decision := decision;
                ul_timestamp := now |}];
          error_logs := error_logs db |}, true)
  end.

Definition days (n : Z) : Z := n * 86400.

(** [SELECT COUNT( * ) FROM usage_logs WHERE user_id = ? AND timestamp >= ?] *)
Definition get_usage_count (db : t) (now : Z) (tid : pystr)
    (period : string) : Z :=
  match get_user db tid with
  | None => 0
  | Some user =>
      let count time_threshold :=
        Z.of_nat (length (List.filter
          (fun row => (ul_user_id row =? id user)
                      && (time_threshold <=? ul_timestamp row))
          (usage_logs db))) in
      if String.eqb period "day" then count (now - days 1)
      else if String.eqb period "month" then count (now - days 30)
      else 0
  end.

(** [now_day] and [now_month] are the clock readings of the two counts. *)
Definition check_usage_limit (db : t) (now_day now_month : Z) (tid : pystr)
    : bool * fstring * Z * Z :=
  match get_user db tid with
  | None => (false, [Txt "User not authorized"], 0, 0)
  | Some user =>
      let daily_usage := get_usage_count db now_day tid "day" in
      let monthly_usage := get_usage_count db now_month tid "month" in
      let daily_limit := daily_limit user in
      let monthly_limit := monthly_limit user in
      let remaining_daily := Z.max 0 (daily_limit - daily_usage) in
      let remaining_monthly := Z.max 0 (monthly_limit - monthly_usage) in
      if daily_limit <=? daily_usage then
        (false,
         [Txt "Daily limit reached ("; IntV daily_limit; Txt " queries/day)"],
         remaining_daily, remaining_monthly)
      else if monthly_limit <=? monthly_usage then
        (false,
         [Txt "Monthly limit reached ("; IntV monthly_limit;
          Txt " queries/month)"],
         remaining_daily, remaining_monthly)
      else (true, [Txt "OK"], remaining_daily, remaining_monthly)
  end.

Definition log_error (db : t) (now : Z) (tid : option pystr)
    (error_type : string) (error_message : fstring)
    (wallet_address : pystr) : t * bool :=
  let user_id :=
    match tid with
    | Some (c :: rest) => id <$> get_user db (c :: rest)
    | _ => None                           (* [if telegram_id:] fails *)
    end in
  ({| users := users db;
      usage_logs := usage_logs db;
      error_logs := error_logs db ++
        [{| el_user_id := user_id;
            el_error_type := error_type;
            el_error_message := error_message;
            el_wallet_address := wallet_address;
            el_timestamp := now |}] |}, true).

(** *** User management *)

Definition is_user_admin (db : t) (tid : pystr) : bool :=
  match get_user db tid with
  | Some user => is_admin user
  | None => false
  end.

(** An integer that SQLite stores, a signed 64-bit one: [cursor.execute]
    raises [OverflowError] when it is handed any other as a parameter. *)
Definition sqlite_integer (z : Z) : bool :=
  (- 2 ^ 63 <=? z) && (z <? 2 ^ 63).

(** What the store does with a statement that writes: it carries it out, or
    it raises [sqlite3.OperationalError], as a database does that is locked
    by a connection left open.  [add_user] leaves one open itself: its
    [except sqlite3.IntegrityError] path returns without [conn.close()], so
    after an add refused for a taken handle the next write may be refused
    by the store. *)
Inductive Store : Type :=
  | Executes
  | OperationalError.

(** The answer of the store is an input.  The parameters are bound first
    ([OverflowError]), then the [INSERT] is run: the store may raise, and
    the UNIQUE constraint on [telegram_id] refuses a handle that is taken
    ([IntegrityError]).  The two [except] clauses answer False, and nothing
    has been written.  [rowid] is the key that AUTOINCREMENT gives the new
    row, a key no row has had before. *)
Definition add_user (store : Store) (db : t) (now rowid : Z)
    (tid : pystr) (username : option pystr) (admin : bool)
    (daily monthly : Z) : t * bool :=
  if negb (sqlite_integer daily && sqlite_integer monthly) then (db, false)
  else
    match store with
    | OperationalError => (db, false)
    | Executes =>
        match get_user db tid with
        | Some _ => (db, false)
        | None =>
            ({| users := users db ++
                  [{| id := rowid;
                      telegram_id := tid;
                      telegram_username := username;
                      is_admin := admin;
                      is_active := true;
                      daily_limit := daily;
                      monthly_limit := monthly;
                      created_at := now;
                      updated_at := now |}];
                usage_logs := usage_logs db;
                error_logs := error_logs db |}, true)
        end
    end.

(** The rows a statement with [WHERE telegram_id = ?] touches. *)
Definition has_handle (tid : pystr) (user : User) : bool :=
  bool_decide (telegram_id user = tid).

Definition rowcount (db : t) (tid : pystr) : nat :=
  length (List.filter (has_handle tid) (users db)).

(** [DELETE FROM users WHERE telegram_id = ?] *)
Definition remove_user (db : t) (tid : pystr) : t * bool :=
  ({| users := List.filter (fun user => negb (has_handle tid user)) (users db);
      usage_logs := usage_logs db;
      error_logs := error_logs db |},
   (0 <? rowcount db tid)%nat).

(** [UPDATE users SET daily_limit = ?, monthly_limit = ?, updated_at =
    CURRENT_TIMESTAMP WHERE telegram_id = ?], with the columns whose argument
    is not [None].  The limits given are the [params] of the statement: one
    that SQLite cannot store raises [OverflowError], which [except
    Exception] answers with False. *)
Definition update_user_limits (db : t) (now : Z) (tid : pystr)
    (daily monthly : option Z) : t * bool :=
  match daily, monthly with
  | None, None => (db, false)
  | _, _ =>
      if negb (forallb sqlite_integer
                 (option_list daily ++ option_list monthly))
      then (db, false)
      else
      ({| users :=
            map (fun user =>
                   if has_handle tid user then
                     {| id := id user;
                        telegram_id := telegram_id user;
                        telegram_username := telegram_username user;
                        is_admin := is_admin user;
                        is_active := is_active user;
                        daily_limit := default (daily_limit user) daily;
                        monthly_limit := default (monthly_limit user) monthly;
                        created_at := created_at user;
                        updated_at := now |}
                   else user) (users db);
          usage_logs := usage_logs db;
          error_logs := error_logs db |},
       (0 <? rowcount db tid)%nat)
  end.

(** [UPDATE users SET is_active = ?, updated_at = CURRENT_TIMESTAMP WHERE
    telegram_id = ?] *)
Definition toggle_user_status (db : t) (now : Z) (tid : pystr)
    (active : bool) : t * bool :=
  ({| users :=
        map (fun user =>
               if has_handle tid user then
                 {| id := id user;
                    telegram_id := telegram_id user;
                    telegram_username := telegram_username user;
                    is_admin := is_admin user;
                    is_active := active;
                    daily_limit := daily_limit user;
                    monthly_limit := monthly_limit user;
                    created_at := created_at user;
                    updated_at := now |}
               else user) (users db);
      usage_logs := usage_logs db;
      error_logs := error_logs db |},
   (0 <? rowcount db tid)%nat).

(** *** Statistics *)

(** [SELECT decision, COUNT( * ) ... GROUP BY decision], as the dictionary
    [{decision: count}]: one entry for each decision that occurs. *)
Fixpoint bump (decision : fstring) (groups : list (fstring * Z))
    : list (fstring * Z) :=
  match groups with
  | [] => [(decision, 1)]
  | (d, n) :: rest =>
      if decide (d = decision) then (d, n + 1) :: rest
      else (d, n) :: bump decision rest
  end.

Definition group_counts (decisions : list fstring) : list (fstring * Z) :=
  foldl (fun groups decision => bump decision groups) [] decisions.

(** [decisions.get(key, 0)] *)
Definition get_count (key : fstring) (groups : list (fstring * Z)) : Z :=
  match List.find (fun entry => bool_decide (entry.1 = key)) groups with
  | Some entry => entry.2
  | None => 0
  end.

Record UsageStats : Type := {
  st_telegram_id : pystr;
  st_telegram_username : option pystr;
  st_daily_usage : Z;
  st_daily_limit : Z;
  st_monthly_usage : Z;
  st_monthly_limit : Z;
  st_total_usage : Z;
  st_decisions : list (fstring * Z);
  st_is_admin : bool;
  st_is_active : bool;
}.

(** The rows of the last query: those of the user within thirty days of
    [now_sql], the reading of SQLite's clock. *)
Definition recent_rows (db : t) (now_sql : Z) (user : User)
    : list UsageLog :=
  List.filter
    (fun row => (ul_user_id row =? id user)
                && (now_sql - days 30 <=? ul_timestamp row))
    (usage_logs db).

(** [None] is the empty dictionary. *)
Definition get_user_usage_stats (db : t) (now_day now_month now_sql : Z)
    (tid : pystr) : option UsageStats :=
  match get_user db tid with
  | None => None
  | Some user =>
      let daily_usage := get_usage_count db now_day tid "day" in
      let monthly_usage := get_usage_count db now_month tid "month" in
      let total_usage :=
        Z.of_nat (length (List.filter
          (fun row => ul_user_id row =? id user) (usage_logs db))) in
      let decisions :=
        group_counts (map ul_decision (recent_rows db now_sql user)) in
      Some {| st_telegram_id := tid;
              st_telegram_username := telegram_username user;
              st_daily_usage := daily_usage;
              st_daily_limit := daily_limit user;
              st_monthly_usage := monthly_usage;
              st_monthly_limit := monthly_limit user;
              st_total_usage := total_usage;
              st_decisions := decisions;
              st_is_admin := is_admin user;
              st_is_active := is_active user |}
  end.

End Database.

(** ** bot.py: the wallet-analysis handler *)

Module bot.
Import config.

(** What the handler sends to the chat; the wording and the mark-up are
    presentation. *)
Inductive Message : Type :=
  | AccessDenied
  | Invalid (error_msg : string)
  | UsageLimitReached (limit_msg : fstring)
      (remaining_daily remaining_monthly : Z)
  | Analyzing
  | AnalysisFailed (error_message : fstring)
  | Analysis (wallet_address : pystr) (score : Database.ScoreCell)
      (decision : fstring) (inflow outflow balance : Q)
      (shown : TriggeredRules) (remaining_daily remaining_monthly : Z).

(** The environment of one update: the clock and the API. *)
Record Env : Type := {
  now_day : Z;
  now_month : Z;
  now_log : Z;
  post : pystr -> PostOutcome;
}.

Section Handler.
Variable cfg : thresholds.
Variable category_mapping : gmap pystr pystr.
Variable env : Env.

Definition analyze_wallet (db : Database.t) (telegram_id text : pystr)
    : Database.t * list Message :=
  let wallet_address := strip text in
  if negb (Database.is_user_authorized db telegram_id) then
    (db, [AccessDenied])
  else
    let '(is_valid, error_msg) :=
      validators.validate_wallet_address wallet_address in
    if negb is_valid then
      ((Database.log_error db (now_log env) (Some telegram_id)
          "VALIDATION_ERROR" [Txt error_msg] wallet_address).1,
       [Invalid error_msg])
    else
      let '(can_use, limit_msg, remaining_daily, remaining_monthly) :=
        Database.check_usage_limit db (now_day env) (now_month env)
          telegram_id in
      if negb can_use then
        (db, [UsageLimitReached limit_msg remaining_daily
                remaining_monthly])
      else
        match API.analyze_wallet (post env wallet_address) with
        | Failure error_message =>
            ((Database.log_error db (now_log env) (Some telegram_id)
                "API_ERROR" error_message wallet_address).1,
             [Analyzing; AnalysisFailed error_message])
        | Success response_data =>
            let '(decision, details) :=
              EllipticClient.apply_compliance_rules cfg category_mapping
                response_data in
            let score :=
              match d_risk_score details with
              | Some q => Database.ScoreNumber q
              | None => Database.ScoreText "N/A"
              end in
            let db' :=
              (Database.log_usage db (now_log env) telegram_id
                 wallet_address score decision).1 in
            let inflow := default 0%Q (inflow_usd response_data) in
            let outflow := default 0%Q (outflow_usd response_data) in
            let balance := (inflow - outflow)%Q in
            let shown :=
              {| tr_Source :=
                   take 5 (tr_Source (triggered_rules details));
                 tr_Destination :=
                   take 5 (tr_Destination (triggered_rules details)) |} in
            (db', [Analyzing;
                   Analysis wallet_address score decision inflow outflow
                     balance shown (remaining_daily - 1)
                     (remaining_monthly - 1)])
        end.

End Handler.

(** *** The commands

    A command handler gets the sender's handle and [context.args], the words
    after the command, and answers with one message.  The store of the
    handlers carries out what it is asked ([Database.Executes]). *)

Inductive Reply : Type :=
  | AdminOnly
  | UsageHelp
  | InvalidUsername (error_msg : string)
  | UserAdded (new_user : pystr) (daily monthly : Z)
  | UserNotAdded (new_user : pystr)
  | CannotRemoveAdmin
  | UserRemoved (user_to_remove : pystr)
  | UserNotFound (username : pystr)
  | LimitsNotNumbers
  | DailyLimitError (error_msg : fstring)
  | MonthlyLimitError (error_msg : fstring)
  | LimitsUpdated (username : pystr) (daily monthly : Z)
  | NotAuthorized
  | StatsUnavailable
  | Stats (username : option pystr) (admin active : bool)
      (daily_usage daily_limit monthly_usage monthly_limit total_usage : Z)
      (approved rejected : Z).

(** [init_admin()], run when the module is loaded. *)
Definition init_admin (db : Database.t) (now rowid : Z) (admin_id : pystr)
    : Database.t :=
  match Database.get_user db admin_id with
  | Some _ => db
  | None =>
      (Database.add_user Database.Executes db now rowid admin_id
         (Some admin_id) true 999 9999).1
  end.

Section Commands.
(** Python's [int] on a [str]; [None] stands for [ValueError]. *)
Variable int : pystr -> option Z.
(** [config.DEFAULT_DAILY_LIMIT] and [config.DEFAULT_MONTHLY_LIMIT], as read
    from the environment. *)
Variable default_daily : Z.
Variable default_monthly : Z.

Definition adduser_command (db : Database.t) (now rowid : Z)
    (telegram_id : pystr) (args : list pystr) : Database.t * Reply :=
  if negb (Database.is_user_admin db telegram_id) then (db, AdminOnly)
  else
    match args with
    | [] => (db, UsageHelp)
    | arg0 :: _ =>
        let new_user := lstrip_chars (lit "@") arg0 in
        let '(is_valid, error_msg) :=
          validators.validate_telegram_username new_user in
        if negb is_valid then (db, InvalidUsername error_msg)
        else
          let '(db', success) :=
            Database.add_user Database.Executes db now rowid new_user
              (Some new_user) false default_daily default_monthly in
          if success then
            (db', UserAdded new_user default_daily default_monthly)
          else (db', UserNotAdded new_user)
    end.

Definition removeuser_command (db : Database.t) (telegram_id : pystr)
    (args : list pystr) : Database.t * Reply :=
  if negb (Database.is_user_admin db telegram_id) then (db, AdminOnly)
  else
    match args with
    | [] => (db, UsageHelp)
    | arg0 :: _ =>
        let user_to_remove := lstrip_chars (lit "@") arg0 in
        if Database.is_user_admin db user_to_remove then
          (db, CannotRemoveAdmin)
        else
          let '(db', success) := Database.remove_user db user_to_remove in
          if success then (db', UserRemoved user_to_remove)
          else (db', UserNotFound user_to_remove)
    end.

Definition setlimit_command (db : Database.t) (now : Z)
    (telegram_id : pystr) (args : list pystr) : Database.t * Reply :=
  if negb (Database.is_user_admin db telegram_id) then (db, AdminOnly)
  else
    match args with
    | arg0 :: arg1 :: arg2 :: _ =>
        let username := lstrip_chars (lit "@") arg0 in
        match int arg1, int arg2 with
        | Some daily_limit, Some monthly_limit =>
            let '(is_valid_daily, error_msg) :=
              validators.validate_limit daily_limit 1 10000 in
            if negb is_valid_daily then (db, DailyLimitError error_msg)
            else
              let '(is_valid_monthly, error_msg) :=
                validators.validate_limit monthly_limit 1 10000 in
              if negb is_valid_monthly then (db, MonthlyLimitError error_msg)
              else
                let '(db', success) :=
                  Database.update_user_limits db now username
                    (Some daily_limit) (Some monthly_limit) in
                if success then
                  (db', LimitsUpdated username daily_limit monthly_limit)
                else (db', UserNotFound username)
        | _, _ => (db, LimitsNotNumbers)
        end
    | _ => (db, UsageHelp)
    end.

(** [now_day], [now_month] and [now_sql] are the clock readings of the
    queries behind the statistics. *)
Definition stats_command (db : Database.t) (now_day now_month now_sql : Z)
    (telegram_id : pystr) : Reply :=
  if negb (Database.is_user_authorized db telegram_id) then NotAuthorized
  else
    match Database.get_user_usage_stats db now_day now_month now_sql
            telegram_id with
    | None => StatsUnavailable
    | Some stats =>
        let decisions := Database.st_decisions stats in
        let approved :=
          Database.get_count EllipticClient.Approved decisions
          + foldr Z.add 0
              (map snd (List.filter
                 (fun entry => startswith "Approved" entry.1) decisions)) in
        let rejected :=
          foldr Z.add 0
            (map snd (List.filter
               (fun entry => startswith "Rejected" entry.1) decisions)) in
        Stats (Database.st_telegram_username stats)
          (Database.st_is_admin stats) (Database.st_is_active stats)
          (Database.st_daily_usage stats) (Database.st_daily_limit stats)
          (Database.st_monthly_usage stats) (Database.st_monthly_limit stats)
          (Database.st_total_usage stats) approved rejected
    end.

End Commands.

End bot.

(** ** The exposure walk as the specification describes it

    The contributions of an assessment in visiting order: the source list
    before the destination list, and within a list the exposures, their
    matched elements and the contributions of each in the given order. *)

Record Visit : Type := {
  v_side : RiskType;
  v_category_id : pystr;
  v_contribution : Contribution;
}.

Module Walk.
Import config.

Definition element_visits (side : RiskType) (me : MatchedElement)
    : list Visit :=
  map (fun c =>
         {| v_side := side;
            v_category_id := default (lit "Unknown") (category_id me);
            v_contribution := c |})
    (default [] (contributions me)).

Definition exposure_visits (side : RiskType) (e : Exposure) : list Visit :=
  flat_map (element_visits side) (default [] (matched_elements e)).

Definition visits (rd : ResponseData) : list Visit :=
  let detail := default no_evaluation_detail (evaluation_detail rd) in
  flat_map (exposure_visits Source) (default [] (source detail))
  ++ flat_map (exposure_visits Destination) (default [] (destination detail)).

Definition is_side (side : RiskType) (v : Visit) : bool :=
  match side, v_side v with
  | Source, Source | Destination, Destination => true
  | _, _ => false
  end.

(** "Rounded to 2 decimal places", in the specification's words: [c] is a
    whole number of hundredths, no other is nearer to [x], and of two
    equally near ones it is the even one. *)
Definition rounded_to_2_places (x c : Q) : Prop :=
  exists n : Z,
    c = (n # 100)%Q
    /\ (Qabs (x - c) <= 1 # 200)%Q
    /\ ((Qabs (x - c) == 1 # 200)%Q -> Z.even n = true).

Section Spec.
Variable cfg : thresholds.
Variable category_mapping : gmap pystr pystr.

Definition hops (v : Visit) : Z :=
  default 999 (min_number_of_hops (v_contribution v)).

Definition pct (v : Visit) : Q :=
  default 0%Q (indirect_percentage (v_contribution v)).

Definition name (v : Visit) : pystr :=
  EllipticClient.category_name category_mapping (v_category_id v).

(** The [RuleHit] recorded for a visited contribution. *)
Definition hit_of (v : Visit) : RuleHit :=
  {| hit_category := name v;
     hit_hops := hops v;
     hit_contribution := round2 (pct v) |}.

Definition hits_of (vs : list Visit) : TriggeredRules :=
  {| tr_Source := map hit_of (List.filter (is_side Source) vs);
     tr_Destination := map hit_of (List.filter (is_side Destination) vs) |}.

(** The [RuleHit] of a visited contribution as the specification describes
    it: the category name of the registry, the hop count, and the
    percentage rounded to 2 decimal places. *)
Definition is_hit_of (v : Visit) (hit : RuleHit) : Prop :=
  hit_category hit = name v
  /\ hit_hops hit = hops v
  /\ rounded_to_2_places (pct v) (hit_contribution hit).

(** One hit per contribution of [vs], in the order of [vs], each in the
    list of its side. *)
Definition recorded (vs : list Visit) (tr : TriggeredRules) : Prop :=
  Forall2 is_hit_of (List.filter (is_side Source) vs) (tr_Source tr)
  /\ Forall2 is_hit_of (List.filter (is_side Destination) vs)
       (tr_Destination tr).

(** Rules 3a, 3b and 3c of the specification. *)
Definition rule_category (v : Visit) : bool :=
  bool_decide (v_category_id v
               ∈ EllipticClient.high_risk_category_ids category_mapping)
  && (hops v <=? MAX_HOP_DISTANCE cfg).

Definition rule_country (v : Visit) : bool :=
  existsb (fun code => bool_decide (code ∈ HIGH_RISK_COUNTRIES))
    (EllipticClient.country_codes (v_contribution v))
  && (hops v <=? MAX_HOP_DISTANCE cfg).

Definition rule_gambling (v : Visit) : bool :=
  bool_decide (name v = lit "Gambling")
  && ((hops v <=? GAMBLING_HOP_LIMIT cfg)
      || ((hops v =? 3)
          && Qgt_bool (pct v) (GAMBLING_CONTRIBUTION_THRESHOLD cfg))).

Definition rejects (v : Visit) : bool :=
  rule_category v || rule_country v || rule_gambling v.

(** The loop body at a visit. *)
Definition visit (score : Q) (v : Visit) (triggered : TriggeredRules)
    : Flow TriggeredRules (fstring * Details) :=
  EllipticClient.visit_contribution cfg category_mapping score
    (v_side v) (v_category_id v) (name v) (v_contribution v) triggered.

End Spec.

End Walk.

(** ** The category table, as the client loads it

    [rows] is what [csv.reader] yields for [Category_ID.csv]; [None] stands
    for a file that cannot be opened or read. *)

Definition _load_category_mapping (rows : option (list (list pystr)))
    : gmap pystr pystr :=
  match rows with
  | None => ∅
  | Some [] => ∅                            (* [next(reader)] raises *)
  | Some (header :: rows) =>
      foldl (fun category_mapping row =>
               match row with
               | category_id :: category_name :: _ =>
                   <[strip category_id := strip category_name]> category_mapping
               | _ => category_mapping
               end) ∅ rows
  end.

(** A verdict is a rejection when its decision reads ["Rejected - ..."]. *)
Definition is_rejected (decision : fstring) : Prop :=
  exists rejection_reason, decision = EllipticClient.Rejected rejection_reason.

Definition no_hits : TriggeredRules :=
  {| tr_Source := []; tr_Destination := [] |}.

(** The hits of [later] recorded after those of [earlier]. *)
Definition add_hits (earlier later : TriggeredRules) : TriggeredRules :=
  {| tr_Source := tr_Source earlier ++ tr_Source later;
     tr_Destination := tr_Destination earlier ++ tr_Destination later |}.

(** An ASCII letter or digit, which is what the class [[a-zA-Z0-9]] of a
    [str] pattern accepts. *)
Definition ascii_alnum (c : N) : bool :=
  (((48 <=? c) && (c <=? 57)) || ((65 <=? c) && (c <=? 90))
   || ((97 <=? c) && (c <=? 122)))%N.


(** ** The reason of a rejection, rule by rule

    Within one contribution the category rule comes before the country rule,
    which comes before the gambling rule; the country named is the first
    high-risk code of the list. *)

Module Verdict.
Import config Walk.

Section Reason.
Variable cfg : thresholds.
Variable category_mapping : gmap pystr pystr.

Definition first_high_risk_code (v : Visit) : option pystr :=
  List.find (fun code => bool_decide (code ∈ HIGH_RISK_COUNTRIES))
    (EllipticClient.country_codes (v_contribution v)).

Definition rejection_reason (v : Visit) : fstring :=
  if rule_category cfg category_mapping v then
    [Str (name category_mapping v); Txt " detected within "; IntV (hops v);
     Txt " hops"]
  else if rule_country cfg v then
    [Txt "High-risk country "; Str (default [] (first_high_risk_code v));
     Txt " detected within "; IntV (hops v); Txt " hops"]
  else if hops v <=? GAMBLING_HOP_LIMIT cfg then
    [Txt "Gambling found at "; IntV (hops v); Txt " hops"]
  else
    [Txt "Gambling at 3 hops with "; Num2f (pct v); Txt "% contribution"].

End Reason.

(** [strict] rejects whatever [loose] rejects: a lower score threshold, hop
    limits that reach further, a lower gambling contribution threshold. *)
Definition at_least_as_strict (strict loose : thresholds) : Prop :=
  (RISK_SCORE_THRESHOLD strict <= RISK_SCORE_THRESHOLD loose)%Q
  /\ MAX_HOP_DISTANCE loose <= MAX_HOP_DISTANCE strict
  /\ GAMBLING_HOP_LIMIT loose <= GAMBLING_HOP_LIMIT strict
  /\ (GAMBLING_CONTRIBUTION_THRESHOLD strict
      <= GAMBLING_CONTRIBUTION_THRESHOLD loose)%Q.

End Verdict.

(** ** The rows of the category table

    The row of [rows] that decides the name of [key]: the last one with at
    least two columns whose first column, stripped, is [key]. *)

Definition row_key (key : pystr) (row : list pystr) : bool :=
  match row with
  | category_id :: _ :: _ => bool_decide (strip category_id = key)
  | _ => false
  end.

Definition row_name (row : list pystr) : pystr :=
  match row with
  | _ :: category_name :: _ => strip category_name
  | _ => []
  end.

Definition deciding_row (key : pystr) (rows : list (list pystr))
    : option (list pystr) :=
  List.find (row_key key) (rev rows).

(** An ASCII letter, a digit or an underscore: the class [[a-zA-Z0-9_]]. *)
Definition word_char (c : N) : bool := ascii_alnum c || (c =? 95)%N.

(** ** The evaluator on a payload with nulls

    [json.loads] turns a JSON [null] into [None], and [d.get(key, default)]
    returns that [None] as it is: the default stands in for a key that is
    left out, not for a null.  [Json] is [apply_compliance_rules] over
    payloads whose fields may be left out, null or given, with the
    exceptions Python raises when an operation meets [None]; the function
    has no [try], so an exception ends it.  The elements of the lists are
    dictionaries and the values given have the types of the upstream
    schema. *)

Module Json.
Import config.

Inductive Field (A : Type) : Type :=
  | Missing                (* the key is not in the dictionary *)
  | Null                   (* the key is there and its value is null *)
  | Value (a : A).
Arguments Missing {A}.
Arguments Null {A}.
Arguments Value {A} a.

(** [d.get(key, default)]; the result [None] is Python's [None]. *)
Definition get {A : Type} (default : A) (field : Field A) : option A :=
  match field with
  | Missing => Some default
  | Null => None
  | Value a => Some a
  end.

Inductive PyError : Type :=
  | TypeError              (* [None <= n], [round(None, 2)], [for x in None] *)
  | AttributeError.        (* [None.get(...)] *)

Record RiskTriggers : Type := {
  country : Field CountryField;
}.

Record Contribution : Type := {
  min_number_of_hops : Field Z;
  indirect_percentage : Field Q;
  risk_triggers : Field RiskTriggers;
}.

Record MatchedElement : Type := {
  category_id : Field pystr;
  contributions : Field (list Contribution);
}.

Record Exposure : Type := {
  matched_elements : Field (list MatchedElement);
}.

Record EvaluationDetail : Type := {
  source : Field (list Exposure);
  destination : Field (list Exposure);
}.

Record ResponseData : Type := {
  risk_score : Field Q;
  evaluation_detail : Field EvaluationDetail;
}.

(** The verdict; the hop count of a recorded hit is [None] when the payload
    had null. *)
Record RuleHit : Type := {
  hit_category : pystr;
  hit_hops : option Z;
  hit_contribution : Q;
}.

Record TriggeredRules : Type := {
  tr_Source : list RuleHit;
  tr_Destination : list RuleHit;
}.

Record Details : Type := {
  reason : fstring;
  d_risk_score : option Q;
  d_category : option pystr;
  d_country : option pystr;
  d_hops : option Z;
  d_contribution : option Q;
  triggered_rules : TriggeredRules;
}.

(** How a call ends. *)
Inductive Outcome : Type :=
  | Raises (e : PyError)
  | Returns (verdict : fstring * Details).

(** What a test of a rule gives: it holds (with the values the rejection
    quotes), it does not, or evaluating it raises. *)
Inductive Check (A : Type) : Type :=
  | Fires (a : A)
  | Passes
  | Fails (e : PyError).
Arguments Fires {A} a.
Arguments Passes {A}.
Arguments Fails {A} e.

Definition append_hit (risk_type : RiskType) (hit : RuleHit)
    (tr : TriggeredRules) : TriggeredRules :=
  match risk_type with
  | Source =>
      {| tr_Source := tr_Source tr ++ [hit];
         tr_Destination := tr_Destination tr |}
  | Destination =>
      {| tr_Source := tr_Source tr;
         tr_Destination := tr_Destination tr ++ [hit] |}
  end.

Section Rules.
Variable cfg : thresholds.
Variable category_mapping : gmap pystr pystr.

(** [self.category_mapping.get(category_id, "Unknown")]: [None] is no key
    of the table. *)
Definition category_name (category_id : option pystr) : pystr :=
  match category_id with
  | Some cid => EllipticClient.category_name category_mapping cid
  | None => lit "Unknown"
  end.

(** [category_id in high_risk_category_ids] *)
Definition high_risk (category_id : option pystr) : bool :=
  match category_id with
  | Some cid =>
      bool_decide
        (cid ∈ EllipticClient.high_risk_category_ids category_mapping)
  | None => false
  end.

(** [min_hops <= limit] *)
Definition within (min_hops : option Z) (limit : Z) : Check Z :=
  match min_hops with
  | None => Fails TypeError
  | Some hops => if hops <=? limit then Fires hops else Passes
  end.

(** [contribution.get("risk_triggers", {}).get("country", [])], and the
    codes the loop of rule 3 runs over: none when the value is no list. *)
Definition country_codes (contribution : Contribution)
    : PyError + list pystr :=
  match get {| country := Missing |} (risk_triggers contribution) with
  | None => inl AttributeError
  | Some triggers =>
      inr match get (CountryList []) (country triggers) with
          | Some (CountryList codes) => codes
          | Some CountryNotList | None => []
          end
  end.

(** The loop of rule 3; [and] tests the hop count only for a high-risk
    code. *)
Fixpoint high_risk_country (min_hops : option Z) (codes : list pystr)
    : Check (pystr * Z) :=
  match codes with
  | [] => Passes
  | country_code :: rest =>
      if bool_decide (country_code ∈ HIGH_RISK_COUNTRIES) then
        match within min_hops (MAX_HOP_DISTANCE cfg) with
        | Fails e => Fails e
        | Fires hops => Fires (country_code, hops)
        | Passes => high_risk_country min_hops rest
        end
      else high_risk_country min_hops rest
  end.

Definition visit_contribution (risk_score : Q) (risk_type : RiskType)
    (category_id : option pystr) (category : pystr)
    (contribution : Contribution) (triggered : TriggeredRules)
    : Flow TriggeredRules Outcome :=
  let min_hops := get 999 (min_number_of_hops contribution) in
  match get 0%Q (indirect_percentage contribution) with
  | None => Return (Raises TypeError)          (* [round(None, 2)] *)
  | Some indirect_pct =>
  let triggered :=
    append_hit risk_type
      {| hit_category := category;
         hit_hops := min_hops;
         hit_contribution := round2 indirect_pct |} triggered in
  match
    if high_risk category_id then within min_hops (MAX_HOP_DISTANCE cfg)
    else Passes
  with
  | Fails e => Return (Raises e)
  | Fires hops =>
      let rejection_reason :=
        [Str category; Txt " detected within "; IntV hops; Txt " hops"] in
      Return (Returns
        (EllipticClient.Rejected rejection_reason,
         {| reason := rejection_reason;
            d_risk_score := Some risk_score;
            d_category := Some category;
            d_country := None;
            d_hops := Some hops;
            d_contribution := None;
            triggered_rules := triggered |}))
  | Passes =>
  match country_codes contribution with
  | inl e => Return (Raises e)
  | inr codes =>
  match high_risk_country min_hops codes with
  | Fails e => Return (Raises e)
  | Fires (country_code, hops) =>
      let rejection_reason :=
        [Txt "High-risk country "; Str country_code;
         Txt " detected within "; IntV hops; Txt " hops"] in
      Return (Returns
        (EllipticClient.Rejected rejection_reason,
         {| reason := rejection_reason;
            d_risk_score := Some risk_score;
            d_category := None;
            d_country := Some country_code;
            d_hops := Some hops;
            d_contribution := None;
            triggered_rules := triggered |}))
  | Passes =>
      if bool_decide (category = lit "Gambling") then
        match min_hops with
        | None => Return (Raises TypeError)
        | Some hops =>
            if hops <=? GAMBLING_HOP_LIMIT cfg then
              let rejection_reason :=
                [Txt "Gambling found at "; IntV hops; Txt " hops"] in
              Return (Returns
                (EllipticClient.Rejected rejection_reason,
                 {| reason := rejection_reason;
                    d_risk_score := Some risk_score;
                    d_category := Some category;
                    d_country := None;
                    d_hops := Some hops;
                    d_contribution := None;
                    triggered_rules := triggered |}))
            else if (hops =? 3)
                    && Qgt_bool indirect_pct
                         (GAMBLING_CONTRIBUTION_THRESHOLD cfg)
            then
              let rejection_reason :=
                [Txt "Gambling at 3 hops with "; Num2f indirect_pct;
                 Txt "% contribution"] in
              Return (Returns
                (EllipticClient.Rejected rejection_reason,
                 {| reason := rejection_reason;
                    d_risk_score := Some risk_score;
                    d_category := Some category;
                    d_country := None;
                    d_hops := Some hops;
                    d_contribution := Some indirect_pct;
                    triggered_rules := triggered |}))
            else Continue triggered
        end
      else Continue triggered
  end end end end.

(** [for x in items]: iterating over [None] raises. *)
Definition iterate {A : Type}
    (body : A -> TriggeredRules -> Flow TriggeredRules Outcome)
    (items : option (list A)) (triggered : TriggeredRules)
    : Flow TriggeredRules Outcome :=
  match items with
  | None => Return (Raises TypeError)
  | Some l => for_each body l triggered
  end.

Definition visit_element (risk_score : Q) (risk_type : RiskType)
    (matched_element : MatchedElement) (triggered : TriggeredRules)
    : Flow TriggeredRules Outcome :=
  let category_id := get (lit "Unknown") (category_id matched_element) in
  let category := category_name category_id in
  iterate (visit_contribution risk_score risk_type category_id category)
    (get [] (contributions matched_element)) triggered.

Definition visit_exposure (risk_score : Q) (risk_type : RiskType)
    (exposure : Exposure) (triggered : TriggeredRules)
    : Flow TriggeredRules Outcome :=
  iterate (visit_element risk_score risk_type)
    (get [] (matched_elements exposure)) triggered.

Definition visit_exposure_list (risk_score : Q)
    (side : option (list Exposure) * RiskType) (triggered : TriggeredRules)
    : Flow TriggeredRules Outcome :=
  iterate (visit_exposure risk_score side.2) side.1 triggered.

Definition apply_compliance_rules (response_data : ResponseData)
    : Outcome :=
  let risk_score :=
    match risk_score response_data with
    | Value score => Some score
    | Missing | Null => None
    end in
  match
    get {| source := Missing; destination := Missing |}
      (evaluation_detail response_data)
  with
  | None => Raises AttributeError
  | Some detail =>
  let source_exposures := get [] (source detail) in
  let destination_exposures := get [] (destination detail) in
  let triggered := {| tr_Source := []; tr_Destination := [] |} in
  match risk_score with
  | None =>
      Returns
        (EllipticClient.Approved,
         {| reason := [Txt "No risk score found"];
            d_risk_score := None;
            d_category := None;
            d_country := None;
            d_hops := None;
            d_contribution := None;
            triggered_rules := triggered |})
  | Some score =>
      if Qge_bool score (RISK_SCORE_THRESHOLD cfg) then
        let rejection_reason :=
          [Txt "High Risk Score ("; NumV score; Txt ")"] in
        Returns
          (EllipticClient.Rejected rejection_reason,
           {| reason := rejection_reason;
              d_risk_score := Some score;
              d_category := None;
              d_country := None;
              d_hops := None;
              d_contribution := None;
              triggered_rules := triggered |})
      else
        match
          for_each (visit_exposure_list score)
            [(source_exposures, Source);
             (destination_exposures, Destination)] triggered
        with
        | Return outcome => outcome
        | Continue triggered =>
            Returns
              (EllipticClient.Approved,
               {| reason := [Txt "All compliance checks passed"];
                  d_risk_score := Some score;
                  d_category := None;
                  d_country := None;
                  d_hops := None;
                  d_contribution := None;
                  triggered_rules := triggered |})
        end
  end
  end.

End Rules.

End Json.

(** *** Payloads without null

    [null_free] holds of a payload in which every field the evaluator reads
    is left out or given, never null; the risk score and the country list
    may be null, which the code treats as no score and as a value that is
    no list.  [read] is such a payload as the record with [option] fields
    used above, and [of_verdict] a verdict of the evaluator above as a
    verdict over payloads. *)







Definition read_field {A B : Type} (f : A -> B) (field : Json.Field A)
    : option B :=
  match field with
  | Json.Value a => Some (f a)
  | Json.Missing | Json.Null => None
  end.

Definition read_risk_triggers (t : Json.RiskTriggers) : RiskTriggers :=
  {| country :=
       match Json.country t with
       | Json.Missing => None
       | Json.Null => Some CountryNotList
       | Json.Value c => Some c
       end |}.

Definition read_contribution (c : Json.Contribution) : Contribution :=
  {| min_number_of_hops := read_field id (Json.min_number_of_hops c);
     indirect_percentage := read_field id (Json.indirect_percentage c);
     risk_triggers := read_field read_risk_triggers (Json.risk_triggers c) |}.

Definition read_element (me : Json.MatchedElement) : MatchedElement :=
  {| category_id := read_field id (Json.category_id me);
     contributions :=
       read_field (map read_contribution) (Json.contributions me) |}.

Definition read_exposure (e : Json.Exposure) : Exposure :=
  {| matched_elements :=
       read_field (map read_element) (Json.matched_elements e) |}.

Definition read_detail (d : Json.EvaluationDetail) : EvaluationDetail :=
  {| source := read_field (map read_exposure) (Json.source d);
     destination := read_field (map read_exposure) (Json.destination d) |}.

Definition read (rd : Json.ResponseData) : ResponseData :=
  {| risk_score := read_field id (Json.risk_score rd);
     evaluation_detail := read_field read_detail (Json.evaluation_detail rd);
     inflow_usd := None;
     outflow_usd := None |}.

Definition of_hit (hit : RuleHit) : Json.RuleHit :=
  {| Json.hit_category := hit_category hit;
     Json.hit_hops := Some (hit_hops hit);
     Json.hit_contribution := hit_contribution hit |}.

Definition of_triggered (tr : TriggeredRules) : Json.TriggeredRules :=
  {| Json.tr_Source := map of_hit (tr_Source tr);
     Json.tr_Destination := map of_hit (tr_Destination tr) |}.

Definition of_verdict (verdict : fstring * Details)
    : fstring * Json.Details :=
  (verdict.1,
   {| Json.reason := reason verdict.2;
      Json.d_risk_score := d_risk_score verdict.2;
      Json.d_category := d_category verdict.2;
      Json.d_country := d_country verdict.2;
      Json.d_hops := d_hops verdict.2;
      Json.d_contribution := d_contribution verdict.2;
      Json.triggered_rules := of_triggered (triggered_rules verdict.2) |}).


(** ** Sample data *)

Module Sample.

Definition mapping : gmap pystr pystr :=
  _load_category_mapping (Some [
    [lit "category_id"; lit "category_name"];
    [lit "17"; lit "Ransomware"];
    [lit " 23 "; lit "Gambling "];
    [lit "31"; lit "Exchange"];
    [lit "short row"]
  ]).

Definition contribution (min_hops : Z) (percentage : Q)
    (codes : list pystr) : Contribution :=
  {| min_number_of_hops := Some min_hops;
     indirect_percentage := Some percentage;
     risk_triggers := Some {| country := Some (CountryList codes) |} |}.

Definition element (cid : string) (cs : list Contribution)
    : MatchedElement :=
  {| category_id := Some (lit cid); contributions := Some cs |}.

Definition exposure (mes : list MatchedElement) : Exposure :=
  {| matched_elements := Some mes |}.

Definition assessment (score : option Q) (src dst : list Exposure)
    : ResponseData :=
  {| risk_score := score;
     evaluation_detail := Some {| source := Some src; destination := Some dst |};
     inflow_usd := None;
     outflow_usd := None |}.

(** Ransomware one hop away on the source side. *)
Definition ransomware_near (score : option Q) : ResponseData :=
  assessment score [exposure [element "17" [contribution 1 (25 # 2) []]]] [].

(** One contribution only, on the destination side. *)
Definition single (cid : string) (min_hops : Z) (percentage : Q)
    : ResponseData :=
  assessment (Some 1%Q) []
    [exposure []; exposure [element cid [contribution min_hops percentage []]]].

(** A walk of five contributions; the fourth is in Iran at two hops.  The
    percentages are binary fractions: 12.34375, 0.375, 50, 0.125 and 1. *)
Definition mixed : ResponseData :=
  assessment (Some (3 # 2)%Q)
    [exposure [element "31" [contribution 1 (395 # 32) [];
                             contribution 5 (3 # 8) []];
               element "17" [contribution 4 (50 # 1) []]]]
    [exposure [element "99" [contribution 2 (1 # 8) [lit "FR"; lit "IR"];
                             contribution 1 (1 # 1) []]]].

Definition user (uid : Z) (handle : string) (daily monthly : Z)
    : Database.User :=
  {| Database.id := uid;
     Database.telegram_id := lit handle;
     Database.telegram_username := Some (lit handle);
     Database.is_admin := false;
     Database.is_active := true;
     Database.daily_limit := daily;
     Database.monthly_limit := monthly;
     Database.created_at := 0;
     Database.updated_at := 0 |}.

Definition usage (uid at_time : Z) : Database.UsageLog :=
  {| Database.ul_user_id := uid;
     Database.ul_wallet_address := lit "1BoatSLRHtKNngkdXEeobR76b53LETtpyT";
     Database.ul_risk_score := Database.ScoreNumber 1;
     Database.ul_decision := EllipticClient.Approved;
     Database.ul_timestamp := at_time |}.

(** alice has used her two daily queries; bob has one left. *)
Definition db : Database.t :=
  {| Database.users := [user 1 "alice" 2 300; user 2 "bob" 2 300];
     Database.usage_logs := [usage 1 999000; usage 2 999500; usage 1 999900];
     Database.error_logs := [] |}.

Definition env (outcome : PostOutcome) : bot.Env :=
  {| bot.now_day := 1000000;
     bot.now_month := 1000000;
     bot.now_log := 1000001;
     bot.post := fun _ => outcome |}.

(** Thresholds looser than the defaults in every respect. *)
Definition looser : config.thresholds :=
  {| config.RISK_SCORE_THRESHOLD := 7;
     config.MAX_HOP_DISTANCE := 2;
     config.GAMBLING_HOP_LIMIT := 1;
     config.GAMBLING_CONTRIBUTION_THRESHOLD := 10 |}.

(** The visits of [mixed], in order. *)
Definition mixed_visit (side : RiskType) (cid : string) (min_hops : Z)
    (percentage : Q) (codes : list pystr) : Visit :=
  {| v_side := side;
     v_category_id := lit cid;
     v_contribution := contribution min_hops percentage codes |}.

Definition mixed_before : list Visit :=
  [mixed_visit Source "31" 1 (395 # 32) [];
   mixed_visit Source "31" 5 (3 # 8) [];
   mixed_visit Source "17" 4 (50 # 1) []].

Definition mixed_trigger : Visit :=
  mixed_visit Destination "99" 2 (1 # 8) [lit "FR"; lit "IR"].

Definition mixed_after : list Visit :=
  [mixed_visit Destination "99" 1 (1 # 1) []].

Definition rejected_usage (uid at_time : Z) : Database.UsageLog :=
  {| Database.ul_user_id := uid;
     Database.ul_wallet_address := lit "1BoatSLRHtKNngkdXEeobR76b53LETtpyT";
     Database.ul_risk_score := Database.ScoreNumber 7;
     Database.ul_decision :=
       EllipticClient.Rejected [Txt "High Risk Score ("; NumV 7; Txt ")"];
     Database.ul_timestamp := at_time |}.

(** An admin, and dave with two approvals and one rejection. *)
Definition office : Database.t :=
  {| Database.users :=
       [{| Database.id := 1;
           Database.telegram_id := lit "jcmosquera";
           Database.telegram_username := Some (lit "jcmosquera");
           Database.is_admin := true;
           Database.is_active := true;
           Database.daily_limit := 999;
           Database.monthly_limit := 9999;
           Database.created_at := 0;
           Database.updated_at := 0 |};
        user 2 "dave_01" 10 300];
     Database.usage_logs :=
       [usage 2 999000; rejected_usage 2 999500; usage 2 999900];
     Database.error_logs := [] |}.


(** A payload with one contribution on the source side, in category
    [cid], whose hop count is [min_hops]: left out, null or given. *)
Definition payload (cid : string) (min_hops : Json.Field Z)
    : Json.ResponseData :=
  {| Json.risk_score := Json.Value 1%Q;
     Json.evaluation_detail :=
       Json.Value
         {| Json.source :=
              Json.Value
                [{| Json.matched_elements :=
                      Json.Value
                        [{| Json.category_id := Json.Value (lit cid);
                            Json.contributions :=
                              Json.Value
                                [{| Json.min_number_of_hops := min_hops;
                                    Json.indirect_percentage :=
                                      Json.Value (25 # 2)%Q;
                                    Json.risk_triggers := Json.Missing |}]
                         |}] |}];
            Json.destination := Json.Missing |} |}.

Definition address : pystr := lit " 1BoatSLRHtKNngkdXEeobR76b53LETtpyT ".

End Sample.

(** * Properties *)

(** Settles the integer comparisons of the goal that [lia] can decide. *)
Ltac settle_leb :=
  repeat match goal with
  | |- context [?a <=? ?b] =>
      first [ replace (a <=? b) with true by (symmetry; apply Z.leb_le; lia)
            | replace (a <=? b) with false by (symmetry; apply Z.leb_gt; lia) ]
  | |- context [?a =? ?b] =>
      first [ replace (a =? b) with true by (symmetry; apply Z.eqb_eq; lia)
            | replace (a =? b) with false by (symmetry; apply Z.eqb_neq; lia) ]
  end.

(** ** Numbers *)

Lemma Qge_bool_iff (x y : Q) : Qge_bool x y = true <-> (y <= x)%Q.
Proof. unfold Qge_bool. apply Qle_bool_iff. Qed.

Lemma Qge_bool_false (x y : Q) : Qge_bool x y = false <-> (x < y)%Q.
Proof.
  unfold Qge_bool. split.
  - intros H. apply Qnot_le_lt. intros Hle.
    apply Qle_bool_iff in Hle. congruence.
  - intros H. destruct (Qle_bool y x) eqn:E; [|reflexivity].
    apply Qle_bool_iff in E. exfalso. exact (Qlt_not_le _ _ H E).
Qed.

Lemma Qgt_bool_iff (x y : Q) : Qgt_bool x y = true <-> (y < x)%Q.
Proof.
  unfold Qgt_bool. rewrite negb_true_iff.
  exact (Qge_bool_false y x).
Qed.

Lemma Qgt_bool_eq (x y : Q) : (x == y)%Q -> Qgt_bool x y = false.
Proof.
  intros H. unfold Qgt_bool. rewrite negb_false_iff.
  apply Qle_bool_iff. rewrite H. apply Qle_refl.
Qed.

(** ** Rounding *)

Lemma hundredths (n : Z) : (n # 100 == inject_Z n * (1 # 100))%Q.
Proof. unfold Qeq, Qmult, inject_Z; simpl. lia. Qed.

(** [round2] is the rounding the specification describes, and the only one. *)
Lemma round2_rounded (x : Q) : Walk.rounded_to_2_places x (round2 x).
Proof.
  unfold round2, round_half_even.
  set (y := (x * 100)%Q). set (n := Qfloor y).
  assert (Hlo : (inject_Z n <= y)%Q) by apply Qfloor_le.
  assert (Hhi : (y < inject_Z n + 1)%Q).
  { pose proof (Qlt_floor y) as H. fold n in H.
    rewrite inject_Z_plus in H. exact H. }
  assert (Hx : (x == y * (1 # 100))%Q) by (unfold y; field).
  destruct (Qcompare_spec (y - inject_Z n) (1 # 2)) as [Heq|Hlt|Hgt].
  - assert (Hnext : (inject_Z (n + 1) == inject_Z n + 1)%Q)
      by (rewrite inject_Z_plus; reflexivity).
    destruct (Z.even n) eqn:Heven.
    + exists n. split; [reflexivity|]. split; [|intros _; exact Heven].
      rewrite hundredths. apply Qabs_Qle_condition. split; lra.
    + exists (n + 1). split; [reflexivity|].
      split; [|intros _; rewrite Z.even_add, Heven; reflexivity].
      rewrite hundredths, Hnext. apply Qabs_Qle_condition. split; lra.
  - exists n. split; [reflexivity|]. rewrite hundredths.
    assert (Hpos : (0 <= x - inject_Z n * (1 # 100))%Q) by lra.
    rewrite (Qabs_pos _ Hpos). split; [lra|]. intros Habs. lra.
  - exists (n + 1). split; [reflexivity|]. rewrite hundredths.
    assert (Hnext : (inject_Z (n + 1) == inject_Z n + 1)%Q)
      by (rewrite inject_Z_plus; reflexivity).
    rewrite Hnext.
    assert (Hneg : (x - (inject_Z n + 1) * (1 # 100) <= 0)%Q) by lra.
    rewrite (Qabs_neg _ Hneg). split; [lra|]. intros Habs. lra.
Qed.

Lemma rounded_to_2_places_unique (x c c' : Q) :
  Walk.rounded_to_2_places x c -> Walk.rounded_to_2_places x c' -> c = c'.
Proof.
  intros [n [-> [Hn Hn_even]]] [m [-> [Hm Hm_even]]].
  rewrite hundredths in Hn, Hn_even. rewrite hundredths in Hm, Hm_even.
  apply Qabs_Qle_condition in Hn, Hm.
  assert (Hnm : n <= m + 1).
  { rewrite Zle_Qle, inject_Z_plus. change (inject_Z 1) with 1%Q. lra. }
  assert (Hmn : m <= n + 1).
  { rewrite Zle_Qle, inject_Z_plus. change (inject_Z 1) with 1%Q. lra. }
  destruct (Z.eq_dec n m) as [->|Hne]; [reflexivity|exfalso].
  assert (Hcase : n = m + 1 \/ m = n + 1) by lia.
  destruct Hcase as [->| ->].
  - rewrite inject_Z_plus in Hn, Hn_even.
    change (inject_Z 1) with 1%Q in Hn, Hn_even.
    assert (Hx : (x - inject_Z m * (1 # 100) == 1 # 200)%Q) by lra.
    assert (Hx' : (x - (inject_Z m + 1) * (1 # 100) == - (1 # 200))%Q) by lra.
    rewrite Hx in Hm_even. rewrite Hx' in Hn_even.
    specialize (Hm_even ltac:(reflexivity)).
    specialize (Hn_even ltac:(reflexivity)).
    rewrite Z.even_add, Hm_even in Hn_even. discriminate.
  - rewrite inject_Z_plus in Hm, Hm_even.
    change (inject_Z 1) with 1%Q in Hm, Hm_even.
    assert (Hx : (x - inject_Z n * (1 # 100) == 1 # 200)%Q) by lra.
    assert (Hx' : (x - (inject_Z n + 1) * (1 # 100) == - (1 # 200))%Q) by lra.
    rewrite Hx in Hn_even. rewrite Hx' in Hm_even.
    specialize (Hm_even ltac:(reflexivity)).
    specialize (Hn_even ltac:(reflexivity)).
    rewrite Z.even_add, Hn_even in Hm_even. discriminate.
Qed.

(** ** Rules 1 and 2: the risk score *)

Section ScoreRules.
Import config EllipticClient.
Variable cfg : thresholds.
Variable category_mapping : gmap pystr pystr.

(** C1. An assessment without a risk score is approved with the reason
    "No risk score found", whatever its exposures are, and none of them has
    been visited: both lists of triggered rules are empty. *)
Theorem missing_score_approved (rd : ResponseData) :
  risk_score rd = None ->
  apply_compliance_rules cfg category_mapping rd
  = (Approved,
     {| reason := [Txt "No risk score found"];
        d_risk_score := None;
        d_category := None;
        d_country := None;
        d_hops := None;
        d_contribution := None;
        triggered_rules := no_hits |}).
Proof.
  intros Hscore. unfold apply_compliance_rules. rewrite Hscore. reflexivity.
Qed.

(** C2. A risk score at or above the threshold is rejected with the reason
    "High Risk Score (score)", before the exposures are walked: the lists of
    triggered rules are empty and no exposure can change the reason. *)
Theorem high_score_rejected (rd : ResponseData) (score : Q) :
  risk_score rd = Some score ->
  (RISK_SCORE_THRESHOLD cfg <= score)%Q ->
  apply_compliance_rules cfg category_mapping rd
  = (Rejected [Txt "High Risk Score ("; NumV score; Txt ")"],
     {| reason := [Txt "High Risk Score ("; NumV score; Txt ")"];
        d_risk_score := Some score;
        d_category := None;
        d_country := None;
        d_hops := None;
        d_contribution := None;
        triggered_rules := no_hits |}).
Proof.
  intros Hscore Hle. unfold apply_compliance_rules. rewrite Hscore.
  apply Qge_bool_iff in Hle. rewrite Hle. reflexivity.
Qed.

End ScoreRules.

(** ** Loops *)

Lemma for_each_app {A S R : Type} (body : A -> S -> Flow S R)
    (l1 l2 : list A) (s : S) :
  for_each body (l1 ++ l2) s
  = match for_each body l1 s with
    | Continue s' => for_each body l2 s'
    | Return r => Return r
    end.
Proof.
  revert s. induction l1 as [|x l1 IH]; intros s; simpl; [reflexivity|].
  destruct (body x s); [apply IH | reflexivity].
Qed.

Section ForEach.
Context {A B S R : Type}.

Lemma for_each_ext (body1 body2 : A -> S -> Flow S R) (l : list A) (s : S) :
  (forall x s', body1 x s' = body2 x s') ->
  for_each body1 l s = for_each body2 l s.
Proof.
  intros Hext. revert s. induction l as [|x l IH]; intros s; simpl;
    [reflexivity|].
  rewrite Hext. destruct (body2 x s); [apply IH | reflexivity].
Qed.

Lemma for_each_flat_map (f : A -> list B) (body : B -> S -> Flow S R)
    (l : list A) (s : S) :
  for_each (fun x => for_each body (f x)) l s
  = for_each body (flat_map f l) s.
Proof.
  revert s. induction l as [|x l IH]; intros s; simpl; [reflexivity|].
  rewrite for_each_app.
  destruct (for_each body (f x) s); [apply IH | reflexivity].
Qed.

Lemma for_each_map (g : A -> B) (body : B -> S -> Flow S R)
    (l : list A) (s : S) :
  for_each (fun x => body (g x)) l s = for_each body (map g l) s.
Proof.
  revert s. induction l as [|x l IH]; intros s; simpl; [reflexivity|].
  destruct (body (g x) s); [apply IH | reflexivity].
Qed.

Lemma flow_eta (f : Flow S R) :
  match f with Continue s => Continue s | Return r => Return r end = f.
Proof. destruct f; reflexivity. Qed.

End ForEach.

(** ** Recorded hits *)

Section Hits.
Import Walk.
Variable category_mapping : gmap pystr pystr.

Lemma add_hits_no_hits_l (tr : TriggeredRules) : add_hits no_hits tr = tr.
Proof. destruct tr; reflexivity. Qed.

Lemma add_hits_assoc (a b c : TriggeredRules) :
  add_hits (add_hits a b) c = add_hits a (add_hits b c).
Proof. unfold add_hits; simpl. rewrite <- !List.app_assoc. reflexivity. Qed.

Lemma hits_of_nil : hits_of category_mapping [] = no_hits.
Proof. reflexivity. Qed.

Lemma add_hits_nil (tr : TriggeredRules) : add_hits tr no_hits = tr.
Proof.
  destruct tr; unfold add_hits; simpl. rewrite !List.app_nil_r. reflexivity.
Qed.

Lemma append_hit_hits_of (v : Visit) (tr : TriggeredRules) :
  append_hit (v_side v) (hit_of category_mapping v) tr
  = add_hits tr (hits_of category_mapping [v]).
Proof.
  unfold append_hit, add_hits, hits_of, is_side; simpl.
  destruct (v_side v); simpl; rewrite ?List.app_nil_r; reflexivity.
Qed.

Lemma hits_of_app (vs ws : list Visit) :
  hits_of category_mapping (vs ++ ws)
  = add_hits (hits_of category_mapping vs) (hits_of category_mapping ws).
Proof.
  unfold hits_of, add_hits; simpl.
  rewrite !List.filter_app, !List.map_app. reflexivity.
Qed.

Lemma hit_of_is_hit (v : Visit) :
  is_hit_of category_mapping v (hit_of category_mapping v).
Proof.
  unfold is_hit_of, hit_of; simpl.
  split; [reflexivity|]. split; [reflexivity|]. apply round2_rounded.
Qed.

Lemma hits_of_recorded (vs : list Visit) :
  recorded category_mapping vs (hits_of category_mapping vs).
Proof.
  unfold recorded, hits_of; simpl.
  split; apply Forall2_fmap_r, Forall_Forall2_diag, Forall_forall;
    intros v _; apply hit_of_is_hit.
Qed.

End Hits.

(** ** The category registry *)

Section Registry.
Import config EllipticClient.
Variable category_mapping : gmap pystr pystr.

Lemma high_risk_category_ids_spec (cid : pystr) :
  cid ∈ high_risk_category_ids category_mapping
  <-> exists name, category_mapping !! cid = Some name
                   /\ name ∈ HIGH_RISK_CATEGORIES.
Proof.
  unfold high_risk_category_ids. rewrite elem_of_dom. split.
  - intros [name Hname]. apply map_lookup_filter_Some in Hname.
    exists name. exact Hname.
  - intros [name [Hlook Hin]]. exists name.
    apply map_lookup_filter_Some. split; assumption.
Qed.

Lemma gambling_not_high_risk : lit "Gambling" ∉ HIGH_RISK_CATEGORIES.
Proof.
  apply (bool_decide_eq_false_1 (lit "Gambling" ∈ HIGH_RISK_CATEGORIES)).
  vm_compute. reflexivity.
Qed.

Lemma high_risk_name_not_gambling (cid : pystr) :
  cid ∈ high_risk_category_ids category_mapping ->
  category_name category_mapping cid <> lit "Gambling".
Proof.
  intros Hin Heq. apply high_risk_category_ids_spec in Hin.
  destruct Hin as [name [Hlook Hhigh]].
  unfold category_name in Heq. rewrite Hlook in Heq. simpl in Heq.
  subst name. exact (gambling_not_high_risk Hhigh).
Qed.

End Registry.

(** ** One visited contribution *)

Section Visit.
Import config EllipticClient Walk.
Variable cfg : thresholds.
Variable category_mapping : gmap pystr pystr.

Lemma high_risk_country_None (min_hops : Z) (codes : list pystr) :
  high_risk_country cfg min_hops codes = None
  <-> existsb (fun code => bool_decide (code ∈ HIGH_RISK_COUNTRIES)) codes
      && (min_hops <=? MAX_HOP_DISTANCE cfg) = false.
Proof.
  unfold high_risk_country.
  induction codes as [|code codes IH]; simpl; [tauto|].
  destruct (bool_decide (code ∈ HIGH_RISK_COUNTRIES)); simpl; [|exact IH].
  destruct (min_hops <=? MAX_HOP_DISTANCE cfg); simpl in *.
  - split; discriminate.
  - rewrite andb_false_r in IH. exact IH.
Qed.

(** A contribution that no rule rejects leaves its hit and the walk goes
    on; one that a rule rejects ends the walk with a rejection whose
    triggered rules end with its hit. *)
Lemma visit_spec (score : Q) (v : Visit) (tr : TriggeredRules) :
  (rejects cfg category_mapping v = false
   /\ visit cfg category_mapping score v tr
      = Continue (append_hit (v_side v) (hit_of category_mapping v) tr))
  \/ (rejects cfg category_mapping v = true
      /\ exists verdict,
           visit cfg category_mapping score v tr = Return verdict
           /\ is_rejected verdict.1
           /\ d_risk_score verdict.2 = Some score
           /\ d_hops verdict.2 = Some (hops v)
           /\ triggered_rules verdict.2
              = append_hit (v_side v) (hit_of category_mapping v) tr).
Proof.
  unfold rejects, visit, visit_contribution, rule_category, rule_country,
    rule_gambling.
  fold (hops v). fold (pct v). fold (hit_of category_mapping v).
  destruct (bool_decide (v_category_id v
              ∈ high_risk_category_ids category_mapping)
            && (hops v <=? MAX_HOP_DISTANCE cfg)) eqn:Hcat; simpl.
  { right. split; [reflexivity|]. eexists. split; [reflexivity|].
    simpl. repeat split. eexists. reflexivity. }
  destruct (high_risk_country cfg (hops v)
              (country_codes (v_contribution v))) as [code|] eqn:Hcountry.
  { right. split.
    - destruct (existsb _ _ && _) eqn:E; [reflexivity|].
      apply high_risk_country_None in E. congruence.
    - eexists. split; [reflexivity|]. simpl. repeat split.
      eexists. reflexivity. }
  apply high_risk_country_None in Hcountry. rewrite Hcountry. simpl.
  destruct (bool_decide (name category_mapping v = lit "Gambling"));
    simpl; [|left; split; reflexivity].
  destruct (hops v <=? GAMBLING_HOP_LIMIT cfg); simpl.
  { right. split; [reflexivity|]. eexists. split; [reflexivity|].
    simpl. repeat split. eexists. reflexivity. }
  destruct ((hops v =? 3)
            && Qgt_bool (pct v) (GAMBLING_CONTRIBUTION_THRESHOLD cfg));
    simpl.
  - right. split; [reflexivity|]. eexists. split; [reflexivity|].
    simpl. repeat split. eexists. reflexivity.
  - left. split; reflexivity.
Qed.

Lemma visit_continue (score : Q) (v : Visit) (tr : TriggeredRules) :
  rejects cfg category_mapping v = false ->
  visit cfg category_mapping score v tr
  = Continue (append_hit (v_side v) (hit_of category_mapping v) tr).
Proof.
  intros Hno. destruct (visit_spec score v tr) as [[_ H]|[H _]];
    [exact H | congruence].
Qed.

(** The nested loops visit the contributions in the order of [visits]. *)
Lemma walk_flat (score : Q) (rd : ResponseData) (tr : TriggeredRules) :
  let detail := default no_evaluation_detail (evaluation_detail rd) in
  for_each (visit_exposure_list cfg category_mapping score)
    [(default [] (source detail), Source);
     (default [] (destination detail), Destination)] tr
  = for_each (visit cfg category_mapping score) (visits rd) tr.
Proof.
  assert (Hexp : forall side l s,
    for_each (visit_exposure cfg category_mapping score side) l s
    = for_each (visit cfg category_mapping score)
        (flat_map (exposure_visits side) l) s).
  { intros side l s. rewrite <- for_each_flat_map.
    apply for_each_ext. intros e s'.
    unfold visit_exposure, exposure_visits.
    rewrite <- for_each_flat_map. apply for_each_ext. intros me s''.
    unfold visit_element, element_visits.
    rewrite <- for_each_map. reflexivity. }
  intros detail. unfold visits. fold detail.
  rewrite for_each_app. simpl. unfold visit_exposure_list; simpl.
  rewrite Hexp.
  destruct (for_each _ (flat_map (exposure_visits Source) _) tr);
    [|reflexivity].
  rewrite flow_eta. apply Hexp.
Qed.

(** The walk over a list of visits, from any state of the triggered
    rules. *)
Lemma walk_spec (score : Q) (vs : list Visit) (tr : TriggeredRules) :
  (Forall (fun v => rejects cfg category_mapping v = false) vs
   /\ for_each (visit cfg category_mapping score) vs tr
      = Continue (add_hits tr (hits_of category_mapping vs)))
  \/ (exists before v after verdict,
        vs = before ++ v :: after
        /\ Forall (fun v => rejects cfg category_mapping v = false) before
        /\ rejects cfg category_mapping v = true
        /\ for_each (visit cfg category_mapping score) vs tr
           = Return verdict
        /\ is_rejected verdict.1
        /\ d_risk_score verdict.2 = Some score
        /\ d_hops verdict.2 = Some (hops v)
        /\ triggered_rules verdict.2
           = add_hits tr (hits_of category_mapping (before ++ [v]))).
Proof.
  revert tr. induction vs as [|v vs IH]; intros tr.
  - left. split; [constructor|]. simpl.
    rewrite hits_of_nil, add_hits_nil. reflexivity.
  - simpl. destruct (visit_spec score v tr)
      as [[Hno Hv]|[Hyes [verdict [Hv [Hrej [Hscore [Hhops Htr]]]]]]].
    + rewrite Hv.
      destruct (IH (append_hit (v_side v) (hit_of category_mapping v) tr))
        as [[Hall Hwalk]
           |[before [w [after [verdict
              [Hvs [Hall [Hw [Hwalk [Hrej [Hscore [Hhops Htr]]]]]]]]]]]].
      * left. split; [constructor; assumption|]. rewrite Hwalk.
        rewrite append_hit_hits_of, add_hits_assoc.
        rewrite <- hits_of_app. reflexivity.
      * right. exists (v :: before), w, after, verdict.
        subst vs. repeat split; try assumption.
        -- constructor; assumption.
        -- rewrite Htr, append_hit_hits_of, add_hits_assoc.
           rewrite <- hits_of_app. reflexivity.
    + right. exists [], v, vs, verdict. rewrite Hv.
      repeat split; try assumption; try constructor.
      rewrite Htr. simpl. apply append_hit_hits_of.
Qed.

End Visit.

(** ** Rules 3 and 4: the exposure walk *)

Section ExposureWalk.
Import config EllipticClient Walk.
Variable cfg : thresholds.
Variable category_mapping : gmap pystr pystr.

Let evaluate := apply_compliance_rules cfg category_mapping.
Let rejects := rejects cfg category_mapping.
Let hits_of := hits_of category_mapping.

(** Below the score threshold the verdict is the outcome of the walk. *)
Lemma apply_compliance_rules_walk (rd : ResponseData) (score : Q) :
  risk_score rd = Some score ->
  (score < RISK_SCORE_THRESHOLD cfg)%Q ->
  evaluate rd
  = match for_each (visit cfg category_mapping score) (visits rd) no_hits
    with
    | Return verdict => verdict
    | Continue triggered =>
        (Approved,
         {| reason := [Txt "All compliance checks passed"];
            d_risk_score := Some score;
            d_category := None;
            d_country := None;
            d_hops := None;
            d_contribution := None;
            triggered_rules := triggered |})
    end.
Proof.
  intros Hscore Hlt. unfold evaluate, apply_compliance_rules.
  rewrite Hscore. apply Qge_bool_false in Hlt. rewrite Hlt.
  rewrite (walk_flat cfg category_mapping score rd). reflexivity.
Qed.

Lemma no_high_risk_code (codes : list pystr) :
  Forall (fun code => code ∉ HIGH_RISK_COUNTRIES) codes ->
  existsb (fun code => bool_decide (code ∈ HIGH_RISK_COUNTRIES)) codes
  = false.
Proof.
  induction 1 as [|code codes Hcode _ IH]; simpl; [reflexivity|].
  rewrite IH, orb_false_r. apply bool_decide_eq_false_2. exact Hcode.
Qed.

Lemma no_country_rule (v : Visit) :
  Forall (fun code => code ∉ HIGH_RISK_COUNTRIES)
    (country_codes (v_contribution v)) ->
  rule_country cfg v = false.
Proof.
  intros Hnone. unfold rule_country.
  rewrite (no_high_risk_code _ Hnone). reflexivity.
Qed.

Lemma no_country_found (h : Z) (codes : list pystr) :
  Forall (fun code => code ∉ HIGH_RISK_COUNTRIES) codes ->
  high_risk_country cfg h codes = None.
Proof.
  intros Hnone. apply high_risk_country_None.
  rewrite (no_high_risk_code _ Hnone). reflexivity.
Qed.

Lemma single_visit (rd : ResponseData) (score : Q) (v : Visit) :
  risk_score rd = Some score ->
  (score < RISK_SCORE_THRESHOLD cfg)%Q ->
  visits rd = [v] ->
  evaluate rd
  = match visit cfg category_mapping score v no_hits with
    | Return verdict => verdict
    | Continue triggered =>
        (Approved,
         {| reason := [Txt "All compliance checks passed"];
            d_risk_score := Some score;
            d_category := None;
            d_country := None;
            d_hops := None;
            d_contribution := None;
            triggered_rules := triggered |})
    end.
Proof.
  intros Hscore Hlt Hone.
  rewrite (apply_compliance_rules_walk rd score Hscore Hlt), Hone. simpl.
  destruct (visit cfg category_mapping score v no_hits); reflexivity.
Qed.

(** C3. With a score below the threshold and a single contribution, of a
    high-risk category and without a high-risk country: at
    [MAX_HOP_DISTANCE] hops the verdict is the rejection "<category>
    detected within <hops> hops", and one hop further it is Approved.  A
    high-risk category is never named "Gambling", so that condition holds
    without being assumed. *)
Theorem category_hop_limit_inclusive (rd : ResponseData) (score : Q)
    (v : Visit) :
  risk_score rd = Some score ->
  (score < RISK_SCORE_THRESHOLD cfg)%Q ->
  visits rd = [v] ->
  v_category_id v ∈ high_risk_category_ids category_mapping ->
  Forall (fun code => code ∉ HIGH_RISK_COUNTRIES)
    (country_codes (v_contribution v)) ->
  (min_number_of_hops (v_contribution v) = Some (MAX_HOP_DISTANCE cfg) ->
   (evaluate rd).1
   = Rejected [Str (name category_mapping v); Txt " detected within ";
               IntV (MAX_HOP_DISTANCE cfg); Txt " hops"])
  /\ (min_number_of_hops (v_contribution v)
      = Some (MAX_HOP_DISTANCE cfg + 1) ->
      (evaluate rd).1 = Approved).
Proof.
  intros Hscore Hlt Hone Hhigh Hcountry.
  rewrite (single_visit rd score v Hscore Hlt Hone).
  split; intros Hhops.
  - unfold visit, visit_contribution. rewrite Hhops. simpl.
    rewrite (bool_decide_eq_true_2 _ Hhigh), Z.leb_refl. reflexivity.
  - rewrite visit_continue; [reflexivity|].
    unfold Walk.rejects. rewrite (no_country_rule v Hcountry).
    unfold rule_category, rule_gambling, hops. rewrite Hhops. simpl.
    settle_leb. rewrite andb_false_r. simpl.
    rewrite (bool_decide_eq_false_2 _
               (high_risk_name_not_gambling category_mapping _ Hhigh)).
    reflexivity.
Qed.

(** C4. With a score below the threshold and a single contribution whose
    category is named "Gambling", without a high-risk country: at
    [GAMBLING_HOP_LIMIT] hops it is rejected; at 3 hops with a percentage
    above [GAMBLING_CONTRIBUTION_THRESHOLD] it is rejected; at 3 hops with
    a percentage equal to the threshold it is approved when
    [GAMBLING_HOP_LIMIT < 3].  A category named "Gambling" is never in the
    high-risk set, so that condition holds without being assumed. *)
Theorem gambling_special_case (rd : ResponseData) (score : Q) (v : Visit) :
  risk_score rd = Some score ->
  (score < RISK_SCORE_THRESHOLD cfg)%Q ->
  visits rd = [v] ->
  name category_mapping v = lit "Gambling" ->
  Forall (fun code => code ∉ HIGH_RISK_COUNTRIES)
    (country_codes (v_contribution v)) ->
  (min_number_of_hops (v_contribution v) = Some (GAMBLING_HOP_LIMIT cfg) ->
   (evaluate rd).1
   = Rejected [Txt "Gambling found at "; IntV (GAMBLING_HOP_LIMIT cfg);
               Txt " hops"])
  /\ (min_number_of_hops (v_contribution v) = Some 3 ->
      (GAMBLING_CONTRIBUTION_THRESHOLD cfg < pct v)%Q ->
      is_rejected (evaluate rd).1
      /\ (GAMBLING_HOP_LIMIT cfg < 3 ->
          (evaluate rd).1
          = Rejected [Txt "Gambling at 3 hops with "; Num2f (pct v);
                      Txt "% contribution"]))
  /\ (min_number_of_hops (v_contribution v) = Some 3 ->
      (pct v == GAMBLING_CONTRIBUTION_THRESHOLD cfg)%Q ->
      GAMBLING_HOP_LIMIT cfg < 3 ->
      (evaluate rd).1 = Approved).
Proof.
  intros Hscore Hlt Hone Hname Hcountry.
  rewrite (single_visit rd score v Hscore Hlt Hone).
  assert (Hcat : bool_decide
            (v_category_id v ∈ high_risk_category_ids category_mapping)
          = false).
  { apply bool_decide_eq_false_2. intros Hhigh.
    exact (high_risk_name_not_gambling category_mapping _ Hhigh Hname). }
  pose proof (fun h => no_country_found h _ Hcountry) as Hfind.
  unfold visit, visit_contribution.
  rewrite Hcat, Hname. simpl. fold (pct v).
  split; [|split].
  - intros Hhops. rewrite Hhops, Hfind. simpl.
    rewrite Z.leb_refl. reflexivity.
  - intros Hhops Hgt. rewrite Hhops, Hfind. simpl.
    apply Qgt_bool_iff in Hgt. rewrite Hgt. split.
    + destruct (3 <=? GAMBLING_HOP_LIMIT cfg); eexists; reflexivity.
    + intros Hlimit. settle_leb. reflexivity.
  - intros Hhops Heq Hlimit. rewrite Hhops, Hfind. simpl.
    settle_leb. rewrite (Qgt_bool_eq _ _ Heq). reflexivity.
Qed.

End ExposureWalk.

(** ** Payloads with nulls *)

Section Payloads.
Import config.
Variable cfg : thresholds.
Variable category_mapping : gmap pystr pystr.













End Payloads.

Section TriggeredRules.
Import config EllipticClient Walk.
Variable cfg : thresholds.
Variable category_mapping : gmap pystr pystr.

Let evaluate := apply_compliance_rules cfg category_mapping.
Let rejects := rejects cfg category_mapping.
Let hits_of := hits_of category_mapping.

(** C5. When the walk is reached, the triggered rules hold one hit per
    contribution of a prefix [seen] of the contributions in visiting order,
    in that order and by side: each hit has the category name of the
    registry, the hop count, and the percentage rounded to 2 decimal
    places, that is the nearest whole number of hundredths.  Either nothing
    rejects, the prefix is the whole walk and the verdict is Approved; or
    the prefix ends with the first contribution that a rule rejects, whose
    hit is recorded, and nothing after it is. *)
Theorem triggered_rules_visited_prefix (rd : ResponseData) (score : Q) :
  risk_score rd = Some score ->
  (score < RISK_SCORE_THRESHOLD cfg)%Q ->
  exists seen rest,
    visits rd = seen ++ rest
    /\ triggered_rules (evaluate rd).2 = hits_of seen
    /\ recorded category_mapping seen (triggered_rules (evaluate rd).2)
    /\ ((rest = []
         /\ Forall (fun v => rejects v = false) seen
         /\ (evaluate rd).1 = Approved)
        \/ (exists before v,
              seen = before ++ [v]
              /\ Forall (fun v => rejects v = false) before
              /\ rejects v = true
              /\ is_rejected (evaluate rd).1)).
Proof.
  intros Hscore Hlt. unfold evaluate.
  rewrite (apply_compliance_rules_walk cfg category_mapping rd score
             Hscore Hlt).
  destruct (walk_spec cfg category_mapping score (visits rd) no_hits)
    as [[Hall Hwalk]
       |[before [v [after [verdict
          [Hvs [Hall [Hv [Hwalk [Hrej [_ [_ Htr]]]]]]]]]]]];
    rewrite Hwalk.
  - exists (visits rd), []. rewrite List.app_nil_r. simpl.
    rewrite add_hits_no_hits_l.
    split; [reflexivity|]. split; [reflexivity|].
    split; [apply hits_of_recorded|].
    left. repeat split. exact Hall.
  - exists (before ++ [v]), after. rewrite <- List.app_assoc. simpl.
    split; [exact Hvs|]. rewrite Htr, add_hits_no_hits_l.
    split; [reflexivity|]. split; [apply hits_of_recorded|].
    right. exists before, v. repeat split; assumption.
Qed.




End TriggeredRules.

(** ** The registry seen by the evaluator *)

Section RegistryProperties.
Import config EllipticClient Walk.

(** C9. A category id without an entry is named "Unknown" at every lookup;
    the high-risk ids are exactly the known ids whose name is in
    [HIGH_RISK_CATEGORIES], a function of the table alone; a table that
    could not be loaded is empty, and with an empty table the high-risk set
    is empty, every id is named "Unknown", and neither the category rule
    nor the gambling rule rejects anything. *)
Theorem registry_lookup (category_mapping : gmap pystr pystr) :
  (forall cid,
     category_mapping !! cid = None ->
     category_name category_mapping cid = lit "Unknown")
  /\ (forall cid,
        cid ∈ high_risk_category_ids category_mapping
        <-> cid ∈ dom category_mapping
            /\ category_name category_mapping cid ∈ HIGH_RISK_CATEGORIES)
  /\ _load_category_mapping None = ∅
  /\ high_risk_category_ids ∅ = ∅
  /\ (forall cid, category_name ∅ cid = lit "Unknown")
  /\ (forall cfg v,
        rule_category cfg ∅ v = false /\ rule_gambling cfg ∅ v = false).
Proof.
  split.
  { intros cid Hnone. unfold category_name. rewrite Hnone. reflexivity. }
  split.
  { intros cid. rewrite high_risk_category_ids_spec, elem_of_dom.
    unfold category_name. split.
    - intros [name [Hlook Hin]]. rewrite Hlook. simpl.
      split; [exists name; reflexivity | exact Hin].
    - intros [[name Hlook] Hin]. rewrite Hlook in Hin. simpl in Hin.
      exists name. split; assumption. }
  split; [reflexivity|].
  assert (Hempty : high_risk_category_ids ∅ = ∅).
  { unfold high_risk_category_ids. rewrite map_filter_empty.
    apply dom_empty_L. }
  split; [exact Hempty|].
  split.
  { intros cid. unfold category_name. rewrite lookup_empty. reflexivity. }
  intros cfg v. split.
  - unfold rule_category. rewrite Hempty.
    rewrite bool_decide_eq_false_2; [reflexivity|]. apply not_elem_of_empty.
  - unfold rule_gambling, name, category_name. rewrite lookup_empty.
    rewrite bool_decide_eq_false_2; [reflexivity|]. discriminate.
Qed.

End RegistryProperties.

(** ** Usage limits *)

Section UsageLimits.
Import Database.

(** C6. For an unknown identity the answer is (False, "User not
    authorized", 0, 0).  For a known one, the remaining figures are
    [max(0, limit - used)] for each window; the answer is a refusal with
    the daily message as soon as the daily count has reached the daily
    limit, whatever the monthly count; otherwise a refusal with the monthly
    message when the monthly count has reached the monthly limit; otherwise
    it is (True, "OK", ...). *)
Theorem check_usage_limit_spec (db : t) (now_day now_month : Z)
    (tid : pystr) :
  match get_user db tid with
  | None =>
      check_usage_limit db now_day now_month tid
      = (false, [Txt "User not authorized"], 0, 0)
  | Some user =>
      let daily_usage := get_usage_count db now_day tid "day" in
      let monthly_usage := get_usage_count db now_month tid "month" in
      let remaining_daily := Z.max 0 (daily_limit user - daily_usage) in
      let remaining_monthly :=
        Z.max 0 (monthly_limit user - monthly_usage) in
      (daily_limit user <= daily_usage ->
       check_usage_limit db now_day now_month tid
       = (false,
          [Txt "Daily limit reached ("; IntV (daily_limit user);
           Txt " queries/day)"],
          remaining_daily, remaining_monthly))
      /\ (daily_usage < daily_limit user ->
          monthly_limit user <= monthly_usage ->
          check_usage_limit db now_day now_month tid
          = (false,
             [Txt "Monthly limit reached ("; IntV (monthly_limit user);
              Txt " queries/month)"],
             remaining_daily, remaining_monthly))
      /\ (daily_usage < daily_limit user ->
          monthly_usage < monthly_limit user ->
          check_usage_limit db now_day now_month tid
          = (true, [Txt "OK"], remaining_daily, remaining_monthly))
      /\ (daily_usage = daily_limit user -> remaining_daily = 0)
  end.
Proof.
  unfold check_usage_limit.
  destruct (get_user db tid) as [user|] eqn:Huser; [|reflexivity].
  cbv zeta.
  destruct (Z.leb_spec (daily_limit user)
              (get_usage_count db now_day tid "day")) as [Hday|Hday];
    [|destruct (Z.leb_spec (monthly_limit user)
                  (get_usage_count db now_month tid "month"))
        as [Hmonth|Hmonth]];
    repeat split; intros; try reflexivity; lia.
Qed.

End UsageLimits.

(** ** The wallet-analysis handler *)


Section Handler.
Import config Database.
Variable cfg : thresholds.
Variable category_mapping : gmap pystr pystr.
Variable env : bot.Env.








End Handler.

(** ** Strings *)

Lemma lstrip_head (s rest : pystr) (c : N) :
  lstrip s = c :: rest -> isspace c = false.
Proof.
  induction s as [|d s IH]; simpl; [discriminate|].
  destruct (isspace d) eqn:Hd; [exact IH|].
  intros [= -> _]. exact Hd.
Qed.

Lemma strip_last (s body : pystr) (c : N) :
  strip s = body ++ [c] -> isspace c = false.
Proof.
  unfold strip, rstrip. intros Hrev.
  apply (f_equal (@rev N)) in Hrev.
  rewrite rev_involutive, rev_app_distr in Hrev. simpl in Hrev.
  exact (lstrip_head _ _ _ Hrev).
Qed.

Lemma strip_nil : strip [] = [].
Proof. reflexivity. Qed.

(** ** Regular expressions *)

Section Regex.
Import re.

Lemma repeat_spec (ranges : list (ascii * ascii)) (m n : nat)
    (k : pystr -> bool) (s : pystr) :
  repeat ranges m n k s = true
  <-> exists j : nat,
        (m <= j <= n)%nat /\ (j <= length s)%nat
        /\ forallb (in_class ranges) (take j s) = true
        /\ k (drop j s) = true.
Proof.
  revert m s. induction n as [|n IH]; intros m s.
  - simpl. rewrite andb_true_iff, Nat.eqb_eq. split.
    + intros [-> Hk]. exists 0%nat. simpl. rewrite drop_0.
      repeat split; try lia. exact Hk.
    + intros [j [Hj [_ [_ Hk]]]]. assert (j = 0)%nat as -> by lia.
      rewrite drop_0 in Hk. split; [lia | exact Hk].
  - destruct s as [|c rest].
    + simpl. rewrite andb_true_iff, Nat.eqb_eq. split.
      * intros [-> Hk]. exists 0%nat. simpl. repeat split; try lia.
        exact Hk.
      * intros [j [Hj [Hlen [_ Hk]]]]. simpl in Hlen.
        assert (j = 0)%nat as -> by lia. split; [lia | exact Hk].
    + simpl. rewrite orb_true_iff, !andb_true_iff, Nat.eqb_eq, IH. split.
      * intros [[Hc [j [Hj [Hlen [Hall Hk]]]]]|[-> Hk]].
        -- exists (S j). simpl. rewrite Hc, Hall. repeat split; try lia.
           exact Hk.
        -- exists 0%nat. simpl. repeat split; try lia. exact Hk.
      * intros [[|j] [Hj [Hlen [Hall Hk]]]].
        -- right. split; [lia | exact Hk].
        -- left. simpl in Hall, Hk, Hlen.
           apply andb_true_iff in Hall as [Hc Hall].
           split; [exact Hc|]. exists j. repeat split; try lia; assumption.
Qed.

(** What a match says about the subject: its first [j] characters belong
    to the classes of the pattern, [j] is within the bounds of the
    pattern, and [$] holds after them. *)
Lemma items_sound (p : list item) (s : pystr) :
  items p s = true ->
  exists j : nat,
    (min_length p <= j <= max_length p)%nat /\ (j <= length s)%nat
    /\ forallb (any_class p) (take j s) = true
    /\ at_end (drop j s) = true.
Proof.
  revert s. induction p as [|i p IH]; intros s; simpl.
  - intros Hend. exists 0%nat. simpl. rewrite drop_0.
    repeat split; try lia. exact Hend.
  - intros Hrep. apply repeat_spec in Hrep
      as [j1 [Hj1 [Hlen1 [Hall1 Hrest]]]].
    apply IH in Hrest as [j2 [Hj2 [Hlen2 [Hall2 Hend]]]].
    rewrite length_drop in Hlen2. rewrite drop_drop in Hend.
    exists (j1 + j2)%nat. repeat split; try lia; [|exact Hend].
    rewrite <- take_take_drop.
    rewrite forallb_app. apply andb_true_iff. split.
    + rewrite forallb_forall in *. intros c Hc.
      unfold any_class. simpl. rewrite (Hall1 c Hc). reflexivity.
    + rewrite forallb_forall in *. intros c Hc.
      unfold any_class in *. simpl. rewrite (Hall2 c Hc).
      apply orb_true_r.
Qed.

Lemma class_within_sound (small big : list (ascii * ascii)) (c : N) :
  class_within small big = true ->
  in_class small c = true -> in_class big c = true.
Proof.
  unfold class_within, in_class.
  rewrite forallb_forall. intros Hwithin Hin.
  apply existsb_exists in Hin as [r [Hr Hc]].
  apply Hwithin in Hr. apply existsb_exists in Hr as [r' [Hr' Hrr']].
  apply existsb_exists. exists r'. split; [exact Hr'|].
  rewrite !andb_true_iff, !N.leb_le in *. lia.
Qed.

(** A pattern whose classes lie within [ranges] and whose length bounds
    lie within [m] and [n] matches only what [^[ranges]{m,n}$] matches. *)
Lemma subsumed (p : list item) (ranges : list (ascii * ascii))
    (m n : nat) (s : pystr) :
  forallb (fun i => class_within (cls i) ranges) p = true ->
  (m <= min_length p)%nat -> (max_length p <= n)%nat ->
  matches p s = true ->
  matches [rep ranges m n] s = true.
Proof.
  intros Hcls Hmin Hmax Hp. unfold matches in *.
  apply items_sound in Hp as [j [Hj [Hlen [Hall Hend]]]].
  simpl. apply repeat_spec. exists j.
  repeat split; try lia; [|exact Hend].
  rewrite forallb_forall in *. intros c Hc.
  specialize (Hall c Hc). unfold any_class in Hall.
  apply existsb_exists in Hall as [i [Hi Hin]].
  exact (class_within_sound _ _ c (Hcls i Hi) Hin).
Qed.

End Regex.

(** ** Wallet addresses *)

Section Validation.
Import re validators.

Lemma chain_patterns_generic (s : pystr) :
  (matches btc_legacy s = true -> matches generic_pattern s = true)
  /\ (matches btc_segwit s = true -> matches generic_pattern s = true)
  /\ (matches eth_pattern s = true -> matches generic_pattern s = true)
  /\ (matches ltc_pattern s = true -> matches generic_pattern s = true).
Proof.
  repeat split; intros Hp;
    (eapply (subsumed _ alnum 26 90 s); [| | |exact Hp];
     [vm_compute; reflexivity | vm_compute; lia | vm_compute; lia]).
Qed.

Lemma alnum_class (c : N) : in_class alnum c = ascii_alnum c.
Proof.
  unfold in_class, ascii_alnum, alnum, existsb, fst, snd.
  change (N_of_ascii "a") with 97%N. change (N_of_ascii "z") with 122%N.
  change (N_of_ascii "A") with 65%N. change (N_of_ascii "Z") with 90%N.
  change (N_of_ascii "0") with 48%N. change (N_of_ascii "9") with 57%N.
  destruct ((97 <=? c)%N && (c <=? 122)%N),
    ((65 <=? c)%N && (c <=? 90)%N), ((48 <=? c)%N && (c <=? 57)%N);
    reflexivity.
Qed.

(** On a stripped string a match of the generic pattern ends at the end of
    the string, not before a final newline, so the pattern says: between 26
    and 90 characters, all of them ASCII letters or digits. *)
Lemma generic_pattern_strip (address : pystr) :
  matches generic_pattern (strip address) = true
  <-> (26 <= length (strip address) <= 90)%nat
      /\ forallb ascii_alnum (strip address) = true.
Proof.
  change (matches generic_pattern (strip address))
    with (repeat alnum 26 90 at_end (strip address)).
  rewrite repeat_spec. split.
  - intros [j [Hj [Hlen [Hall Hend]]]].
    assert (Hdrop : drop j (strip address) = []).
    { destruct (drop j (strip address)) as [|c [|d rest]] eqn:Hrest;
        [reflexivity| |discriminate Hend].
      simpl in Hend. apply N.eqb_eq in Hend. subst c.
      pose proof (take_drop j (strip address)) as Hsplit.
      rewrite Hrest in Hsplit. symmetry in Hsplit.
      apply strip_last in Hsplit. discriminate Hsplit. }
    pose proof (take_drop j (strip address)) as Hsplit.
    rewrite Hdrop, List.app_nil_r in Hsplit. rewrite Hsplit in Hall.
    apply (f_equal (@length N)) in Hdrop.
    rewrite length_drop in Hdrop. simpl in Hdrop.
    split; [lia|].
    rewrite forallb_forall in *. intros c Hc.
    rewrite <- alnum_class. exact (Hall c Hc).
  - intros [Hlength Hall]. exists (length (strip address)).
    rewrite firstn_all, drop_all. repeat split; try lia.
    rewrite forallb_forall in *. intros c Hc.
    rewrite alnum_class. exact (Hall c Hc).
Qed.

Lemma generic_length (address : pystr) :
  matches generic_pattern (strip address) = true ->
  (26 <= length (strip address) <= 90)%nat.
Proof. intros Hp. apply generic_pattern_strip in Hp. apply Hp. Qed.

(** C10. An address is accepted exactly when it is not empty and, once
    stripped, matches [^[a-zA-Z0-9]{26,90}$], that is, has between 26 and 90
    characters, all ASCII letters or digits: whatever the Bitcoin, Ethereum
    and Litecoin patterns match, the generic pattern matches too, and a
    stripped string that the generic pattern matches has between 26 and 90
    characters, so neither they nor the length test change the answer. *)
Theorem validate_wallet_address_generic (address : pystr) :
  ((validate_wallet_address address).1 = true
   <-> address <> []
       /\ matches generic_pattern (strip address) = true)
  /\ (matches generic_pattern (strip address) = true
      <-> (26 <= length (strip address) <= 90)%nat
          /\ forallb ascii_alnum (strip address) = true)
  /\ (forall s,
        matches btc_legacy s = true \/ matches btc_segwit s = true
        \/ matches eth_pattern s = true \/ matches ltc_pattern s = true ->
        matches generic_pattern s = true).
Proof.
  split; [|split].
  - unfold validate_wallet_address.
    destruct (chain_patterns_generic (strip address))
      as [Hbtc [Hsegwit [Heth Hltc]]].
    pose proof (generic_length address) as Hlength.
    revert Hbtc Hsegwit Heth Hltc Hlength.
    generalize (matches btc_legacy (strip address))
      (matches btc_segwit (strip address))
      (matches eth_pattern (strip address))
      (matches ltc_pattern (strip address))
      (matches generic_pattern (strip address)).
    intros btc segwit eth ltc generic Hbtc Hsegwit Heth Hltc Hlength.
    destruct (bool_decide (address = [])) eqn:Hempty.
    { apply bool_decide_eq_true_1 in Hempty.
      split; [discriminate | intros [Hne _]; contradiction]. }
    apply bool_decide_eq_false_1 in Hempty.
    destruct ((length (strip address) <? 26)%nat
              || (90 <? length (strip address))%nat) eqn:Hlen.
    { split; [discriminate|]. intros [_ Hp].
      apply Hlength in Hp. apply orb_true_iff in Hlen.
      rewrite !Nat.ltb_lt in Hlen. lia. }
    destruct generic.
    { rewrite !orb_true_r. split; [auto | reflexivity]. }
    destruct btc; [discriminate (Hbtc eq_refl)|].
    destruct segwit; [discriminate (Hsegwit eq_refl)|].
    destruct eth; [discriminate (Heth eq_refl)|].
    destruct ltc; [discriminate (Hltc eq_refl)|].
    split; [discriminate | intros [_ Habs]; discriminate Habs].
  - apply generic_pattern_strip.
  - intros s Hany.
    destruct (chain_patterns_generic s) as [Hbtc [Hsegwit [Heth Hltc]]].
    destruct Hany as [Hp|[Hp|[Hp|Hp]]];
      [exact (Hbtc Hp) | exact (Hsegwit Hp) | exact (Heth Hp)
      | exact (Hltc Hp)].
Qed.

End Validation.

(** * The properties on concrete inputs *)

Section Witnesses.
Import config EllipticClient Walk.

Let evaluate := apply_compliance_rules defaults Sample.mapping.

(** Ransomware one hop away is a rejection at score 1; without a score the
    same assessment is approved. *)
Lemma missing_score_approved_witness :
  risk_score (Sample.ransomware_near None) = None
  /\ is_rejected (evaluate (Sample.ransomware_near (Some 1%Q))).1
  /\ evaluate (Sample.ransomware_near None)
     = (Approved,
        {| reason := [Txt "No risk score found"];
           d_risk_score := None;
           d_category := None;
           d_country := None;
           d_hops := None;
           d_contribution := None;
           triggered_rules := no_hits |}).
Proof.
  split; [reflexivity|]. split.
  - eexists. vm_compute. reflexivity.
  - apply (missing_score_approved defaults Sample.mapping
             (Sample.ransomware_near None)).
    reflexivity.
Defined.

(** At score 7 the reason is the score, not the ransomware exposure. *)
Lemma high_score_rejected_witness :
  (evaluate (Sample.ransomware_near (Some 1%Q))).1
  = Rejected [Str (lit "Ransomware"); Txt " detected within "; IntV 1;
              Txt " hops"]
  /\ evaluate (Sample.ransomware_near (Some 7%Q))
     = (Rejected [Txt "High Risk Score ("; NumV 7; Txt ")"],
        {| reason := [Txt "High Risk Score ("; NumV 7; Txt ")"];
           d_risk_score := Some 7%Q;
           d_category := None;
           d_country := None;
           d_hops := None;
           d_contribution := None;
           triggered_rules := no_hits |}).
Proof.
  split; [vm_compute; reflexivity|].
  apply (high_score_rejected defaults Sample.mapping
           (Sample.ransomware_near (Some 7%Q)) 7%Q).
  - reflexivity.
  - unfold Qle; simpl; lia.
Defined.

Lemma category_hop_limit_inclusive_witness :
  (evaluate (Sample.single "17" 3 10)).1
  = Rejected [Str (lit "Ransomware"); Txt " detected within "; IntV 3;
              Txt " hops"]
  /\ (evaluate (Sample.single "17" 4 10)).1 = Approved.
Proof.
  split.
  - refine (proj1 (category_hop_limit_inclusive defaults Sample.mapping
              (Sample.single "17" 3 10) 1%Q
              {| v_side := Destination;
                 v_category_id := lit "17";
                 v_contribution := Sample.contribution 3 10 [] |}
              _ _ _ _ _) _);
      [reflexivity | reflexivity | reflexivity
      | apply (bool_decide_eq_true_1 _); vm_compute; reflexivity
      | constructor | reflexivity].
  - refine (proj2 (category_hop_limit_inclusive defaults Sample.mapping
              (Sample.single "17" 4 10) 1%Q
              {| v_side := Destination;
                 v_category_id := lit "17";
                 v_contribution := Sample.contribution 4 10 [] |}
              _ _ _ _ _) _);
      [reflexivity | reflexivity | reflexivity
      | apply (bool_decide_eq_true_1 _); vm_compute; reflexivity
      | constructor | reflexivity].
Defined.

Lemma gambling_special_case_witness :
  (evaluate (Sample.single "23" 2 (1 # 2))).1
  = Rejected [Txt "Gambling found at "; IntV 2; Txt " hops"]
  /\ (evaluate (Sample.single "23" 3 (301 # 100))).1
     = Rejected [Txt "Gambling at 3 hops with "; Num2f (301 # 100);
                 Txt "% contribution"]
  /\ (evaluate (Sample.single "23" 3 (300 # 100))).1 = Approved.
Proof.
  pose (v := fun h p =>
    {| v_side := Destination;
       v_category_id := lit "23";
       v_contribution := Sample.contribution h p [] |}).
  split; [|split].
  - refine (proj1 (gambling_special_case defaults Sample.mapping
              (Sample.single "23" 2 (1 # 2)) 1%Q (v 2 (1 # 2))
              _ _ _ _ _) _);
      [reflexivity | reflexivity | reflexivity | vm_compute; reflexivity
      | constructor | reflexivity].
  - refine (proj2 (proj1 (proj2 (gambling_special_case defaults
              Sample.mapping (Sample.single "23" 3 (301 # 100)) 1%Q
              (v 3 (301 # 100)) _ _ _ _ _)) _ _) _);
      [reflexivity | reflexivity | reflexivity | vm_compute; reflexivity
      | constructor | reflexivity | reflexivity | reflexivity].
  - refine (proj2 (proj2 (gambling_special_case defaults Sample.mapping
              (Sample.single "23" 3 (300 # 100)) 1%Q (v 3 (300 # 100))
              _ _ _ _ _)) _ _ _);
      [reflexivity | reflexivity | reflexivity | vm_compute; reflexivity
      | constructor | reflexivity | reflexivity | reflexivity].
Defined.

(** The walk of [Sample.mixed] stops at its fourth contribution: the hits
    are those of the first four, with 12.34375 recorded as 12.34, 0.375 as
    0.38 and 0.125 as 0.12. *)
Lemma triggered_rules_visited_prefix_witness :
  risk_score Sample.mixed = Some (3 # 2)%Q
  /\ (3 # 2 < RISK_SCORE_THRESHOLD defaults)%Q
  /\ triggered_rules (evaluate Sample.mixed).2
     = {| tr_Source :=
            [{| hit_category := lit "Exchange"; hit_hops := 1;
                hit_contribution := (1234 # 100)%Q |};
             {| hit_category := lit "Exchange"; hit_hops := 5;
                hit_contribution := (38 # 100)%Q |};
             {| hit_category := lit "Ransomware"; hit_hops := 4;
                hit_contribution := (5000 # 100)%Q |}];
          tr_Destination :=
            [{| hit_category := lit "Unknown"; hit_hops := 2;
                hit_contribution := (12 # 100)%Q |}] |}
  /\ exists seen rest,
       visits Sample.mixed = seen ++ rest
       /\ triggered_rules (evaluate Sample.mixed).2
          = hits_of Sample.mapping seen
       /\ recorded Sample.mapping seen
            (triggered_rules (evaluate Sample.mixed).2)
       /\ ((rest = []
            /\ Forall (fun v => rejects defaults Sample.mapping v = false)
                 seen
            /\ (evaluate Sample.mixed).1 = Approved)
           \/ (exists before v,
                 seen = before ++ [v]
                 /\ Forall
                      (fun v => rejects defaults Sample.mapping v = false)
                      before
                 /\ rejects defaults Sample.mapping v = true
                 /\ is_rejected (evaluate Sample.mixed).1)).
Proof.
  split; [reflexivity|]. split; [reflexivity|].
  split; [vm_compute; reflexivity|].
  apply (triggered_rules_visited_prefix defaults Sample.mapping
           Sample.mixed (3 # 2)%Q); reflexivity.
Defined.



End Witnesses.

Section Examples.
Import config EllipticClient.

Example round2_examples :
  round2 (1 # 8) = (12 # 100)%Q /\ round2 (3 # 8) = (38 # 100)%Q
  /\ round2 (395 # 32) = (1234 # 100)%Q
  /\ round2 (- (5 # 8)) = (- 62 # 100)%Q
  /\ round2 (5 # 1024) = (0 # 100)%Q.
Proof. repeat split. Qed.

(** Three hits on the source side and one on the destination side: the
    fifth contribution of [Sample.mixed] is never visited. *)
Example mixed_walk :
  let verdict := apply_compliance_rules defaults Sample.mapping Sample.mixed in
  verdict.1
  = Rejected [Txt "High-risk country "; Str (lit "IR");
              Txt " detected within "; IntV 2; Txt " hops"]
  /\ triggered_rules verdict.2
     = {| tr_Source :=
            [{| hit_category := lit "Exchange"; hit_hops := 1;
                hit_contribution := (1234 # 100)%Q |};
             {| hit_category := lit "Exchange"; hit_hops := 5;
                hit_contribution := (38 # 100)%Q |};
             {| hit_category := lit "Ransomware"; hit_hops := 4;
                hit_contribution := (5000 # 100)%Q |}];
          tr_Destination :=
            [{| hit_category := lit "Unknown"; hit_hops := 2;
                hit_contribution := (12 # 100)%Q |}] |}.
Proof. vm_compute. split; reflexivity. Qed.

(** What a null hop count does depends on the rules reached: in a category
    that is neither high-risk nor Gambling it is recorded and passed over;
    in a high-risk or Gambling category the comparison raises.  A null
    percentage always raises, and a null score approves. *)
Example null_fields :
  let run := Json.apply_compliance_rules defaults Sample.mapping in
  let percentage_null : Json.Contribution :=
    {| Json.min_number_of_hops := Json.Value 1;
       Json.indirect_percentage := Json.Null;
       Json.risk_triggers := Json.Missing |} in
  (exists details,
     run (Sample.payload "31" Json.Null)
     = Json.Returns (Approved, details)
     /\ Json.tr_Source (Json.triggered_rules details)
        = [{| Json.hit_category := lit "Exchange";
              Json.hit_hops := None;
              Json.hit_contribution := (1250 # 100)%Q |}])
  /\ run (Sample.payload "23" Json.Null) = Json.Raises Json.TypeError
  /\ run (Sample.payload "17" (Json.Value 3))
     = Json.Returns
         (of_verdict
            (apply_compliance_rules defaults Sample.mapping
               (read (Sample.payload "17" (Json.Value 3)))))
  /\ Json.visit_contribution defaults Sample.mapping 1 Source
       (Some (lit "31")) (lit "Exchange") percentage_null
       {| Json.tr_Source := []; Json.tr_Destination := [] |}
     = Return (Json.Raises Json.TypeError)
  /\ (exists details,
        run {| Json.risk_score := Json.Null;
               Json.evaluation_detail := Json.Missing |}
        = Json.Returns (Approved, details))
  /\ run {| Json.risk_score := Json.Null;
            Json.evaluation_detail := Json.Null |}
     = Json.Raises Json.AttributeError.
Proof.
  split; [eexists; split; vm_compute; reflexivity|].
  split; [vm_compute; reflexivity|]. split; [vm_compute; reflexivity|].
  split; [vm_compute; reflexivity|].
  split; [eexists; vm_compute; reflexivity | vm_compute; reflexivity].
Qed.

Example loaded_table :
  Sample.mapping !! lit "23" = Some (lit "Gambling")
  /\ Sample.mapping !! lit "short row" = None
  /\ category_name Sample.mapping (lit "99") = lit "Unknown"
  /\ elements (high_risk_category_ids Sample.mapping) = [lit "17"].
Proof. vm_compute. repeat split. Qed.

Example check_usage_limit_examples :
  Database.check_usage_limit Sample.db 1000000 1000000 (lit "alice")
  = (false,
     [Txt "Daily limit reached ("; IntV 2; Txt " queries/day)"], 0, 298)
  /\ Database.check_usage_limit Sample.db 1000000 1000000 (lit "bob")
     = (true, [Txt "OK"], 1, 299)
  /\ Database.check_usage_limit Sample.db 1000000 1000000 (lit "carol")
     = (false, [Txt "User not authorized"], 0, 0).
Proof. vm_compute. repeat split. Qed.

Example handler_examples :
  let address := lit " 1BoatSLRHtKNngkdXEeobR76b53LETtpyT " in
  let ok :=
    Response 200 [] (JsonDict (Sample.ransomware_near (Some 1%Q))) in
  let run outcome who :=
    (bot.analyze_wallet defaults Sample.mapping (Sample.env outcome)
       Sample.db (lit who) address).1 in
  let sizes db :=
    (length (Database.usage_logs db), length (Database.error_logs db)) in
  sizes Sample.db = (3, 0)%nat
  /\ sizes (run ok "bob") = (4, 0)%nat
  /\ sizes (run (PostRaises Timeout) "bob") = (3, 1)%nat
  /\ sizes (run (Response 401 [] JsonNotDict) "bob") = (3, 1)%nat
  /\ sizes (run (Response 503 [] JsonNotDict) "bob") = (3, 1)%nat
  /\ sizes (run (Response 200 [] JsonNotDict) "bob") = (3, 1)%nat
  /\ sizes (run ok "alice") = (3, 0)%nat
  /\ sizes (run ok "carol") = (3, 0)%nat.
Proof. vm_compute. repeat split. Qed.

(** The failures the client reports, one of each kind. *)
Example api_failures :
  API.analyze_wallet (Response 401 [] JsonNotDict)
  = Failure [Txt "API authentication failed. Please check your credentials."]
  /\ API.analyze_wallet (Response 429 [] JsonNotDict)
     = Failure [Txt "API rate limit exceeded. Please try again later."]
  /\ API.analyze_wallet (Response 503 [] JsonNotDict)
     = Failure [Txt "Elliptic API server error (HTTP "; IntV 503; Txt ")"]
  /\ API.analyze_wallet (PostRaises Timeout)
     = Failure [Txt "API request timed out. Please try again."]
  /\ API.analyze_wallet (PostRaises ConnectionError)
     = Failure [Txt "Failed to connect to Elliptic API. Please check your internet connection."]
  /\ API.analyze_wallet (Response 200 [] JsonNotDict)
     = Failure [Txt "Invalid API response format"]
  /\ API.analyze_wallet (Response 200 [] (JsonRaises JSONDecodeError))
     = Failure [Txt "Failed to parse API response"]
  /\ API.analyze_wallet (Response 404 (lit "404 Client Error") JsonNotDict)
     = Failure [Txt "API request failed: "; Str (lit "404 Client Error")].
Proof. repeat split. Qed.

Example validate_wallet_address_examples :
  let accepts s := (validators.validate_wallet_address (lit s)).1 in
  accepts "1BoatSLRHtKNngkdXEeobR76b53LETtpyT" = true
  /\ accepts "  0x52908400098527886E0F7030069857D2E4169EE7 " = true
  /\ accepts "0x52908400098527886E0F7030069857D2E4169EE7-" = false
  /\ accepts "tooshort" = false
  /\ validators.validate_wallet_address []
     = (false, "Wallet address cannot be empty"%string)
  /\ re.matches validators.generic_pattern
       (lit "1BoatSLRHtKNngkdXEeobR76b53LETtpyT" ++ [10%N]) = true.
Proof. vm_compute. repeat split. Qed.

End Examples.

(** * Further properties of the evaluator *)

Section Verdicts.
Import config EllipticClient Walk Verdict.
Variable cfg : thresholds.
Variable category_mapping : gmap pystr pystr.

Let evaluate := apply_compliance_rules cfg category_mapping.
Let rejects := Walk.rejects cfg category_mapping.
Let reason_of := rejection_reason cfg category_mapping.

Lemma rejected_not_approved (decision : list piece) :
  is_rejected decision -> decision <> Approved.
Proof. intros [rejection_reason ->]. discriminate. Qed.

(** A walk over contributions that no rule rejects records all their hits. *)
Lemma walk_continue (score : Q) (vs : list Visit) (tr : TriggeredRules) :
  Forall (fun v => rejects v = false) vs ->
  for_each (visit cfg category_mapping score) vs tr
  = Continue (add_hits tr (hits_of category_mapping vs)).
Proof.
  intros Hall.
  destruct (walk_spec cfg category_mapping score vs tr)
    as [[_ Hwalk]|[before [v [after [_ [-> [_ [Hv _]]]]]]]];
    [exact Hwalk|].
  apply Forall_app in Hall as [_ Hall]. apply Forall_cons in Hall as [Hno _].
  unfold rejects in Hno. congruence.
Qed.

Lemma high_risk_country_first (v : Visit) :
  high_risk_country cfg (hops v) (country_codes (v_contribution v))
  = if rule_country cfg v then first_high_risk_code v else None.
Proof.
  unfold high_risk_country, rule_country, first_high_risk_code.
  destruct (hops v <=? MAX_HOP_DISTANCE cfg).
  - induction (country_codes (v_contribution v)) as [|code codes IH];
      simpl; [reflexivity|].
    rewrite andb_true_r in *.
    destruct (bool_decide (code ∈ HIGH_RISK_COUNTRIES)); simpl;
      [reflexivity|].
    rewrite andb_true_r. exact IH.
  - rewrite andb_false_r.
    induction (country_codes (v_contribution v)) as [|code codes IH];
      simpl; [reflexivity|].
    rewrite andb_false_r. exact IH.
Qed.

Lemma rule_country_code (v : Visit) :
  rule_country cfg v = true ->
  exists code, first_high_risk_code v = Some code.
Proof.
  unfold rule_country, first_high_risk_code. intros Hrule.
  apply andb_true_iff in Hrule as [Hexists _].
  apply existsb_exists in Hexists as [code [Hin Hcode]].
  destruct (List.find _ _) as [found|] eqn:Hfind; [eauto|].
  apply (find_none _ _ Hfind) in Hin. congruence.
Qed.

(** The verdict on a contribution that a rule rejects. *)
Lemma visit_rejection (score : Q) (v : Visit) (tr : TriggeredRules) :
  rejects v = true ->
  exists details,
    visit cfg category_mapping score v tr
    = Return (Rejected (reason_of v), details)
    /\ reason details = reason_of v
    /\ d_risk_score details = Some score
    /\ d_hops details = Some (hops v)
    /\ triggered_rules details
       = append_hit (v_side v) (hit_of category_mapping v) tr.
Proof.
  unfold rejects, Walk.rejects, reason_of, rejection_reason, visit,
    visit_contribution.
  fold (hops v). fold (pct v). fold (hit_of category_mapping v).
  rewrite high_risk_country_first.
  fold (rule_category cfg category_mapping v).
  destruct (rule_category cfg category_mapping v); simpl.
  { intros _. eexists. repeat split. }
  destruct (rule_country cfg v) eqn:Hcountry; simpl.
  { intros _. destruct (rule_country_code v Hcountry) as [code ->].
    eexists. repeat split. }
  unfold rule_gambling.
  destruct (bool_decide (name category_mapping v = lit "Gambling"));
    simpl; [|discriminate].
  destruct (hops v <=? GAMBLING_HOP_LIMIT cfg); simpl.
  { intros _. eexists. repeat split. }
  intros Hthree. rewrite Hthree. eexists. repeat split.
Qed.

Lemma approved_characterised (rd : ResponseData) :
  (evaluate rd).1 = Approved
  <-> risk_score rd = None
      \/ exists score,
           risk_score rd = Some score
           /\ (score < RISK_SCORE_THRESHOLD cfg)%Q
           /\ Forall (fun v => rejects v = false) (visits rd).
Proof.
  destruct (risk_score rd) as [score|] eqn:Hscore.
  - destruct (Qlt_le_dec score (RISK_SCORE_THRESHOLD cfg)) as [Hlt|Hle].
    + unfold evaluate.
      rewrite (apply_compliance_rules_walk cfg category_mapping rd score
                 Hscore Hlt).
      destruct (walk_spec cfg category_mapping score (visits rd) no_hits)
        as [[Hall Hwalk]
           |[before [v [after [verdict
              [Hvs [_ [Hv [Hwalk [Hrej _]]]]]]]]]];
        rewrite Hwalk.
      * split; [|reflexivity]. intros _. right. exists score. auto.
      * split.
        -- intros Happroved. exfalso.
           exact (rejected_not_approved _ Hrej Happroved).
        -- intros [Hnone|[score' [_ [_ Hall]]]]; [discriminate|].
           rewrite Hvs in Hall. apply Forall_app in Hall as [_ Hall].
           apply Forall_cons in Hall as [Hno _].
           unfold rejects in Hno. congruence.
    + unfold evaluate, apply_compliance_rules. rewrite Hscore.
      pose proof Hle as Hge. apply Qge_bool_iff in Hge. rewrite Hge.
      split; [discriminate|].
      intros [Hnone|[score' [[= <-] [Hlt _]]]]; [discriminate|].
      exfalso. exact (Qlt_not_le _ _ Hlt Hle).
  - unfold evaluate, apply_compliance_rules. rewrite Hscore.
    split; [auto | reflexivity].
Qed.

(** X1. The decision is Approved exactly when the assessment has no risk
    score, or its score is below the threshold and no contribution of the
    walk satisfies the category, country or gambling rule. *)
Theorem approved_iff_nothing_rejects (rd : ResponseData) :
  (evaluate rd).1 = Approved
  <-> risk_score rd = None
      \/ exists score,
           risk_score rd = Some score
           /\ (score < RISK_SCORE_THRESHOLD cfg)%Q
           /\ Forall (fun v => rejects v = false) (visits rd).
Proof. exact (approved_characterised rd). Qed.

(** X2. First match wins.  Below the score threshold, the verdict is decided
    by the first contribution in visiting order that a rule rejects: its
    reason is the one of the category rule if that rule holds, else of the
    country rule with the first high-risk code of the list, else of the
    gambling rule; the details carry the score and the hop count of that
    contribution, and the triggered rules stop at it. *)
Theorem first_rejection_decides (rd : ResponseData) (score : Q)
    (before after : list Visit) (v : Visit) :
  risk_score rd = Some score ->
  (score < RISK_SCORE_THRESHOLD cfg)%Q ->
  visits rd = before ++ v :: after ->
  Forall (fun v => rejects v = false) before ->
  rejects v = true ->
  (evaluate rd).1 = Rejected (reason_of v)
  /\ reason (evaluate rd).2 = reason_of v
  /\ d_risk_score (evaluate rd).2 = Some score
  /\ d_hops (evaluate rd).2 = Some (hops v)
  /\ triggered_rules (evaluate rd).2
     = hits_of category_mapping (before ++ [v]).
Proof.
  intros Hscore Hlt Hvs Hbefore Hv. unfold evaluate.
  rewrite (apply_compliance_rules_walk cfg category_mapping rd score
             Hscore Hlt).
  rewrite Hvs, for_each_app, (walk_continue score before no_hits Hbefore).
  simpl.
  destruct (visit_rejection score v
              (add_hits no_hits (hits_of category_mapping before)) Hv)
    as [details [Hvisit [Hreason [Hdscore [Hdhops Htr]]]]].
  rewrite Hvisit. simpl. repeat split; try assumption.
  rewrite Htr, append_hit_hits_of, add_hits_no_hits_l, hits_of_app.
  reflexivity.
Qed.


End Verdicts.

Section Thresholds.
Import config EllipticClient Walk Verdict.
Variable category_mapping : gmap pystr pystr.

Lemma rejects_monotone (strict loose : thresholds) (v : Visit) :
  at_least_as_strict strict loose ->
  rejects loose category_mapping v = true ->
  rejects strict category_mapping v = true.
Proof.
  intros [_ [Hmax [Hgambling Hpct]]].
  unfold rejects, rule_category, rule_country, rule_gambling.
  rewrite !orb_true_iff, !andb_true_iff, !orb_true_iff, !andb_true_iff,
    !Z.leb_le, !Z.eqb_eq, !Qgt_bool_iff.
  intros [[[Hid Hhops]|[Hcode Hhops]]|[Hname Hrule]].
  - left. left. split; [exact Hid | lia].
  - left. right. split; [exact Hcode | lia].
  - right. split; [exact Hname|].
    destruct Hrule as [Hhops|[Hthree Hgt]]; [left; lia|].
    right. split; [exact Hthree|].
    exact (Qle_lt_trans _ _ _ Hpct Hgt).
Qed.

(** X3. Relaxing the configuration never turns an approval into a
    rejection: what is approved under thresholds [strict] is approved under
    any [loose] with a score threshold and a gambling contribution threshold
    at least as high and hop limits at most as far. *)
Theorem relaxing_keeps_approval (strict loose : thresholds)
    (rd : ResponseData) :
  at_least_as_strict strict loose ->
  (apply_compliance_rules strict category_mapping rd).1 = Approved ->
  (apply_compliance_rules loose category_mapping rd).1 = Approved.
Proof.
  intros Hstrict Happroved.
  apply approved_characterised in Happroved.
  apply approved_characterised.
  destruct Happroved as [Hnone|[score [Hscore [Hlt Hall]]]];
    [left; exact Hnone|].
  right. exists score. split; [exact Hscore|]. split.
  - destruct Hstrict as [Hthreshold _].
    exact (Qlt_le_trans _ _ _ Hlt Hthreshold).
  - apply (Forall_impl _ _ _ Hall). intros v Hno.
    destruct (rejects loose category_mapping v) eqn:Hloose; [|reflexivity].
    rewrite (rejects_monotone strict loose v Hstrict Hloose) in Hno.
    discriminate Hno.
Qed.

End Thresholds.

(** * The user table *)

Section Find.
Context {A : Type}.

Lemma find_app (P : A -> bool) (l1 l2 : list A) :
  List.find P (l1 ++ l2)
  = match List.find P l1 with
    | Some x => Some x
    | None => List.find P l2
    end.
Proof.
  induction l1 as [|x l1 IH]; simpl; [reflexivity|].
  destruct (P x); [reflexivity | exact IH].
Qed.

Lemma find_map_same (P : A -> bool) (f : A -> A) (l : list A) :
  (forall x, P (f x) = P x) ->
  List.find P (map f l) = option_map f (List.find P l).
Proof.
  intros Hsame. induction l as [|x l IH]; simpl; [reflexivity|].
  rewrite Hsame. destruct (P x); [reflexivity | exact IH].
Qed.

Lemma find_filter_kept (P Q : A -> bool) (l : list A) :
  (forall x, P x = true -> Q x = true) ->
  List.find P (List.filter Q l) = List.find P l.
Proof.
  intros Hkept. induction l as [|x l IH]; simpl; [reflexivity|].
  destruct (P x) eqn:HP.
  - rewrite (Hkept x HP). simpl. rewrite HP. reflexivity.
  - destruct (Q x); simpl; [rewrite HP|]; exact IH.
Qed.

Lemma find_filter_dropped (P Q : A -> bool) (l : list A) :
  (forall x, Q x = true -> P x = false) ->
  List.find P (List.filter Q l) = None.
Proof.
  intros Hdropped. induction l as [|x l IH]; simpl; [reflexivity|].
  destruct (Q x) eqn:HQ; [|exact IH].
  simpl. rewrite (Hdropped x HQ). exact IH.
Qed.


End Find.

Section Users.
Import Database.

Lemma has_handle_other (tid other : pystr) (user : User) :
  other <> tid -> has_handle other user = true -> has_handle tid user = false.
Proof.
  unfold has_handle. intros Hne Hother.
  apply bool_decide_eq_true_1 in Hother.
  apply bool_decide_eq_false_2. congruence.
Qed.

Lemma get_user_handle (db : t) (tid : pystr) (user : User) :
  get_user db tid = Some user -> telegram_id user = tid /\ In user (users db).
Proof.
  unfold get_user. intros Hfind. apply find_some in Hfind as [Hin Htid].
  apply bool_decide_eq_true_1 in Htid. auto.
Qed.

Lemma get_user_None (db : t) (tid : pystr) :
  get_user db tid = None <-> ~ In tid (map telegram_id (users db)).
Proof.
  unfold get_user. split.
  - intros Hnone Hin. apply in_map_iff in Hin as [user [Htid Hin]].
    apply (find_none _ _ Hnone) in Hin.
    apply bool_decide_eq_false_1 in Hin. contradiction.
  - intros Hnot. destruct (List.find _ _) as [user|] eqn:Hfind;
      [|reflexivity].
    apply find_some in Hfind as [Hin Htid].
    apply bool_decide_eq_true_1 in Htid. exfalso. apply Hnot.
    apply in_map_iff. eauto.
Qed.


Lemma sqlite_integer_spec (z : Z) :
  sqlite_integer z = true <-> - 2 ^ 63 <= z < 2 ^ 63.
Proof.
  unfold sqlite_integer. rewrite andb_true_iff, Z.leb_le, Z.ltb_lt.
  reflexivity.
Qed.

Lemma add_user_cases (store : Store) (db : t) (now rowid : Z)
    (tid : pystr) (username : option pystr) (admin : bool)
    (daily monthly : Z) :
  add_user store db now rowid tid username admin daily monthly
  = if sqlite_integer daily && sqlite_integer monthly then
      match store, get_user db tid with
      | Executes, None =>
          ({| users := users db ++
                [{| id := rowid;
                    telegram_id := tid;
                    telegram_username := username;
                    is_admin := admin;
                    is_active := true;
                    daily_limit := daily;
                    monthly_limit := monthly;
                    created_at := now;
                    updated_at := now |}];
              usage_logs := usage_logs db;
              error_logs := error_logs db |}, true)
      | _, _ => (db, false)
      end
    else (db, false).
Proof.
  unfold add_user.
  destruct (sqlite_integer daily && sqlite_integer monthly); simpl;
    [|reflexivity].
  destruct store; [|reflexivity].
  destruct (get_user db tid); reflexivity.
Qed.

Lemma add_user_logs (store : Store) (db : t) (now rowid : Z)
    (tid : pystr) (username : option pystr) (admin : bool)
    (daily monthly : Z) :
  let result :=
    add_user store db now rowid tid username admin daily monthly in
  usage_logs result.1 = usage_logs db /\ error_logs result.1 = error_logs db.
Proof.
  cbv zeta. rewrite add_user_cases.
  destruct (sqlite_integer daily && sqlite_integer monthly);
    [|split; reflexivity].
  destruct store; [|split; reflexivity].
  destruct (get_user db tid); split; reflexivity.
Qed.

Lemma add_user_refused (store : Store) (db : t) (now rowid : Z)
    (tid : pystr) (username : option pystr) (admin : bool)
    (daily monthly : Z) :
  let result :=
    add_user store db now rowid tid username admin daily monthly in
  result.2 = false -> result.1 = db.
Proof.
  cbv zeta. rewrite add_user_cases.
  destruct (sqlite_integer daily && sqlite_integer monthly);
    [|reflexivity].
  destruct store; [|reflexivity].
  destruct (get_user db tid); [reflexivity | discriminate].
Qed.

Lemma get_user_added (db : t) (new_user : User) (tid : pystr) :
  get_user db tid = None ->
  telegram_id new_user = tid ->
  get_user {| users := users db ++ [new_user];
              usage_logs := usage_logs db;
              error_logs := error_logs db |} tid
  = Some new_user.
Proof.
  intros Hnone Htid. unfold get_user in *. simpl.
  rewrite find_app, Hnone. simpl.
  rewrite (bool_decide_eq_true_2 _ Htid). reflexivity.
Qed.

Lemma get_user_added_other (db : t) (new_user : User) (other : pystr) :
  telegram_id new_user <> other ->
  get_user {| users := users db ++ [new_user];
              usage_logs := usage_logs db;
              error_logs := error_logs db |} other
  = get_user db other.
Proof.
  intros Hne. unfold get_user. simpl. rewrite find_app.
  destruct (List.find (fun u => bool_decide (telegram_id u = other))
              (users db)); [reflexivity|].
  simpl. rewrite (bool_decide_eq_false_2 _ Hne). reflexivity.
Qed.

Lemma add_user_added (store : Store) (db : t) (now rowid : Z)
    (tid : pystr) (username : option pystr) (admin : bool)
    (daily monthly : Z) :
  let result :=
    add_user store db now rowid tid username admin daily monthly in
  result.2 = true ->
  get_user db tid = None
  /\ get_user result.1 tid
     = Some {| id := rowid;
               telegram_id := tid;
               telegram_username := username;
               is_admin := admin;
               is_active := true;
               daily_limit := daily;
               monthly_limit := monthly;
               created_at := now;
               updated_at := now |}.
Proof.
  cbv zeta. rewrite add_user_cases.
  destruct (sqlite_integer daily && sqlite_integer monthly);
    [|discriminate].
  destruct store; [|discriminate].
  destruct (get_user db tid) eqn:Huser; [discriminate|]. intros _.
  split; [reflexivity|]. apply get_user_added; [exact Huser | reflexivity].
Qed.

(** X4. Adding a user answers True exactly when the store carries out the
    [INSERT], the handle is free and both limits fit a signed 64-bit
    integer.  A limit outside that range, a handle that is taken, and a
    store that raises (as a database does that is locked by the connection
    an earlier refused add left open) give False, and the three tables are
    as they were.  On True the handle looks up the new record, active, with
    the limits and the admin flag given; every other handle looks up what
    it did; the two logs are untouched. *)
Theorem add_user_lookup (store : Store) (db : t) (now rowid : Z)
    (tid : pystr) (username : option pystr) (admin : bool)
    (daily monthly : Z) :
  let result :=
    add_user store db now rowid tid username admin daily monthly in
  (result.2 = true
   <-> store = Executes
       /\ get_user db tid = None
       /\ - 2 ^ 63 <= daily < 2 ^ 63
       /\ - 2 ^ 63 <= monthly < 2 ^ 63)
  /\ (result.2 = false -> result.1 = db)
  /\ (result.2 = true ->
      get_user result.1 tid
      = Some {| id := rowid;
                telegram_id := tid;
                telegram_username := username;
                is_admin := admin;
                is_active := true;
                daily_limit := daily;
                monthly_limit := monthly;
                created_at := now;
                updated_at := now |}
      /\ (forall other, other <> tid ->
            get_user result.1 other = get_user db other)
      /\ usage_logs result.1 = usage_logs db
      /\ error_logs result.1 = error_logs db).
Proof.
  cbv zeta. rewrite add_user_cases, <- !sqlite_integer_spec.
  destruct (sqlite_integer daily), (sqlite_integer monthly); simpl;
    try (split; [split; [discriminate | intros [_ [_ [? ?]]]; discriminate]
                |split; [reflexivity | discriminate]]).
  destruct store;
    [|split; [split; [discriminate | intros [? _]; discriminate]
             |split; [reflexivity | discriminate]]].
  destruct (get_user db tid) as [user|] eqn:Huser;
    [split; [split; [discriminate | intros [_ [? _]]; discriminate]
            |split; [reflexivity | discriminate]]|].
  simpl. split; [split; [intros _; repeat split | reflexivity]|].
  split; [discriminate|]. intros _.
  split; [apply get_user_added; [exact Huser | reflexivity]|].
  split; [|split; reflexivity].
  intros other Hne. apply get_user_added_other. simpl. congruence.
Qed.


End Users.

Section UserUpdates.
Import Database.

Lemma get_user_map (db : t) (f : User -> User) (tid : pystr) :
  (forall user, telegram_id (f user) = telegram_id user) ->
  List.find (fun u => bool_decide (telegram_id u = tid)) (map f (users db))
  = option_map f (get_user db tid).
Proof.
  intros Hsame. unfold get_user. apply find_map_same.
  intros user. rewrite Hsame. reflexivity.
Qed.

Lemma params_fit (daily monthly : option Z) :
  forallb sqlite_integer (option_list daily ++ option_list monthly) = true
  <-> match daily with
      | Some z => - 2 ^ 63 <= z < 2 ^ 63
      | None => True
      end
      /\ match monthly with
         | Some z => - 2 ^ 63 <= z < 2 ^ 63
         | None => True
         end.
Proof.
  rewrite forallb_app, andb_true_iff.
  destruct daily, monthly; simpl; rewrite ?andb_true_r, ?sqlite_integer_spec;
    tauto.
Qed.




(** X8. No two users share a handle: if that holds of the table, it holds
    after adding a user, removing one, updating limits and switching a user
    on or off, whatever the arguments. *)
Theorem handles_stay_unique (db : t) :
  NoDup (map telegram_id (users db)) ->
  (forall store now rowid tid username admin daily monthly,
     NoDup (map telegram_id
              (users (add_user store db now rowid tid username admin daily
                        monthly).1)))
  /\ (forall tid,
        NoDup (map telegram_id (users (remove_user db tid).1)))
  /\ (forall now tid daily monthly,
        NoDup (map telegram_id
                 (users (update_user_limits db now tid daily monthly).1)))
  /\ (forall now tid active,
        NoDup (map telegram_id
                 (users (toggle_user_status db now tid active).1))).
Proof.
  intros Hunique. split; [|split; [|split]].
  - intros store now rowid tid username admin daily monthly.
    rewrite add_user_cases.
    destruct (sqlite_integer daily && sqlite_integer monthly);
      [|exact Hunique].
    destruct store; [|exact Hunique].
    destruct (get_user db tid) as [user|] eqn:Huser; [exact Hunique|].
    simpl. rewrite List.map_app. simpl. apply NoDup_app.
    split; [exact Hunique|]. split; [|apply NoDup_singleton].
    intros x Hx Hin. apply list_elem_of_singleton in Hin. subst x.
    apply get_user_None in Huser. apply Huser.
    apply list_elem_of_In. exact Hx.
  - intros tid. simpl. clear -Hunique.
    induction (users db) as [|user rest IH]; simpl; [constructor|].
    simpl in Hunique. apply NoDup_cons in Hunique as [Hfresh Hrest].
    destruct (negb (has_handle tid user)); [|exact (IH Hrest)].
    simpl. apply NoDup_cons. split; [|exact (IH Hrest)].
    intros Hin. apply Hfresh.
    apply list_elem_of_In in Hin. apply list_elem_of_In.
    apply in_map_iff in Hin as [u [Hu Hin]].
    apply filter_In in Hin as [Hin _]. apply in_map_iff. eauto.
  - intros now tid daily monthly. unfold update_user_limits.
    destruct (forallb sqlite_integer
                (option_list daily ++ option_list monthly));
      destruct daily, monthly; simpl; try exact Hunique;
      rewrite List.map_map;
      (erewrite List.map_ext; [exact Hunique|]);
      intros user; destruct (has_handle tid user); reflexivity.
  - intros now tid active. simpl. rewrite List.map_map.
    erewrite List.map_ext; [exact Hunique|].
    intros user. destruct (has_handle tid user); reflexivity.
Qed.

End UserUpdates.

(** * Usage counts *)

Section Counts.
Import Database.

Lemma filter_length_le {A : Type} (P Q : A -> bool) (l : list A) :
  (forall x, P x = true -> Q x = true) ->
  (length (List.filter P l) <= length (List.filter Q l))%nat.
Proof.
  intros Himpl. induction l as [|x l IH]; simpl; [lia|].
  destruct (P x) eqn:HP.
  - rewrite (Himpl x HP). simpl. lia.
  - destruct (Q x); simpl; lia.
Qed.


(** The count of the rows of key [uid] since [since]. *)
Lemma get_usage_count_day (db : t) (now : Z) (tid : pystr) (user : User) :
  get_user db tid = Some user ->
  get_usage_count db now tid "day"
  = Z.of_nat (length (List.filter
      (fun row => (ul_user_id row =? id user)
                  && (now - days 1 <=? ul_timestamp row))
      (usage_logs db))).
Proof. intros Huser. unfold get_usage_count. rewrite Huser. reflexivity. Qed.

Lemma get_usage_count_month (db : t) (now : Z) (tid : pystr) (user : User) :
  get_user db tid = Some user ->
  get_usage_count db now tid "month"
  = Z.of_nat (length (List.filter
      (fun row => (ul_user_id row =? id user)
                  && (now - days 30 <=? ul_timestamp row))
      (usage_logs db))).
Proof. intros Huser. unfold get_usage_count. rewrite Huser. reflexivity. Qed.

(** X9. The figures of the statistics are ordered: when the monthly window
    is read no more than 29 days after the daily one, a user's daily count
    is at most the monthly count, which is at most the total, and none is
    negative. *)
Theorem usage_stats_ordered (db : t) (now_day now_month now_sql : Z)
    (tid : pystr) (stats : UsageStats) :
  now_month - days 30 <= now_day - days 1 ->
  get_user_usage_stats db now_day now_month now_sql tid = Some stats ->
  0 <= st_daily_usage stats <= st_monthly_usage stats
  /\ st_monthly_usage stats <= st_total_usage stats
  /\ st_daily_usage stats = get_usage_count db now_day tid "day"
  /\ st_monthly_usage stats = get_usage_count db now_month tid "month".
Proof.
  intros Hclock. unfold get_user_usage_stats.
  destruct (get_user db tid) as [user|] eqn:Huser; [|discriminate].
  intros [= <-]. simpl.
  rewrite (get_usage_count_day db now_day tid user Huser).
  rewrite (get_usage_count_month db now_month tid user Huser).
  repeat split; try lia.
  - apply Nat2Z.inj_le. apply filter_length_le. intros row Hrow.
    apply andb_true_iff in Hrow as [Hid Hsince].
    apply andb_true_iff. split; [exact Hid|].
    apply Z.leb_le in Hsince. apply Z.leb_le. lia.
  - apply Nat2Z.inj_le. apply filter_length_le. intros row Hrow.
    apply andb_true_iff in Hrow as [Hid _]. exact Hid.
Qed.


Lemma add_user_new (db : t) (now rowid : Z) (tid : pystr)
    (username : option pystr) (admin : bool) (daily monthly : Z) :
  get_user db tid = None ->
  sqlite_integer daily = true ->
  sqlite_integer monthly = true ->
  let added :=
    (add_user Executes db now rowid tid username admin daily monthly).1 in
  get_user added tid
  = Some {| id := rowid;
            telegram_id := tid;
            telegram_username := username;
            is_admin := admin;
            is_active := true;
            daily_limit := daily;
            monthly_limit := monthly;
            created_at := now;
            updated_at := now |}
  /\ usage_logs added = usage_logs db.
Proof.
  intros Hnone Hdaily Hmonthly. cbv zeta.
  rewrite add_user_cases, Hdaily, Hmonthly, Hnone. simpl.
  split; [|reflexivity]. apply get_user_added; [exact Hnone | reflexivity].
Qed.

(** X11. A handle that is removed and added again starts from zero.  The
    rows logged under the old key are still in the usage log, and both
    counts of the handle are 0.  The add answers True exactly when the
    store carries out the [INSERT] and both limits fit a signed 64-bit
    integer; then the limit check reports the limits given in full, under
    the fresh key of the new row, and otherwise it reports a user who is
    not authorized. *)
Theorem readded_user_starts_from_zero (store : Store) (db : t)
    (now rowid : Z) (tid : pystr) (username : option pystr) (admin : bool)
    (daily monthly : Z) :
  Forall (fun row => ul_user_id row <> rowid) (usage_logs db) ->
  let removed := (remove_user db tid).1 in
  let readded :=
    add_user store removed now rowid tid username admin daily monthly in
  usage_logs readded.1 = usage_logs db
  /\ (forall clock period, get_usage_count readded.1 clock tid period = 0)
  /\ (readded.2 = true
      <-> store = Executes
          /\ - 2 ^ 63 <= daily < 2 ^ 63
          /\ - 2 ^ 63 <= monthly < 2 ^ 63)
  /\ (forall now_day now_month,
        check_usage_limit readded.1 now_day now_month tid
        = if readded.2 then
            if daily <=? 0 then
              (false,
               [Txt "Daily limit reached ("; IntV daily;
                Txt " queries/day)"],
               Z.max 0 daily, Z.max 0 monthly)
            else if monthly <=? 0 then
              (false,
               [Txt "Monthly limit reached ("; IntV monthly;
                Txt " queries/month)"],
               Z.max 0 daily, Z.max 0 monthly)
            else (true, [Txt "OK"], Z.max 0 daily, Z.max 0 monthly)
          else (false, [Txt "User not authorized"], 0, 0)).
Proof.
  intros Hfresh removed readded.
  assert (Hgone : get_user removed tid = None).
  { unfold removed, remove_user, get_user. simpl. apply find_filter_dropped.
    intros user Hkept. apply negb_true_iff in Hkept. exact Hkept. }
  assert (Hrefused :
    usage_logs removed = usage_logs db
    /\ (forall clock period, get_usage_count removed clock tid period = 0)
    /\ (forall now_day now_month,
          check_usage_limit removed now_day now_month tid
          = (false, [Txt "User not authorized"], 0, 0))).
  { split; [reflexivity|]. split.
    - intros clock period. unfold get_usage_count. rewrite Hgone.
      reflexivity.
    - intros now_day now_month. unfold check_usage_limit. rewrite Hgone.
      reflexivity. }
  destruct Hrefused as [Hlogs0 [Hzero0 Hcheck0]].
  unfold readded. rewrite add_user_cases, <- !sqlite_integer_spec.
  destruct (sqlite_integer daily), (sqlite_integer monthly);
    cbn [andb fst snd];
    try (split; [exact Hlogs0|]; split; [exact Hzero0|];
         split; [|exact Hcheck0];
         split; [discriminate | intros [_ [? ?]]; discriminate]).
  destruct store;
    [|split; [exact Hlogs0|]; split; [exact Hzero0|];
      split; [|exact Hcheck0];
      split; [discriminate | intros [? _]; discriminate]].
  rewrite Hgone. cbn [fst snd].
  set (added :=
    {| users := users removed ++
         [{| id := rowid;
             telegram_id := tid;
             telegram_username := username;
             is_admin := admin;
             is_active := true;
             daily_limit := daily;
             monthly_limit := monthly;
             created_at := now;
             updated_at := now |}];
       usage_logs := usage_logs removed;
       error_logs := error_logs removed |}).
  assert (Hnew : get_user added tid
                 = Some {| id := rowid;
                           telegram_id := tid;
                           telegram_username := username;
                           is_admin := admin;
                           is_active := true;
                           daily_limit := daily;
                           monthly_limit := monthly;
                           created_at := now;
                           updated_at := now |})
    by (apply get_user_added; [exact Hgone | reflexivity]).
  assert (Hlogs : usage_logs added = usage_logs db) by reflexivity.
  assert (Hzero : forall clock period,
            get_usage_count added clock tid period = 0).
  { intros clock period. unfold get_usage_count. rewrite Hnew, Hlogs. simpl.
    assert (Hnone : forall since,
      List.filter (fun row => (ul_user_id row =? rowid)
                              && (since <=? ul_timestamp row))
        (usage_logs db) = []).
    { intros since. clear -Hfresh.
      induction Hfresh as [|row rows Hrow _ IH]; simpl; [reflexivity|].
      apply Z.eqb_neq in Hrow. rewrite Hrow. simpl. exact IH. }
    destruct (String.eqb period "day");
      [|destruct (String.eqb period "month"); [|reflexivity]];
      rewrite Hnone; reflexivity. }
  split; [exact Hlogs|]. split; [exact Hzero|].
  split; [split; [intros _; repeat split | reflexivity]|].
  intros now_day now_month. unfold check_usage_limit.
  rewrite Hnew, !Hzero. simpl. rewrite !Z.sub_0_r. reflexivity.
Qed.

End Counts.



(** * Further properties of the wallet handler *)

Section Requests.
Import config Database.
Variable cfg : thresholds.
Variable category_mapping : gmap pystr pystr.
Variable env : bot.Env.

Let evaluate := EllipticClient.apply_compliance_rules cfg category_mapping.





End Requests.

(** * The admin commands *)

Section AdminCommands.
Import Database.

Lemma add_user_known (db : t) (now rowid : Z) (tid other : pystr)
    (username : option pystr) (admin : bool) (daily monthly : Z)
    (user : User) :
  get_user db other = Some user ->
  get_user
    (add_user Executes db now rowid tid username admin daily monthly).1 other
  = Some user.
Proof.
  intros Huser. rewrite add_user_cases.
  destruct (sqlite_integer daily && sqlite_integer monthly);
    [|exact Huser].
  destruct (get_user db tid); [exact Huser|].
  unfold get_user in *. simpl. rewrite find_app, Huser. reflexivity.
Qed.

Lemma add_user_unknown (db : t) (now rowid : Z) (tid other : pystr)
    (username : option pystr) (admin : bool) (daily monthly : Z) :
  get_user db other = None ->
  other <> tid ->
  get_user
    (add_user Executes db now rowid tid username admin daily monthly).1 other
  = None.
Proof.
  intros Hnone Hne. rewrite add_user_cases.
  destruct (sqlite_integer daily && sqlite_integer monthly);
    [|exact Hnone].
  destruct (get_user db tid); [exact Hnone|].
  unfold get_user in *. simpl. rewrite find_app, Hnone. simpl.
  rewrite bool_decide_eq_false_2; [reflexivity | congruence].
Qed.

Lemma add_user_admin_flag (db : t) (now rowid : Z) (tid anyone : pystr)
    (username : option pystr) (daily monthly : Z) :
  is_user_admin
    (add_user Executes db now rowid tid username false daily monthly).1
    anyone
  = is_user_admin db anyone.
Proof.
  unfold is_user_admin.
  destruct (get_user db anyone) as [user|] eqn:Huser.
  - rewrite (add_user_known _ _ _ _ _ _ _ _ _ user Huser). reflexivity.
  - destruct (decide (anyone = tid)) as [->|Hne].
    + rewrite add_user_cases, Huser.
      destruct (sqlite_integer daily && sqlite_integer monthly);
        cbn [fst]; [|rewrite Huser; reflexivity].
      rewrite get_user_added; [reflexivity | exact Huser | reflexivity].
    + rewrite add_user_unknown by assumption. reflexivity.
Qed.

Lemma remove_user_other (db : t) (tid other : pystr) :
  other <> tid ->
  get_user (remove_user db tid).1 other = get_user db other.
Proof.
  intros Hne. unfold remove_user, get_user. simpl. apply find_filter_kept.
  intros user Hother. apply negb_true_iff.
  exact (has_handle_other tid other user Hne Hother).
Qed.

Lemma remove_user_gone (db : t) (tid : pystr) :
  get_user (remove_user db tid).1 tid = None.
Proof.
  unfold remove_user, get_user. simpl. apply find_filter_dropped.
  intros user Hkept. apply negb_true_iff in Hkept. exact Hkept.
Qed.

Lemma update_admin_flag (db : t) (now : Z) (tid anyone : pystr)
    (daily monthly : option Z) :
  is_user_admin (update_user_limits db now tid daily monthly).1 anyone
  = is_user_admin db anyone.
Proof.
  set (updated := fun d m user =>
    if has_handle tid user then
      {| id := id user;
         telegram_id := telegram_id user;
         telegram_username := telegram_username user;
         is_admin := is_admin user;
         is_active := is_active user;
         daily_limit := default (daily_limit user) d;
         monthly_limit := default (monthly_limit user) m;
         created_at := created_at user;
         updated_at := now |}
    else user).
  assert (Hflag : forall d m,
    is_user_admin
      {| users := map (updated d m) (users db);
         usage_logs := usage_logs db;
         error_logs := error_logs db |} anyone
    = is_user_admin db anyone).
  { intros d m. unfold is_user_admin, get_user at 1. simpl.
    rewrite get_user_map
      by (intros u; unfold updated; destruct (has_handle tid u);
          reflexivity).
    destruct (get_user db anyone) as [user|]; [|reflexivity].
    simpl. unfold updated. destruct (has_handle tid user); reflexivity. }
  unfold update_user_limits.
  destruct (forallb sqlite_integer
              (option_list daily ++ option_list monthly));
    destruct daily, monthly; cbn [negb fst]; try reflexivity;
    apply Hflag.
Qed.

Lemma update_lookup (db : t) (now : Z) (tid other : pystr) (d m : Z) :
  sqlite_integer d = true ->
  sqlite_integer m = true ->
  get_user (update_user_limits db now tid (Some d) (Some m)).1 other
  = option_map
      (fun user =>
         if has_handle tid user then
           {| id := id user;
              telegram_id := telegram_id user;
              telegram_username := telegram_username user;
              is_admin := is_admin user;
              is_active := is_active user;
              daily_limit := d;
              monthly_limit := m;
              created_at := created_at user;
              updated_at := now |}
         else user) (get_user db other).
Proof.
  intros Hd Hm. unfold update_user_limits.
  rewrite (proj2 (params_fit (Some d) (Some m))
             (conj (proj1 (sqlite_integer_spec d) Hd)
                   (proj1 (sqlite_integer_spec m) Hm))).
  unfold get_user at 1. simpl.
  apply get_user_map. intros user. destruct (has_handle tid user); reflexivity.
Qed.

(** X15. At start-up the admin handle is made known: if it was unknown it is
    added as an active admin with limits 999 and 9999; if it was known, the
    table is left as it is, so a user who had the handle without being
    admin stays without admin rights.  Every other handle looks up what it
    did, and running the start-up again changes nothing. *)
Theorem init_admin_spec (db : t) (now rowid : Z) (admin_id : pystr) :
  let started := bot.init_admin db now rowid admin_id in
  (exists user, get_user started admin_id = Some user)
  /\ (forall user, get_user db admin_id = Some user -> started = db)
  /\ (get_user db admin_id = None ->
      get_user started admin_id
      = Some {| id := rowid;
                telegram_id := admin_id;
                telegram_username := Some admin_id;
                is_admin := true;
                is_active := true;
                daily_limit := 999;
                monthly_limit := 9999;
                created_at := now;
                updated_at := now |})
  /\ (forall other, other <> admin_id ->
        get_user started other = get_user db other)
  /\ (forall now' rowid',
        bot.init_admin started now' rowid' admin_id = started).
Proof.
  cbv zeta.
  assert (Hknown : exists user,
            get_user (bot.init_admin db now rowid admin_id) admin_id
            = Some user).
  { unfold bot.init_admin.
    destruct (get_user db admin_id) as [user|] eqn:Huser; [eauto|].
    destruct (add_user_new db now rowid admin_id (Some admin_id) true 999 9999
                Huser eq_refl eq_refl) as [Hnew _].
    eauto. }
  split; [exact Hknown|]. split.
  { intros user Huser. unfold bot.init_admin. rewrite Huser. reflexivity. }
  split.
  { intros Hnone. unfold bot.init_admin. rewrite Hnone.
    apply (add_user_new db now rowid admin_id (Some admin_id) true 999 9999
             Hnone eq_refl eq_refl). }
  split.
  { intros other Hne. unfold bot.init_admin.
    destruct (get_user db admin_id); [reflexivity|].
    destruct (get_user db other) as [user|] eqn:Hother.
    - apply add_user_known. exact Hother.
    - apply add_user_unknown; assumption. }
  intros now' rowid'. destruct Hknown as [user Huser].
  unfold bot.init_admin at 1. rewrite Huser. reflexivity.
Qed.

(** X16. No command changes who is admin: after [/adduser], [/removeuser]
    and [/setlimit], whoever sends them and whatever the arguments, every
    handle is admin exactly if it was before.  In particular [/adduser]
    never creates an admin and [/removeuser] never removes one. *)
Theorem commands_keep_admins (db : t) (caller anyone : pystr)
    (args : list pystr) :
  (forall default_daily default_monthly now rowid,
     is_user_admin
       (bot.adduser_command default_daily default_monthly db now rowid
          caller args).1 anyone
     = is_user_admin db anyone)
  /\ is_user_admin (bot.removeuser_command db caller args).1 anyone
     = is_user_admin db anyone
  /\ (forall int now,
        is_user_admin (bot.setlimit_command int db now caller args).1 anyone
        = is_user_admin db anyone).
Proof.
  split; [|split].
  - intros default_daily default_monthly now rowid.
    unfold bot.adduser_command.
    destruct (is_user_admin db caller); simpl; [|reflexivity].
    destruct args as [|arg0 args]; [reflexivity|].
    destruct (validators.validate_telegram_username _)
      as [is_valid error_msg]. destruct is_valid; simpl; [|reflexivity].
    pose proof (add_user_admin_flag db now rowid
                  (lstrip_chars (lit "@") arg0) anyone
                  (Some (lstrip_chars (lit "@") arg0))
                  default_daily default_monthly) as Hflag.
    destruct (add_user _ _ _ _ _ _ _ _ _) as [db' success].
    destruct success; exact Hflag.
  - unfold bot.removeuser_command.
    destruct (is_user_admin db caller); simpl; [|reflexivity].
    destruct args as [|arg0 args]; [reflexivity|].
    destruct (is_user_admin db (lstrip_chars (lit "@") arg0)) eqn:Htarget;
      [reflexivity|].
    assert (Hflag : is_user_admin
                      (remove_user db (lstrip_chars (lit "@") arg0)).1 anyone
                    = is_user_admin db anyone).
    { unfold is_user_admin at 1 2.
      destruct (decide (anyone = lstrip_chars (lit "@") arg0)) as [->|Hne].
      - rewrite remove_user_gone. unfold is_user_admin in Htarget.
        destruct (get_user db _); [symmetry; exact Htarget | reflexivity].
      - rewrite remove_user_other by assumption. reflexivity. }
    revert Hflag. unfold remove_user. simpl. intros Hflag.
    destruct (0 <? rowcount db _)%nat; exact Hflag.
  - intros int now. unfold bot.setlimit_command.
    destruct (is_user_admin db caller); cbn [negb]; [|reflexivity].
    destruct args as [|arg0 [|arg1 [|arg2 args]]]; try reflexivity.
    destruct (int arg1) as [daily|]; [|reflexivity].
    destruct (int arg2) as [monthly|]; [|reflexivity].
    destruct (validators.validate_limit daily 1 10000)
      as [valid_daily error_msg]. destruct valid_daily; [|reflexivity].
    destruct (validators.validate_limit monthly 1 10000)
      as [valid_monthly error_msg']. destruct valid_monthly; [|reflexivity].
    cbn [negb].
    pose proof (update_admin_flag db now (lstrip_chars (lit "@") arg0)
                  anyone (Some daily) (Some monthly)) as Hflag.
    destruct (update_user_limits db now (lstrip_chars (lit "@") arg0)
                (Some daily) (Some monthly)) as [db' success].
    destruct success; exact Hflag.
Qed.

End AdminCommands.

Section CommandEffects.
Import Database.

Lemma validate_limit_bounds (limit min_val max_val : Z) :
  (validators.validate_limit limit min_val max_val).1 = true
  <-> min_val <= limit <= max_val.
Proof.
  unfold validators.validate_limit.
  destruct ((limit <? min_val) || (max_val <? limit)) eqn:Hout; simpl.
  - apply orb_true_iff in Hout. rewrite !Z.ltb_lt in Hout.
    split; [discriminate | lia].
  - apply orb_false_iff in Hout. rewrite !Z.ltb_ge in Hout.
    split; [lia | reflexivity].
Qed.

Lemma validated_limit_fits (limit : Z) :
  1 <= limit <= 10000 -> sqlite_integer limit = true.
Proof. intros Hbounds. apply sqlite_integer_spec. lia. Qed.

(** X17. [/adduser] from a sender who is not admin changes nothing.  From an
    admin it leaves every known user as it is, and a handle that becomes
    known is the first argument without its leading [@]s, accepted by the
    username validator, stored as an active user without admin rights and
    with the default limits.  The logs are never touched. *)
Theorem adduser_command_effect (default_daily default_monthly : Z) (db : t)
    (now rowid : Z) (caller : pystr) (args : list pystr) :
  let result :=
    bot.adduser_command default_daily default_monthly db now rowid caller
      args in
  (is_user_admin db caller = false -> result = (db, bot.AdminOnly))
  /\ (forall tid user,
        get_user db tid = Some user -> get_user result.1 tid = Some user)
  /\ (forall tid user,
        get_user db tid = None ->
        get_user result.1 tid = Some user ->
        is_user_admin db caller = true
        /\ (exists arg0 rest,
              args = arg0 :: rest /\ tid = lstrip_chars (lit "@") arg0)
        /\ (validators.validate_telegram_username tid).1 = true
        /\ result.2 = bot.UserAdded tid default_daily default_monthly
        /\ user = {| id := rowid;
                     telegram_id := tid;
                     telegram_username := Some tid;
                     is_admin := false;
                     is_active := true;
                     daily_limit := default_daily;
                     monthly_limit := default_monthly;
                     created_at := now;
                     updated_at := now |})
  /\ usage_logs result.1 = usage_logs db
  /\ error_logs result.1 = error_logs db.
Proof.
  cbv zeta. unfold bot.adduser_command.
  destruct (is_user_admin db caller); cbn [negb fst snd].
  2: { repeat split; auto; congruence. }
  destruct args as [|arg0 rest].
  { cbn [fst snd]. repeat split; auto; try discriminate; congruence. }
  destruct (validators.validate_telegram_username
              (lstrip_chars (lit "@") arg0)) as [is_valid error_msg] eqn:Hvalid.
  destruct is_valid; cbn [negb fst snd].
  2: { repeat split; auto; try discriminate; congruence. }
  pose proof (fun other user =>
    add_user_known db now rowid (lstrip_chars (lit "@") arg0) other
      (Some (lstrip_chars (lit "@") arg0)) false default_daily
      default_monthly user) as Hknown.
  pose proof (fun other =>
    add_user_unknown db now rowid (lstrip_chars (lit "@") arg0) other
      (Some (lstrip_chars (lit "@") arg0)) false default_daily
      default_monthly) as Hunknown.
  pose proof (add_user_added Executes db now rowid
                (lstrip_chars (lit "@") arg0)
                (Some (lstrip_chars (lit "@") arg0)) false default_daily
                default_monthly) as Hadded.
  pose proof (add_user_refused Executes db now rowid
                (lstrip_chars (lit "@") arg0)
                (Some (lstrip_chars (lit "@") arg0)) false default_daily
                default_monthly) as Hrefused.
  pose proof (add_user_logs Executes db now rowid
                (lstrip_chars (lit "@") arg0)
                (Some (lstrip_chars (lit "@") arg0)) false default_daily
                default_monthly) as Hlogs.
  cbv zeta in Hadded, Hrefused, Hlogs.
  destruct (add_user Executes db now rowid (lstrip_chars (lit "@") arg0)
              (Some (lstrip_chars (lit "@") arg0)) false default_daily
              default_monthly) as [db' success].
  cbn [fst snd] in *. destruct Hlogs as [Husage Herrors].
  destruct success; cbn [fst snd].
  - destruct (Hadded eq_refl) as [Hfree Hlook].
    split; [discriminate|]. split; [exact Hknown|].
    split; [|split; assumption].
    intros tid user Hnone Hsome.
    destruct (decide (tid = lstrip_chars (lit "@") arg0)) as [->|Hne].
    + rewrite Hlook in Hsome. injection Hsome as <-. rewrite Hvalid.
      repeat split; eauto.
    + rewrite (Hunknown tid Hnone Hne) in Hsome. discriminate Hsome.
  - rewrite (Hrefused eq_refl).
    repeat split; auto; try discriminate; congruence.
Qed.

Lemma removeuser_db (db : t) (caller : pystr) (args : list pystr) :
  (bot.removeuser_command db caller args).1
  = if is_user_admin db caller then
      match args with
      | [] => db
      | arg0 :: _ =>
          if is_user_admin db (lstrip_chars (lit "@") arg0) then db
          else (remove_user db (lstrip_chars (lit "@") arg0)).1
      end
    else db.
Proof.
  unfold bot.removeuser_command.
  destruct (is_user_admin db caller); [|reflexivity].
  destruct args as [|arg0 rest]; [reflexivity|]. simpl.
  destruct (is_user_admin db (lstrip_chars (lit "@") arg0)); [reflexivity|].
  unfold remove_user. simpl. destruct (0 <? rowcount db _)%nat; reflexivity.
Qed.

Lemma setlimit_db (int : pystr -> option Z) (db : t) (now : Z)
    (caller : pystr) (args : list pystr) :
  (bot.setlimit_command int db now caller args).1
  = if is_user_admin db caller then
      match args with
      | arg0 :: arg1 :: arg2 :: _ =>
          match int arg1, int arg2 with
          | Some daily, Some monthly =>
              if (validators.validate_limit daily 1 10000).1
                 && (validators.validate_limit monthly 1 10000).1
              then (update_user_limits db now (lstrip_chars (lit "@") arg0)
                      (Some daily) (Some monthly)).1
              else db
          | _, _ => db
          end
      | _ => db
      end
    else db.
Proof.
  unfold bot.setlimit_command.
  destruct (is_user_admin db caller); [|reflexivity].
  destruct args as [|arg0 [|arg1 [|arg2 rest]]]; try reflexivity.
  cbn [negb].
  destruct (int arg1) as [daily|]; [|reflexivity].
  destruct (int arg2) as [monthly|]; [|reflexivity].
  destruct (validators.validate_limit daily 1 10000)
    as [valid_daily error_msg]. destruct valid_daily; [|reflexivity].
  destruct (validators.validate_limit monthly 1 10000)
    as [valid_monthly error_msg']. destruct valid_monthly; [|reflexivity].
  cbn [negb fst andb].
  destruct (update_user_limits db now (lstrip_chars (lit "@") arg0)
              (Some daily) (Some monthly)) as [db' success].
  destruct success; reflexivity.
Qed.

(** X18. [/removeuser] from a sender who is not admin changes nothing.  From
    an admin, an admin user is never removed; at most the handle named by the
    first argument, without its leading [@]s, disappears, and every other
    handle looks up what it did.  The logs are never touched. *)
Theorem removeuser_command_effect (db : t) (caller : pystr)
    (args : list pystr) :
  let result := bot.removeuser_command db caller args in
  (is_user_admin db caller = false -> result = (db, bot.AdminOnly))
  /\ (forall tid user,
        get_user db tid = Some user ->
        is_admin user = true ->
        get_user result.1 tid = Some user)
  /\ (forall tid,
        get_user result.1 tid = get_user db tid
        \/ (get_user result.1 tid = None
            /\ is_user_admin db caller = true
            /\ is_user_admin db tid = false
            /\ exists arg0 rest,
                 args = arg0 :: rest /\ tid = lstrip_chars (lit "@") arg0))
  /\ usage_logs result.1 = usage_logs db
  /\ error_logs result.1 = error_logs db.
Proof.
  cbv zeta. split.
  { intros Hcaller. unfold bot.removeuser_command. rewrite Hcaller.
    reflexivity. }
  rewrite removeuser_db.
  destruct (is_user_admin db caller); [|repeat split; auto].
  destruct args as [|arg0 rest]; [repeat split; auto|].
  destruct (is_user_admin db (lstrip_chars (lit "@") arg0)) eqn:Htarget;
    [repeat split; auto|].
  split.
  { intros tid user Huser Hadmin.
    destruct (decide (tid = lstrip_chars (lit "@") arg0)) as [->|Hne].
    - unfold is_user_admin in Htarget. rewrite Huser in Htarget. congruence.
    - rewrite remove_user_other by assumption. exact Huser. }
  split; [|split; reflexivity].
  intros tid.
  destruct (decide (tid = lstrip_chars (lit "@") arg0)) as [->|Hne].
  - right. rewrite remove_user_gone. repeat split; eauto.
  - left. apply remove_user_other. exact Hne.
Qed.

(** X19. [/setlimit] from a sender who is not admin changes nothing.  From
    an admin it never makes a handle known or unknown and never changes a
    user's key, name, flags or creation time; a user's limits are either
    what they were or the two numbers given, and these are then both between
    1 and 10000.  The logs are never touched. *)
Theorem setlimit_command_effect (int : pystr -> option Z) (db : t) (now : Z)
    (caller : pystr) (args : list pystr) :
  let result := bot.setlimit_command int db now caller args in
  (is_user_admin db caller = false -> result = (db, bot.AdminOnly))
  /\ (forall tid, get_user db tid = None -> get_user result.1 tid = None)
  /\ (forall tid user,
        get_user db tid = Some user ->
        exists updated,
          get_user result.1 tid = Some updated
          /\ id updated = id user
          /\ telegram_id updated = telegram_id user
          /\ telegram_username updated = telegram_username user
          /\ is_admin updated = is_admin user
          /\ is_active updated = is_active user
          /\ created_at updated = created_at user
          /\ ((daily_limit updated = daily_limit user
               /\ monthly_limit updated = monthly_limit user)
              \/ (is_user_admin db caller = true
                  /\ (exists arg0 arg1 arg2 rest,
                        args = arg0 :: arg1 :: arg2 :: rest
                        /\ tid = lstrip_chars (lit "@") arg0
                        /\ int arg1 = Some (daily_limit updated)
                        /\ int arg2 = Some (monthly_limit updated))
                  /\ 1 <= daily_limit updated <= 10000
                  /\ 1 <= monthly_limit updated <= 10000)))
  /\ usage_logs result.1 = usage_logs db
  /\ error_logs result.1 = error_logs db.
Proof.
  cbv zeta. split.
  { intros Hcaller. unfold bot.setlimit_command. rewrite Hcaller.
    reflexivity. }
  rewrite setlimit_db.
  assert (Hsame :
    (forall tid, get_user db tid = None -> get_user db tid = None)
    /\ (forall tid user,
          get_user db tid = Some user ->
          exists updated,
            get_user db tid = Some updated
            /\ id updated = id user
            /\ telegram_id updated = telegram_id user
            /\ telegram_username updated = telegram_username user
            /\ is_admin updated = is_admin user
            /\ is_active updated = is_active user
            /\ created_at updated = created_at user
            /\ ((daily_limit updated = daily_limit user
                 /\ monthly_limit updated = monthly_limit user)
                \/ (is_user_admin db caller = true
                    /\ (exists arg0 arg1 arg2 rest,
                          args = arg0 :: arg1 :: arg2 :: rest
                          /\ tid = lstrip_chars (lit "@") arg0
                          /\ int arg1 = Some (daily_limit updated)
                          /\ int arg2 = Some (monthly_limit updated))
                    /\ 1 <= daily_limit updated <= 10000
                    /\ 1 <= monthly_limit updated <= 10000)))
    /\ usage_logs db = usage_logs db
    /\ error_logs db = error_logs db).
  { repeat split; auto.
    intros tid user Huser. exists user. repeat split; auto. }
  destruct (is_user_admin db caller) eqn:Hcaller; [|exact Hsame].
  destruct args as [|arg0 [|arg1 [|arg2 rest]]]; try exact Hsame.
  destruct (int arg1) as [daily|] eqn:Hdaily; [|exact Hsame].
  destruct (int arg2) as [monthly|] eqn:Hmonthly; [|exact Hsame].
  destruct ((validators.validate_limit daily 1 10000).1
            && (validators.validate_limit monthly 1 10000).1) eqn:Hvalid;
    [|exact Hsame].
  clear Hsame. apply andb_true_iff in Hvalid as [Hbd Hbm].
  apply validate_limit_bounds in Hbd, Hbm.
  pose proof (validated_limit_fits daily Hbd) as Hfd.
  pose proof (validated_limit_fits monthly Hbm) as Hfm.
  assert (Hlogs :
    usage_logs (update_user_limits db now (lstrip_chars (lit "@") arg0)
                  (Some daily) (Some monthly)).1 = usage_logs db
    /\ error_logs (update_user_limits db now (lstrip_chars (lit "@") arg0)
                     (Some daily) (Some monthly)).1 = error_logs db).
  { unfold update_user_limits.
    rewrite (proj2 (params_fit (Some daily) (Some monthly))
               (conj (proj1 (sqlite_integer_spec daily) Hfd)
                     (proj1 (sqlite_integer_spec monthly) Hfm))).
    split; reflexivity. }
  split.
  { intros tid Hnone. rewrite (update_lookup _ _ _ _ _ _ Hfd Hfm), Hnone.
    reflexivity. }
  split; [|exact Hlogs].
  intros tid user Huser. rewrite (update_lookup _ _ _ _ _ _ Hfd Hfm), Huser.
  simpl.
  destruct (get_user_handle db tid user Huser) as [Htid _].
  unfold has_handle.
  destruct (bool_decide (telegram_id user = lstrip_chars (lit "@") arg0))
    eqn:Hmatch.
  - apply bool_decide_eq_true_1 in Hmatch.
    eexists. split; [reflexivity|]. simpl. repeat split; auto.
    right. split; [reflexivity|]. split; [|split; assumption].
    exists arg0, arg1, arg2, rest. repeat split; auto. congruence.
  - exists user. repeat split; auto.
Qed.

End CommandEffects.

(** * Usernames *)

Section Usernames.
Import re validators.

Lemma many_spec (ranges : list (ascii * ascii)) (m : nat)
    (k : pystr -> bool) (s : pystr) :
  many ranges m k s = true
  <-> exists j : nat,
        (m <= j <= length s)%nat
        /\ forallb (in_class ranges) (take j s) = true
        /\ k (drop j s) = true.
Proof.
  revert m. induction s as [|c rest IH]; intros m.
  - simpl. rewrite andb_true_iff, Nat.eqb_eq. split.
    + intros [-> Hk]. exists 0%nat. simpl. repeat split; try lia. exact Hk.
    + intros [j [Hj [_ Hk]]]. simpl in Hj.
      assert (j = 0)%nat as -> by lia. split; [lia | exact Hk].
  - simpl. rewrite orb_true_iff, !andb_true_iff, Nat.eqb_eq, IH. split.
    + intros [[Hc [j [Hj [Hall Hk]]]]|[-> Hk]].
      * exists (S j). simpl. rewrite Hc, Hall. repeat split; try lia.
        exact Hk.
      * exists 0%nat. simpl. repeat split; try lia. exact Hk.
    + intros [[|j] [Hj [Hall Hk]]].
      * right. split; [lia | exact Hk].
      * left. simpl in Hall, Hk, Hj.
        apply andb_true_iff in Hall as [Hc Hall].
        split; [exact Hc|]. exists j. repeat split; try lia; assumption.
Qed.

Lemma word_class (c : N) : in_class word c = word_char c.
Proof.
  unfold in_class, word_char, ascii_alnum, word, existsb, fst, snd.
  change (N_of_ascii "a") with 97%N. change (N_of_ascii "z") with 122%N.
  change (N_of_ascii "A") with 65%N. change (N_of_ascii "Z") with 90%N.
  change (N_of_ascii "0") with 48%N. change (N_of_ascii "9") with 57%N.
  change (N_of_ascii "_") with 95%N.
  destruct (N.eqb_spec c 95) as [->|Hne]; [reflexivity|].
  replace ((95 <=? c)%N && (c <=? 95)%N) with false.
  - destruct ((97 <=? c)%N && (c <=? 122)%N),
      ((65 <=? c)%N && (c <=? 90)%N), ((48 <=? c)%N && (c <=? 57)%N);
      reflexivity.
  - symmetry. apply andb_false_iff. rewrite N.leb_gt, N.leb_gt. lia.
Qed.

(** What [^[a-zA-Z0-9_]+$] accepts: one or more word characters, possibly
    followed by one newline. *)
Lemma username_pattern_spec (s : pystr) :
  username_pattern s = true
  <-> (s <> [] /\ forallb word_char s = true)
      \/ exists body,
           s = body ++ [10%N] /\ body <> []
           /\ forallb word_char body = true.
Proof.
  unfold username_pattern. rewrite many_spec. split.
  - intros [j [Hj [Hall Hend]]].
    assert (Hword : forallb word_char (take j s) = true).
    { rewrite forallb_forall in *. intros c Hc.
      rewrite <- word_class. exact (Hall c Hc). }
    pose proof (take_drop j s) as Hsplit.
    destruct (drop j s) as [|c [|d rest]] eqn:Hrest;
      [| |discriminate Hend].
    + left. rewrite List.app_nil_r in Hsplit. rewrite Hsplit in Hword.
      split; [|exact Hword]. intros ->. simpl in Hj. lia.
    + right. simpl in Hend. apply N.eqb_eq in Hend. subst c.
      exists (take j s). split; [symmetry; exact Hsplit|].
      split; [|exact Hword].
      intros Hnil. apply (f_equal (@length N)) in Hnil.
      rewrite length_take in Hnil. simpl in Hnil. lia.
  - intros [[Hne Hall]|[body [-> [Hne Hall]]]].
    + exists (length s). rewrite firstn_all, drop_all.
      split; [|split; [|reflexivity]].
      * destruct s; [contradiction | simpl; lia].
      * rewrite forallb_forall in *. intros c Hc.
        rewrite word_class. exact (Hall c Hc).
    + exists (length body).
      rewrite take_app_length, drop_app_length. rewrite List.length_app.
      split; [|split; [|reflexivity]].
      * destruct body; [contradiction | simpl; lia].
      * rewrite forallb_forall in *. intros c Hc.
        rewrite word_class. exact (Hall c Hc).
Qed.

(** X20. A username is accepted exactly when it is not empty and, once its
    leading [@]s are removed, has 5 to 32 characters that are all ASCII
    letters, digits or underscores, except that the last one may be a
    newline: the [$] of the pattern also matches before a final newline, and
    the name is not stripped. *)
Theorem validate_telegram_username_spec (username : pystr) :
  let name := lstrip_chars (lit "@") username in
  (validate_telegram_username username).1 = true
  <-> username <> []
      /\ (5 <= length name <= 32)%nat
      /\ (forallb word_char name = true
          \/ exists body,
               name = body ++ [10%N] /\ forallb word_char body = true).
Proof.
  cbv zeta. unfold validate_telegram_username.
  destruct (bool_decide (username = [])) eqn:Hempty.
  { apply bool_decide_eq_true_1 in Hempty. simpl.
    split; [discriminate | intros [Hne _]; contradiction]. }
  apply bool_decide_eq_false_1 in Hempty.
  destruct ((length (lstrip_chars (lit "@") username) <? 5)%nat
            || (32 <? length (lstrip_chars (lit "@") username))%nat)
    eqn:Hlen.
  { simpl. apply orb_true_iff in Hlen. rewrite !Nat.ltb_lt in Hlen.
    split; [discriminate | intros [_ [Hlength _]]; lia]. }
  apply orb_false_iff in Hlen. rewrite !Nat.ltb_ge in Hlen.
  pose proof (username_pattern_spec (lstrip_chars (lit "@") username))
    as Hpattern.
  destruct (username_pattern (lstrip_chars (lit "@") username)); simpl.
  - split; [|reflexivity]. intros _. split; [exact Hempty|].
    split; [lia|].
    destruct (proj1 Hpattern eq_refl) as [[_ Hall]|[body [Hbody [_ Hall]]]];
      [left; exact Hall | right; eauto].
  - split; [discriminate|]. intros [_ [Hlength Hword]].
    assert (Hyes : false = true); [|discriminate Hyes].
    apply Hpattern. destruct Hword as [Hall|[body [Hbody Hall]]].
    + left. split; [|exact Hall]. intros Hnil. rewrite Hnil in Hlength.
      simpl in Hlength. lia.
    + right. exists body. split; [exact Hbody|]. split; [|exact Hall].
      intros ->. rewrite Hbody in Hlength. simpl in Hlength. lia.
Qed.

End Usernames.

(** * Stripped strings *)

Lemma lstrip_kept (c : N) (rest : pystr) :
  isspace c = false -> lstrip (c :: rest) = c :: rest.
Proof. intros Hc. simpl. rewrite Hc. reflexivity. Qed.

Lemma lstrip_idempotent (s : pystr) : lstrip (lstrip s) = lstrip s.
Proof.
  induction s as [|c rest IH]; [reflexivity|]. simpl.
  destruct (isspace c) eqn:Hc; [exact IH | apply lstrip_kept; exact Hc].
Qed.

Lemma lstrip_snoc (s : pystr) (c : N) :
  lstrip (s ++ [c])
  = match lstrip s with
    | [] => lstrip [c]
    | d :: rest => (d :: rest) ++ [c]
    end.
Proof.
  induction s as [|d s IH]; [reflexivity|]. simpl.
  destruct (isspace d); [exact IH | reflexivity].
Qed.

Lemma rstrip_idempotent (s : pystr) : rstrip (rstrip s) = rstrip s.
Proof.
  unfold rstrip. rewrite rev_involutive, lstrip_idempotent. reflexivity.
Qed.

Lemma rstrip_head (c : N) (rest : pystr) :
  isspace c = false -> exists kept, rstrip (c :: rest) = c :: kept.
Proof.
  intros Hc. unfold rstrip. simpl. rewrite lstrip_snoc.
  destruct (lstrip (rev rest)) as [|d kept].
  - exists []. rewrite lstrip_kept by exact Hc. reflexivity.
  - exists (rev (d :: kept)). rewrite rev_app_distr. reflexivity.
Qed.

Lemma strip_idempotent (s : pystr) : strip (strip s) = strip s.
Proof.
  unfold strip. destruct (lstrip s) as [|c rest] eqn:Hs; [reflexivity|].
  pose proof (lstrip_head s rest c Hs) as Hc.
  destruct (rstrip_head c rest Hc) as [kept Hkept].
  rewrite Hkept, (lstrip_kept c kept Hc), <- Hkept.
  apply rstrip_idempotent.
Qed.

(** * The category table *)

Section CategoryTable.

Lemma load_rows (header : list pystr) (rows : list (list pystr))
    (key : pystr) :
  _load_category_mapping (Some (header :: rows)) !! key
  = row_name <$> deciding_row key rows.
Proof.
  unfold _load_category_mapping, deciding_row.
  induction rows as [|row rows IH] using rev_ind; [reflexivity|].
  rewrite foldl_snoc, rev_unit. simpl.
  destruct row as [|category_id [|category_name columns]]; simpl;
    try exact IH.
  rewrite lookup_insert.
  destruct (decide (strip category_id = key)) as [Hkey|Hkey].
  - rewrite (bool_decide_eq_true_2 _ Hkey). reflexivity.
  - rewrite (bool_decide_eq_false_2 _ Hkey). exact IH.
Qed.

(** X21. The table loaded from the file names a category id exactly as the
    last row, after the header, that has at least two columns and whose
    first column stripped is that id: the name is its second column
    stripped.  Rows with fewer columns and the header are ignored, later
    rows override earlier ones, and ids and names carry no surrounding
    whitespace.  A file that cannot be read, or is empty, names nothing. *)
Theorem loaded_table_lookup (header : list pystr)
    (rows : list (list pystr)) (key : pystr) :
  _load_category_mapping (Some (header :: rows)) !! key
  = row_name <$> deciding_row key rows
  /\ (forall name,
        _load_category_mapping (Some (header :: rows)) !! key = Some name ->
        strip key = key /\ strip name = name)
  /\ _load_category_mapping None !! key = None
  /\ _load_category_mapping (Some []) !! key = None.
Proof.
  split; [apply load_rows|]. split; [|split; reflexivity].
  intros name. rewrite load_rows. unfold deciding_row.
  destruct (List.find (row_key key) (rev rows)) as [row|] eqn:Hfind;
    [|discriminate].
  apply find_some in Hfind as [_ Hkey]. simpl. intros [= <-].
  destruct row as [|category_id [|category_name columns]];
    try discriminate Hkey.
  simpl in *. apply bool_decide_eq_true_1 in Hkey. subst key.
  split; apply strip_idempotent.
Qed.

End CategoryTable.

(** X22. Only the stripped message matters to the wallet handler: white
    space before or after the address changes neither the answer nor what is
    logged. *)
Theorem handler_ignores_surrounding_space (cfg : config.thresholds)
    (category_mapping : gmap pystr pystr) (env : bot.Env) (db : Database.t)
    (tid text : pystr) :
  bot.analyze_wallet cfg category_mapping env db tid (strip text)
  = bot.analyze_wallet cfg category_mapping env db tid text.
Proof.
  unfold bot.analyze_wallet. rewrite strip_idempotent. reflexivity.
Qed.

(** * Statistics *)

Section Statistics.
Import Database.

(** The sum of the counts of the groups whose decision satisfies [P]. *)
Let total (P : list piece -> bool) (groups : list (list piece * Z)) : Z :=
  foldr Z.add 0 (map snd (List.filter (fun entry => P entry.1) groups)).

Lemma get_count_bump (key decision : list piece)
    (groups : list (list piece * Z)) :
  get_count key (bump decision groups)
  = get_count key groups + (if bool_decide (decision = key) then 1 else 0).
Proof.
  unfold get_count.
  induction groups as [|[d n] groups IH]; simpl;
    [|destruct (decide (d = decision)) as [->|Hne]; simpl].
  - destruct (bool_decide (decision = key)); reflexivity.
  - destruct (bool_decide (decision = key)); simpl; lia.
  - destruct (bool_decide (d = key)) eqn:Hd; simpl; [|exact IH].
    apply bool_decide_eq_true_1 in Hd.
    rewrite bool_decide_eq_false_2 by congruence. lia.
Qed.

Lemma total_bump (P : list piece -> bool) (decision : list piece)
    (groups : list (list piece * Z)) :
  total P (bump decision groups)
  = total P groups + (if P decision then 1 else 0).
Proof.
  unfold total.
  induction groups as [|[d n] groups IH]; simpl;
    [|destruct (decide (d = decision)) as [->|Hne]; simpl].
  - destruct (P decision); reflexivity.
  - destruct (P decision); simpl; lia.
  - destruct (P d); simpl; rewrite IH; lia.
Qed.

Lemma group_counts_get (key : list piece) (decisions : list (list piece)) :
  get_count key (group_counts decisions)
  = Z.of_nat (length (List.filter (fun d => bool_decide (d = key)) decisions)).
Proof.
  unfold group_counts.
  assert (Hgen : forall groups,
    get_count key (foldl (fun g d => bump d g) groups decisions)
    = get_count key groups
      + Z.of_nat (length (List.filter (fun d => bool_decide (d = key))
                            decisions))).
  { induction decisions as [|d decisions IH]; intros groups; simpl; [lia|].
    rewrite IH, get_count_bump.
    destruct (bool_decide (d = key)); simpl; lia. }
  rewrite Hgen. reflexivity.
Qed.

Lemma group_counts_total (P : list piece -> bool)
    (decisions : list (list piece)) :
  total P (group_counts decisions)
  = Z.of_nat (length (List.filter P decisions)).
Proof.
  unfold group_counts.
  assert (Hgen : forall groups,
    total P (foldl (fun g d => bump d g) groups decisions)
    = total P groups + Z.of_nat (length (List.filter P decisions))).
  { induction decisions as [|d decisions IH]; intros groups; simpl; [lia|].
    rewrite IH, total_bump. destruct (P d); simpl; lia. }
  rewrite Hgen. reflexivity.
Qed.

(** X23. [/stats] counts every approval twice.  When the decisions of the
    user's rows of the last thirty days are decisions of the evaluator
    (Approved, or Rejected with a reason), the Approved figure shown is
    twice the number of approved rows, because the entry "Approved" is
    counted once by name and once more as a decision that starts with
    "Approved"; the Rejected figure is the number of the other rows. *)
Theorem stats_command_counts (db : t) (now_day now_month now_sql : Z)
    (tid : pystr) (user : User) :
  get_user db tid = Some user ->
  is_active user = true ->
  let decisions := map ul_decision (recent_rows db now_sql user) in
  let approved_rows :=
    Z.of_nat (length (List.filter
      (fun d => bool_decide (d = EllipticClient.Approved)) decisions)) in
  Forall (fun d => d = EllipticClient.Approved \/ is_rejected d) decisions ->
  bot.stats_command db now_day now_month now_sql tid
  = bot.Stats (telegram_username user) (is_admin user) true
      (get_usage_count db now_day tid "day") (daily_limit user)
      (get_usage_count db now_month tid "month") (monthly_limit user)
      (Z.of_nat (length (List.filter
         (fun row => ul_user_id row =? id user) (usage_logs db))))
      (2 * approved_rows)
      (Z.of_nat (length decisions) - approved_rows).
Proof.
  intros Huser Hactive decisions approved_rows Hdecisions.
  unfold bot.stats_command, is_user_authorized, get_user_usage_stats.
  rewrite Huser, Hactive. simpl.
  fold decisions.
  fold (total (startswith "Approved") (group_counts decisions)).
  fold (total (startswith "Rejected") (group_counts decisions)).
  rewrite group_counts_get, !group_counts_total.
  assert (Happroved :
    List.filter (startswith "Approved") decisions
    = List.filter (fun d => bool_decide (d = EllipticClient.Approved))
        decisions).
  { apply filter_ext_in. intros d Hd.
    rewrite List.Forall_forall in Hdecisions.
    destruct (Hdecisions d Hd) as [->|[rejection_reason ->]]; reflexivity. }
  assert (Hrejected :
    Z.of_nat (length (List.filter (startswith "Rejected") decisions))
    = Z.of_nat (length decisions) - approved_rows).
  { unfold approved_rows. clear -Hdecisions.
    induction Hdecisions as [|d ds Hd _ IH]; simpl; [reflexivity|].
    destruct Hd as [->|[rejection_reason ->]]; simpl; lia. }
  rewrite Happroved, Hrejected. fold approved_rows.
  f_equal. lia.
Qed.

End Statistics.

(** * The further properties on concrete inputs *)

Section MoreWitnesses.
Import config EllipticClient Walk Verdict Database.

Lemma first_rejection_decides_witness :
  visits Sample.mixed
  = Sample.mixed_before ++ Sample.mixed_trigger :: Sample.mixed_after
  /\ (apply_compliance_rules defaults Sample.mapping Sample.mixed).1
     = Rejected [Txt "High-risk country "; Str (lit "IR");
                 Txt " detected within "; IntV 2; Txt " hops"].
Proof.
  split; [reflexivity|].
  refine (proj1 (first_rejection_decides defaults Sample.mapping
            Sample.mixed (3 # 2)%Q Sample.mixed_before Sample.mixed_after
            Sample.mixed_trigger _ _ _ _ _));
    [reflexivity | reflexivity | reflexivity
    | repeat constructor | vm_compute; reflexivity].
Defined.

Lemma relaxing_keeps_approval_witness :
  at_least_as_strict defaults Sample.looser
  /\ (apply_compliance_rules Sample.looser Sample.mapping
        (Sample.single "23" 3 (300 # 100))).1 = Approved.
Proof.
  assert (Hstrict : at_least_as_strict defaults Sample.looser).
  { unfold at_least_as_strict, Qle. simpl. lia. }
  split; [exact Hstrict|].
  apply (relaxing_keeps_approval Sample.mapping defaults Sample.looser
           (Sample.single "23" 3 (300 # 100)) Hstrict).
  vm_compute. reflexivity.
Defined.

Lemma handles_stay_unique_witness :
  NoDup (map telegram_id (users Sample.office))
  /\ NoDup (map telegram_id
              (users (add_user Executes Sample.office 50 3 (lit "erin_02")
                        None false 10 300).1))
  /\ NoDup (map telegram_id
              (users (add_user Executes Sample.office 50 3 (lit "dave_01")
                        None false 10 300).1)).
Proof.
  assert (Hunique : NoDup (map telegram_id (users Sample.office))).
  { apply (bool_decide_eq_true_1 _). vm_compute. reflexivity. }
  split; [exact Hunique|].
  split; apply (proj1 (handles_stay_unique Sample.office Hunique)).
Defined.

Lemma usage_stats_ordered_witness :
  exists stats,
    get_user_usage_stats Sample.db 1000000 1000000 1000000 (lit "alice")
    = Some stats
    /\ 0 <= st_daily_usage stats <= st_monthly_usage stats
    /\ st_monthly_usage stats <= st_total_usage stats.
Proof.
  eexists. split; [reflexivity|].
  refine (let H := usage_stats_ordered Sample.db 1000000 1000000 1000000
                     (lit "alice") _ _ eq_refl in
          conj (proj1 H) (proj1 (proj2 H))).
  vm_compute. discriminate.
Defined.

(** alice, who has used her two daily queries, has two again once she is
    removed and added. *)
Lemma readded_user_starts_from_zero_witness :
  get_usage_count Sample.db 1000000 (lit "alice") "day" = 2
  /\ Forall (fun row => ul_user_id row <> 3) (usage_logs Sample.db)
  /\ (let readded :=
        add_user Executes (remove_user Sample.db (lit "alice")).1
          1000000 3 (lit "alice") None false 2 300 in
      get_usage_count readded.1 1000000 (lit "alice") "day" = 0
      /\ check_usage_limit readded.1 1000000 1000000 (lit "alice")
         = (true, [Txt "OK"], 2, 300)).
Proof.
  assert (Hfresh : Forall (fun row => ul_user_id row <> 3)
                     (usage_logs Sample.db))
    by (repeat constructor; discriminate).
  pose proof (readded_user_starts_from_zero Executes Sample.db 1000000 3
                (lit "alice") None false 2 300 Hfresh)
    as [_ [Hzero [_ Hcheck]]].
  split; [reflexivity|]. split; [exact Hfresh|]. cbv zeta.
  split; [exact (Hzero 1000000 "day"%string)|].
  rewrite Hcheck. vm_compute. reflexivity.
Defined.




Lemma stats_command_counts_witness :
  bot.stats_command Sample.office 1000000 1000000 1000000 (lit "dave_01")
  = bot.Stats (Some (lit "dave_01")) false true 3 10 3 300 3 4 1.
Proof.
  refine (stats_command_counts Sample.office 1000000 1000000 1000000
            (lit "dave_01") (Sample.user 2 "dave_01" 10 300) _ _ _);
    [reflexivity | reflexivity|].
  vm_compute.
  repeat (apply Forall_cons_2;
          [first [left; reflexivity | right; eexists; reflexivity]|]).
  apply Forall_nil_2.
Defined.

End MoreWitnesses.

Section MoreExamples.
Import config Database.

(** A name that ends with a newline passes, five characters long with it. *)
Example validate_telegram_username_examples :
  let accepts s := (validators.validate_telegram_username s).1 in
  accepts (lit "@@john_doe") = true
  /\ accepts (lit "abcd" ++ [10%N]) = true
  /\ accepts (lit "john doe") = false
  /\ accepts (lit "abcd") = false
  /\ accepts (lit "@@@@@") = false
  /\ validators.validate_telegram_username []
     = (false, "Username cannot be empty"%string).
Proof. vm_compute. repeat split. Qed.

(** The second row for id 7 overrides the first; the row with one column and
    the header are skipped. *)
Example later_rows_override :
  let table :=
    _load_category_mapping (Some [
      [lit "7"; lit "Header"];
      [lit "7"; lit "Exchange"];
      [lit "seven"];
      [lit " 7"; lit "Mixer "; lit "ignored"]
    ]) in
  table !! lit "7" = Some (lit "Mixer") /\ table !! lit " 7" = None.
Proof. vm_compute. split; reflexivity. Qed.

Example admin_commands :
  let admin := lit "jcmosquera" in
  let dave := lit "dave_01" in
  let known db who :=
    match get_user db (lit who) with Some _ => true | None => false end in
  (* dave is no admin: nothing happens *)
  bot.removeuser_command Sample.office dave [admin]
  = (Sample.office, bot.AdminOnly)
  (* the admin cannot remove the admin *)
  /\ bot.removeuser_command Sample.office admin [lit "@jcmosquera"]
     = (Sample.office, bot.CannotRemoveAdmin)
  (* the admin removes dave, whose usage rows stay *)
  /\ known (bot.removeuser_command Sample.office admin [lit "@dave_01"]).1
       "dave_01" = false
  /\ usage_logs (bot.removeuser_command Sample.office admin [lit "@dave_01"]).1
     = usage_logs Sample.office
  (* a new user gets the default limits *)
  /\ (bot.adduser_command 10 300 Sample.office 50 3 admin [lit "@erin_02"]).2
     = bot.UserAdded (lit "erin_02") 10 300
  /\ (bot.adduser_command 10 300 Sample.office 50 3 admin [lit "dave_01"]).2
     = bot.UserNotAdded (lit "dave_01")
  /\ (bot.adduser_command 10 300 Sample.office 50 3 admin [lit "erin"]).2
     = bot.InvalidUsername "Username must be 5-32 characters long".
Proof. vm_compute. repeat split. Qed.

Example init_admin_example :
  let empty := {| users := []; usage_logs := []; error_logs := [] |} in
  let started := bot.init_admin empty 0 1 (lit "jcmosquera") in
  is_user_admin started (lit "jcmosquera") = true
  /\ check_usage_limit started 10 10 (lit "jcmosquera")
     = (true, [Txt "OK"], 999, 9999)
  /\ bot.init_admin started 5 2 (lit "jcmosquera") = started.
Proof. vm_compute. repeat split. Qed.

(** What makes [add_user] and [update_user_limits] answer False: a handle
    that is taken, a store that raises, a limit of [2 ^ 63]. *)
Example refused_writes :
  let add store handle monthly :=
    Database.add_user store Sample.office 50 3 (lit handle) None false
      10 monthly in
  (add Database.Executes "erin_02" 300).2 = true
  /\ add Database.Executes "dave_01" 300 = (Sample.office, false)
  /\ add Database.OperationalError "erin_02" 300 = (Sample.office, false)
  /\ add Database.Executes "erin_02" (2 ^ 63) = (Sample.office, false)
  /\ (add Database.Executes "erin_02" (2 ^ 63 - 1)).2 = true
  /\ Database.update_user_limits Sample.office 60 (lit "dave_01")
       (Some (2 ^ 63)) None
     = (Sample.office, false)
  /\ (Database.update_user_limits Sample.office 60 (lit "dave_01")
        (Some 20) None).2 = true.
Proof. vm_compute. repeat split. Qed.

End MoreExamples.
